(** * Session and intent orchestration of the Discord relay bot (src/bot.py)

    A shallow embedding of [bot.py]: the history store, the structured
    response step of [deepseek_chat], [chunk_text], the [/create_pic] command
    grammar, the dispatch performed by [on_message] and the request made by
    [_pollinations_image_sync], followed by the properties of the
    specification that concern them and by further properties of the code.

    Conventions of the model.
    - A Python [str] is a list of Unicode code points ([N]); string constants
      of the source are written as UTF-8 literals and decoded by [py].
    - A value of dynamic type (what [json.loads] returns, the [result] of
      [deepseek_chat]) is a [pyval]; the operations the source applies to it
      ([in], subscripting, item assignment, [isinstance], [min], [max],
      truth value, [strip]) are modelled on every [pyval], with the
      exceptions they raise.
    - [re], [json] and the [str] methods are library code: they are modelled
      by executable definitions that follow the CPython implementation ([re]
      as a backtracking matcher for the constructs the two patterns use,
      [json.loads] as the default strict decoder).  [\d] and [int()] are
      modelled on the ASCII digits.  Limits of the interpreter (recursion
      depth, the digit limit of [int]) are not modelled.
    - The two remote services are environments: the answer each call receives
      is an argument of the handler.  Calls and sends are recorded, in order,
      in a trace of events; a send never fails; the debugging output of
      [print] is left out.
    - [_pollinations_image_sync] is modelled over the answer of
      [requests.get]; [urllib.parse.quote] and [raise_for_status] follow
      CPython 3.11 and [requests].
    - Handlers run one after the other; within one run the local variable
      [history] of [deepseek_chat] always aliases the list stored in
      [conversation_history], so every [append] is an update of the store. *)

From Stdlib Require Import ZArith NArith List String Ascii Lia Bool DecimalString.
From Stdlib Require DecimalZ DecimalPos.
From stdpp Require Import base option list gmap.

Local Open Scope N_scope.

(** ** Python strings *)

Abbreviation str := (list N).

Module Str.

Fixpoint bytes_of (s : string) : list N :=
  match s with
  | EmptyString => []
  | String a r => N_of_ascii a :: bytes_of r
  end.

(** UTF-8 decoding of a (well-formed) literal of this file. *)
Fixpoint utf8_decode (bs : list N) : str :=
  match bs with
  | [] => []
  | b0 :: r0 =>
    if b0 <? 128 then b0 :: utf8_decode r0 else
    match r0 with
    | [] => []
    | b1 :: r1 =>
      if b0 <? 224 then ((b0 - 192) * 64 + (b1 - 128)) :: utf8_decode r1 else
      match r1 with
      | [] => []
      | b2 :: r2 =>
        if b0 <? 240
        then ((b0 - 224) * 4096 + (b1 - 128) * 64 + (b2 - 128)) :: utf8_decode r2
        else
        match r2 with
        | [] => []
        | b3 :: r3 =>
          ((b0 - 240) * 262144 + (b1 - 128) * 4096 + (b2 - 128) * 64 + (b3 - 128))
            :: utf8_decode r3
        end
      end
    end
  end.

Definition py (s : string) : str := utf8_decode (bytes_of s).

(** A literal in which the apostrophe stands for the double quote (JSON
    texts of the examples). *)
Definition jq (s : string) : str :=
  map (fun c => if c =? 39 then 34 else c) (py s).

Definition eqb (a b : str) : bool := bool_decide (a = b).

(** [str.isspace] on one character, which is also [\s] of [re] on [str]
    patterns. *)
Definition isspace (c : N) : bool :=
  ((9 <=? c) && (c <=? 13)) || ((28 <=? c) && (c <=? 32))
  || (c =? 133) || (c =? 160) || (c =? 5760)
  || ((8192 <=? c) && (c <=? 8202))
  || (c =? 8232) || (c =? 8233) || (c =? 8239) || (c =? 8287) || (c =? 12288).

Definition isdigit (c : N) : bool := (48 <=? c) && (c <=? 57).

(** Length of the longest prefix whose characters satisfy [p]. *)
Fixpoint span_len (p : N -> bool) (s : str) : nat :=
  match s with
  | c :: r => if p c then S (span_len p r) else O
  | [] => O
  end.

Definition lstrip (s : str) : str := drop (span_len isspace s) s.
Definition rstrip (s : str) : str := rev (lstrip (rev s)).

(** [s.strip()] *)
Definition strip (s : str) : str := rstrip (lstrip s).

(** [s.startswith(p)] *)
Fixpoint startswith (p s : str) : bool :=
  match p, s with
  | [], _ => true
  | a :: p', b :: s' => (a =? b) && startswith p' s'
  | _ :: _, [] => false
  end.

(** [sub in s] for strings. *)
Fixpoint contains (sub s : str) : bool :=
  startswith sub s || match s with [] => false | _ :: r => contains sub r end.

Fixpoint replace_go (old new : str) (skip : nat) (s : str) : str :=
  match s with
  | [] => []
  | c :: r =>
    match skip with
    | S k => replace_go old new k r
    | O => if startswith old s
           then new ++ replace_go old new (length old - 1) r
           else c :: replace_go old new O r
    end
  end.

(** [s.replace(old, new)] for a non-empty [old]. *)
Definition replace (old new s : str) : str := replace_go old new O s.

(** [str(n)] of an integer. *)
Definition of_Z (z : Z) : str :=
  bytes_of (NilZero.string_of_int (Z.to_int z)).

Definition of_nat (n : nat) : str := of_Z (Z.of_nat n).

(** [int(s)] on a string of ASCII digits. *)
Definition int_of_digits (s : str) : Z :=
  fold_left (fun acc c => (10 * acc + (Z.of_N c - 48))%Z) s 0%Z.

End Str.

Abbreviation py := Str.py.

Arguments Str.py : simpl never.
Arguments Str.jq : simpl never.

(** ** The fragment of [re] used by the two patterns

    A pattern is a sequence of items; an item is a literal, a repetition of
    a character class (greedy or lazy, with a least count) or the end
    anchor, and may be a capturing group.  Matching follows the backtracking
    order of [re]: a greedy repetition tries the longest run first, a lazy
    one the shortest, and the first complete match wins. *)

Module Re.

Inductive cls := Any | Space | NonSpace | Digit.

Definition in_cls (k : cls) (c : N) : bool :=
  match k with
  | Any => true
  | Space => Str.isspace c
  | NonSpace => negb (Str.isspace c)
  | Digit => Str.isdigit c
  end.

Inductive atom :=
| Lit (l : str)
| Rep (greedy : bool) (k : cls) (least : nat)
| Eos.

Inductive item :=
| Plain (a : atom)
| Group (a : atom).

Definition atom_of (i : item) : atom :=
  match i with Plain a | Group a => a end.

Definition capture (i : item) (m : str) (groups : list str) : list str :=
  match i with Plain _ => groups | Group _ => m :: groups end.

(** The repetition counts in the order in which they are tried. *)
Definition counts (greedy : bool) (least most : nat) : list nat :=
  let up := seq least (S most - least) in
  if greedy then rev up else up.

Fixpoint first_some {A B} (f : A -> option B) (l : list A) : option B :=
  match l with
  | [] => None
  | x :: r => match f x with Some y => Some y | None => first_some f r end
  end.

(** [$] without [re.MULTILINE]: at the end, or before a final newline. *)
Definition at_end (s : str) : bool :=
  match s with [] => true | [10] => true | _ => false end.

(** Match the pattern at the start of [s]; the groups, in order. *)
Fixpoint match_here (p : list item) (s : str) : option (list str) :=
  match p with
  | [] => Some []
  | i :: p' =>
    match atom_of i with
    | Lit l =>
      if Str.startswith l s
      then capture i l <$> match_here p' (drop (length l) s)
      else None
    | Eos =>
      if at_end s then capture i [] <$> match_here p' s else None
    | Rep greedy k least =>
      first_some
        (fun n => capture i (take n s) <$> match_here p' (drop n s))
        (counts greedy least (Str.span_len (in_cls k) s))
    end
  end.

(** [pattern.match(s)] *)
Definition re_match (p : list item) (s : str) : option (list str) :=
  match_here p s.

(** [re.search(pattern, s)]: the match at the leftmost start. *)
Fixpoint re_search (p : list item) (s : str) : option (list str) :=
  match match_here p s with
  | Some g => Some g
  | None => match s with [] => None | _ :: r => re_search p r end
  end.

End Re.

(** [CREATE_PIC_RE], lines 35-38:
    [^/create_pic\s+(\S+)\s+(\d+)\s+(\d+)\s+(.+)$] with [re.DOTALL]. *)
Definition CREATE_PIC_RE : list Re.item :=
  [ Re.Plain (Re.Lit (py "/create_pic"));
    Re.Plain (Re.Rep true Re.Space 1);
    Re.Group (Re.Rep true Re.NonSpace 1);
    Re.Plain (Re.Rep true Re.Space 1);
    Re.Group (Re.Rep true Re.Digit 1);
    Re.Plain (Re.Rep true Re.Space 1);
    Re.Group (Re.Rep true Re.Digit 1);
    Re.Plain (Re.Rep true Re.Space 1);
    Re.Group (Re.Rep true Re.Any 1);
    Re.Plain Re.Eos ].

(** The pattern of line 221: the fence, [\s*], a lazy group, [\s*], the
    closing fence. *)
Definition JSON_FENCE_RE : list Re.item :=
  [ Re.Plain (Re.Lit (py "```json"));
    Re.Plain (Re.Rep true Re.Space 0);
    Re.Group (Re.Rep false Re.Any 0);
    Re.Plain (Re.Rep true Re.Space 0);
    Re.Plain (Re.Lit (py "```")) ].

(** ** Python values and [json.loads] *)

#[local] Set Warnings "-register-all".

Inductive pyval :=
| PNone
| PBool (b : bool)
| PInt (z : Z)
| PFloat (lexeme : str)
| PStr (s : str)
| PList (l : list pyval)
| PDict (d : list (str * pyval)).

(** A [dict] with string keys, in insertion order and without repeated
    keys. *)
Abbreviation dict := (list (str * pyval)).

Module Dict.

Fixpoint get (k : str) (d : dict) : option pyval :=
  match d with
  | [] => None
  | (k', v) :: r => if Str.eqb k k' then Some v else get k r
  end.

(** [k in d] *)
Definition has (k : str) (d : dict) : bool :=
  match get k d with Some _ => true | None => false end.

(** [d[k] = v] *)
Fixpoint set (k : str) (v : pyval) (d : dict) : dict :=
  match d with
  | [] => [(k, v)]
  | (k', v') :: r => if Str.eqb k k' then (k, v) :: r else (k', v') :: set k v r
  end.

End Dict.

Module Json.

Inductive scan (A : Type) :=
| Scanned (a : A) (rest : str)
| Invalid
| Starved.
Arguments Scanned {A} a rest.
Arguments Invalid {A}.
Arguments Starved {A}.

Definition scan_map {A B} (f : A -> B) (r : scan A) : scan B :=
  match r with
  | Scanned a rest => Scanned (f a) rest
  | Invalid => Invalid
  | Starved => Starved
  end.

(** The whitespace of the decoder: space, tab, line feed, carriage return. *)
Definition is_ws (c : N) : bool :=
  (c =? 32) || (c =? 9) || (c =? 10) || (c =? 13).

Definition skip_ws (s : str) : str := drop (Str.span_len is_ws s) s.

Definition hex_digit (c : N) : option N :=
  if (48 <=? c) && (c <=? 57) then Some (c - 48)
  else if (97 <=? c) && (c <=? 102) then Some (c - 87)
  else if (65 <=? c) && (c <=? 70) then Some (c - 55)
  else None.

Definition hex4 (a b c d : N) : option N :=
  match hex_digit a, hex_digit b, hex_digit c, hex_digit d with
  | Some x, Some y, Some z, Some w => Some (((x * 16 + y) * 16 + z) * 16 + w)
  | _, _, _, _ => None
  end.

Definition simple_escape (c : N) : option N :=
  if c =? 34 then Some 34
  else if c =? 92 then Some 92
  else if c =? 47 then Some 47
  else if c =? 98 then Some 8
  else if c =? 102 then Some 12
  else if c =? 110 then Some 10
  else if c =? 114 then Some 13
  else if c =? 116 then Some 9
  else None.

Definition is_high_surrogate (u : N) : bool := (55296 <=? u) && (u <=? 56319).
Definition is_low_surrogate (u : N) : bool := (56320 <=? u) && (u <=? 57343).
Definition join_surrogates (hi lo : N) : N :=
  65536 + ((hi - 55296) * 1024 + (lo - 56320)).

(** [scanstring] in strict mode, from the character after the opening
    quote; [acc] is the decoded prefix, reversed. *)
Fixpoint scanstring (s : str) (acc : str) : scan str :=
  match s with
  | [] => Invalid
  | c :: r =>
    if c =? 34 then Scanned (rev acc) r
    else if c =? 92 then
      match r with
      | [] => Invalid
      | e :: r1 =>
        if e =? 117 then
          match r1 with
          | h1 :: h2 :: h3 :: h4 :: r2 =>
            match hex4 h1 h2 h3 h4 with
            | None => Invalid
            | Some u =>
              match r2 with
              | b :: v :: g1 :: g2 :: g3 :: g4 :: r3 =>
                if is_high_surrogate u && (b =? 92) && (v =? 117) then
                  match hex4 g1 g2 g3 g4 with
                  | None => Invalid
                  | Some u2 =>
                    if is_low_surrogate u2
                    then scanstring r3 (join_surrogates u u2 :: acc)
                    else scanstring r2 (u :: acc)
                  end
                else scanstring r2 (u :: acc)
              | _ => scanstring r2 (u :: acc)
              end
            end
          | _ => Invalid
          end
        else
          match simple_escape e with
          | Some x => scanstring r1 (x :: acc)
          | None => Invalid
          end
      end
    else if c <=? 31 then Invalid
    else scanstring r (c :: acc)
  end.

(** Length of the number at the start of [s] and whether it is a float: an
    optional minus sign, then a zero or a run of digits that does not start
    with a zero, then an optional fraction (a dot and at least one digit),
    then an optional exponent (e or E, an optional sign, at least one
    digit). *)
Definition number_span (s : str) : option (nat * bool) :=
  let nsign := match s with c :: _ => if c =? 45 then 1%nat else 0%nat | [] => 0%nat end in
  let s1 := drop nsign s in
  let nint :=
    match s1 with
    | c :: _ =>
      if c =? 48 then 1%nat
      else if Str.isdigit c then Str.span_len Str.isdigit s1
      else 0%nat
    | [] => 0%nat
    end in
  let s2 := drop nint s1 in
  let nfrac :=
    match s2 with
    | p :: d :: _ =>
      if (p =? 46) && Str.isdigit d then S (Str.span_len Str.isdigit (drop 1 s2))
      else 0%nat
    | _ => 0%nat
    end in
  let s3 := drop nfrac s2 in
  let nexp :=
    match s3 with
    | e :: r =>
      if (e =? 101) || (e =? 69) then
        let nsg :=
          match r with
          | g :: _ :: _ => if (g =? 45) || (g =? 43) then 1%nat else 0%nat
          | _ => 0%nat
          end in
        let nd := Str.span_len Str.isdigit (drop nsg r) in
        match nd with O => 0%nat | S _ => (1 + nsg + nd)%nat end
      else 0%nat
    | [] => 0%nat
    end in
  match nint with
  | O => None
  | S _ => Some ((nsign + nint + nfrac + nexp)%nat,
                 negb ((nfrac =? 0)%nat && (nexp =? 0)%nat))
  end.

Definition scan_number (s : str) : scan pyval :=
  match number_span s with
  | None => Invalid
  | Some (n, is_float) =>
    let lexeme := take n s in
    let v :=
      if is_float then PFloat lexeme
      else match lexeme with
           | c :: digits =>
             if c =? 45 then PInt (- Str.int_of_digits digits)
             else PInt (Str.int_of_digits lexeme)
           | [] => PInt 0
           end in
    Scanned v (drop n s)
  end.

Definition scan_word (w : str) (v : pyval) (s : str) : option (scan pyval) :=
  if Str.startswith w s then Some (Scanned v (drop (length w) s)) else None.

(** The named constants, then the numbers. *)
Definition scan_scalar (s : str) : scan pyval :=
  match scan_word (py "null") PNone s with Some r => r | None =>
  match scan_word (py "true") (PBool true) s with Some r => r | None =>
  match scan_word (py "false") (PBool false) s with Some r => r | None =>
  match scan_word (py "NaN") (PFloat (py "NaN")) s with Some r => r | None =>
  match scan_word (py "Infinity") (PFloat (py "Infinity")) s with Some r => r | None =>
  match scan_word (py "-Infinity") (PFloat (py "-Infinity")) s with Some r => r | None =>
  scan_number s
  end end end end end end.

(** [scan_once], with the object and array loops of the scanner. *)
Fixpoint scan_once (fuel : nat) (s : str) : scan pyval :=
  match fuel with
  | O => Starved
  | S f =>
    match s with
    | [] => Invalid
    | c :: r =>
      if c =? 34 then scan_map PStr (scanstring r [])
      else if c =? 123 then
        match skip_ws r with
        | c' :: r' =>
          if c' =? 125 then Scanned (PDict []) r'
          else scan_members f (skip_ws r) []
        | [] => Invalid
        end
      else if c =? 91 then
        match skip_ws r with
        | c' :: r' =>
          if c' =? 93 then Scanned (PList []) r'
          else scan_elements f (skip_ws r) []
        | [] => Invalid
        end
      else scan_scalar s
    end
  end
with scan_members (fuel : nat) (s : str) (acc : dict) : scan pyval :=
  match fuel with
  | O => Starved
  | S f =>
    match s with
    | [] => Invalid
    | q :: r =>
      if q =? 34 then
        match scanstring r [] with
        | Scanned key r1 =>
          match skip_ws r1 with
          | colon :: r2 =>
            if colon =? 58 then
              match scan_once f (skip_ws r2) with
              | Scanned v r3 =>
                match skip_ws r3 with
                | d :: r4 =>
                  if d =? 125 then Scanned (PDict (Dict.set key v acc)) r4
                  else if d =? 44
                  then scan_members f (skip_ws r4) (Dict.set key v acc)
                  else Invalid
                | [] => Invalid
                end
              | Invalid => Invalid
              | Starved => Starved
              end
            else Invalid
          | [] => Invalid
          end
        | Invalid => Invalid
        | Starved => Starved
        end
      else Invalid
    end
  end
with scan_elements (fuel : nat) (s : str) (acc : list pyval) : scan pyval :=
  match fuel with
  | O => Starved
  | S f =>
    match scan_once f s with
    | Scanned v r1 =>
      match skip_ws r1 with
      | d :: r2 =>
        if d =? 93 then Scanned (PList (acc ++ [v])) r2
        else if d =? 44 then scan_elements f (skip_ws r2) (acc ++ [v])
        else Invalid
      | [] => Invalid
      end
    | Invalid => Invalid
    | Starved => Starved
    end
  end.

(** Fuel that the scanner never exhausts on [s]: each character costs at
    most two steps. *)
Definition fuel_for (s : str) : nat := S (2 * length s).

(** [json.loads(s)] for a [str]: [None] stands for [JSONDecodeError]. *)
Definition loads (s : str) : option pyval :=
  if Str.startswith [65279] s then None else
  match scan_once (fuel_for s) (skip_ws s) with
  | Scanned v rest =>
    match skip_ws rest with [] => Some v | _ :: _ => None end
  | Invalid | Starved => None
  end.

End Json.

(** ** Exceptions *)

Inductive exn :=
| HTTPError (status_code : Z) (response_text : str) (message : str)
| Error (type_name : str) (message : str).

(** [type(e).__name__] *)
Definition exn_name (e : exn) : str :=
  match e with
  | HTTPError _ _ _ => py "HTTPError"
  | Error n _ => n
  end.

(** [str(e)] *)
Definition exn_text (e : exn) : str :=
  match e with
  | HTTPError _ _ m => m
  | Error _ m => m
  end.

Inductive outcome (A : Type) :=
| Return (a : A)
| Raise (e : exn).
Arguments Return {A} a.
Arguments Raise {A} e.

#[export] Instance outcome_ret : MRet outcome := fun A a => Return a.
#[export] Instance outcome_bind : MBind outcome := fun A B f m =>
  match m with
  | Return a => f a
  | Raise e => Raise e
  end.

(** ** The dynamic operations of Python that the handlers use

    Exception texts are those of CPython 3.11. *)

Module Py.

Definition type_name (v : pyval) : str :=
  match v with
  | PNone => py "NoneType"
  | PBool _ => py "bool"
  | PInt _ => py "int"
  | PFloat _ => py "float"
  | PStr _ => py "str"
  | PList _ => py "list"
  | PDict _ => py "dict"
  end.

Definition TypeError (m : str) : exn := Error (py "TypeError") m.

(** [k in c] for a string [k] *)
Definition contains (k : str) (c : pyval) : outcome bool :=
  match c with
  | PDict d => Return (Dict.has k d)
  | PStr s => Return (Str.contains k s)
  | PList l =>
    Return (existsb (fun v => match v with PStr s => Str.eqb k s | _ => false end) l)
  | _ => Raise (TypeError (py "argument of type '" ++ type_name c ++ py "' is not iterable"))
  end.

(** [c[k]] for a string [k] *)
Definition getitem (c : pyval) (k : str) : outcome pyval :=
  match c with
  | PDict d =>
    match Dict.get k d with
    | Some v => Return v
    | None => Raise (Error (py "KeyError") (py "'" ++ k ++ py "'"))
    end
  | PStr _ => Raise (TypeError (py "string indices must be integers, not 'str'"))
  | PList _ => Raise (TypeError (py "list indices must be integers or slices, not str"))
  | _ => Raise (TypeError (py "'" ++ type_name c ++ py "' object is not subscriptable"))
  end.

(** [c[k] = v] for a string [k]; the container after the assignment *)
Definition setitem (c : pyval) (k : str) (v : pyval) : outcome pyval :=
  match c with
  | PDict d => Return (PDict (Dict.set k v d))
  | PList _ => Raise (TypeError (py "list indices must be integers or slices, not str"))
  | _ => Raise (TypeError (py "'" ++ type_name c ++ py "' object does not support item assignment"))
  end.

(** [isinstance(v, int)]: [bool] is a subclass of [int]. *)
Definition isinstance_int (v : pyval) : bool :=
  match v with
  | PInt _ | PBool _ => true
  | _ => false
  end.

(** The integer denoted by an instance of [int] (applied to those only). *)
Definition int_val (v : pyval) : Z :=
  match v with
  | PInt z => z
  | PBool true => 1
  | _ => 0
  end%Z.

(** [min(a, b)] and [max(a, b)] on instances of [int]: the first argument
    is kept unless the second is strictly smaller (larger). *)
Definition min (a b : pyval) : pyval :=
  if (int_val b <? int_val a)%Z then b else a.
Definition max (a b : pyval) : pyval :=
  if (int_val a <? int_val b)%Z then b else a.

(** Whether the float written [lexeme] is zero: its digits are all zero, or
    the number is at most 2^-1075 and rounds to zero. *)
Definition float_is_zero (lexeme : str) : bool :=
  let s := match lexeme with c :: r => if c =? 45 then r else lexeme | [] => [] end in
  let ni := Str.span_len Str.isdigit s in
  let ipart := take ni s in
  let s1 := drop ni s in
  let fpart :=
    match s1 with
    | c :: r => if c =? 46 then take (Str.span_len Str.isdigit r) r else []
    | [] => []
    end in
  let s2 := match fpart with [] => s1 | _ :: _ => drop (S (length fpart)) s1 end in
  let ex :=
    match s2 with
    | _ :: g :: r =>
      if g =? 45 then (- Str.int_of_digits r)%Z
      else if g =? 43 then Str.int_of_digits r
      else Str.int_of_digits (g :: r)
    | _ => 0%Z
    end in
  let m := Str.int_of_digits (ipart ++ fpart) in
  let e := (ex - Z.of_nat (length fpart))%Z in
  match ni with
  | O => false
  | S _ => (m =? 0)%Z || ((e <? 0)%Z && (m * 2 ^ 1075 <=? 10 ^ (- e))%Z)
  end.

(** [bool(v)] *)
Definition truthy (v : pyval) : bool :=
  match v with
  | PNone => false
  | PBool b => b
  | PInt z => negb (z =? 0)%Z
  | PFloat l => negb (float_is_zero l)
  | PStr s => match s with [] => false | _ => true end
  | PList l => match l with [] => false | _ => true end
  | PDict d => match d with [] => false | _ => true end
  end.

(** [v.strip()] *)
Definition strip (v : pyval) : outcome str :=
  match v with
  | PStr s => Return (Str.strip s)
  | _ => Raise (Error (py "AttributeError")
                  (py "'" ++ type_name v ++ py "' object has no attribute 'strip'"))
  end.

End Py.

(** ** Constants of the module *)

Definition DISCORD_MAX_LEN : nat := 2000.
Definition MAX_HISTORY_MESSAGES : nat := 50.
Definition DEFAULT_IMAGE_MODEL : str := py "flux".
Definition DEFAULT_IMAGE_WIDTH : Z := 1024.
Definition DEFAULT_IMAGE_HEIGHT : Z := 1024.

Definition SYSTEM_PROMPT : str := Str.jq "你是一个智能助手，具备对话和图片生成能力。

## 核心任务
1. 理解用户意图，判断是否需要生成图片
2. 如果用户想生成图片，优化并翻译为高质量的英文提示词
3. 根据用户需求或图片用途智能选择合适的尺寸
4. 同时给出友好的文字回复

## 判断生图意图的标准
用户想生成图片的情况包括但不限于：
- 明确说'画一张'、'生成图片'、'创作一幅'、'帮我画'等
- 描述想要看到的场景、人物、物品等视觉内容
- 使用'想象'、'visualize'、'picture'等词汇描述画面
- 请求头像、壁纸、插图、海报等图像类型
- 要求重新生成、修改尺寸、换个风格等（基于上下文判断）

不需要生成图片的情况：
- 纯粹的问答、闲聊、知识查询
- 讨论图片相关话题但不需要实际生成
- 代码、文档、分析等文字任务

## 输出格式
你必须严格按以下 JSON 格式输出，不要输出任何其他内容：

```json
{
  'need_image': true或false,
  'image_prompt': '英文图片提示词（仅当need_image为true时填写，否则为空字符串）',
  'width': 图片宽度（整数，仅当need_image为true时填写，否则为0）,
  'height': 图片高度（整数，仅当need_image为true时填写，否则为0）,
  'reply': '给用户的文字回复'
}
```

## 图片尺寸选择原则
根据用户需求智能选择尺寸：
- 用户明确指定尺寸时：使用用户指定的尺寸（如 1920x1080、512x512 等）
- 桌面壁纸：1920x1080 或 2560x1440
- 手机壁纸：1080x1920（竖屏）
- 头像/图标：512x512 或 1024x1024
- 社交媒体横图：1200x630
- 海报/立绘：768x1024 或 1024x1536（竖版）
- 普通插图/一般用途：1024x1024
- 宽幅场景/风景：1536x1024 或 1920x1080
- 尺寸范围限制：64-4096，建议不超过 2048 以保证生成速度

## 图片提示词优化原则
当需要生成图片时，将用户描述转化为高质量英文提示词：
- 详细描述主体、场景、风格、光线、色彩
- 使用专业的艺术/摄影术语增强效果
- 可添加质量词如：masterpiece, highly detailed, 8k, professional
- 保持提示词简洁有力，通常 50-150 词
- 用户要求重新生成时，参考上下文中之前的提示词进行优化或调整

## 回复原则
- reply 字段用用户的语言回复（中文对话用中文回复）
- 生成图片时，回复要简短友好，说明将要生成的内容和尺寸
- 普通对话时正常回答问题
".

Definition HELP_TEXT : str := Str.jq "**🤖 智能助手帮助**

**💬 智能对话：**
- 在群聊中@我即可对话，私聊直接发送消息
- 每个频道/私信是一个独立的会话，会记住上下文

**🎨 智能生图：**
- 自然语言描述即可生成图片，例如：
  - '帮我画一只可爱的猫咪'
  - '生成一张赛博朋克风格的城市夜景'
  - '我想要一张日落海滩的壁纸'
- AI 会自动优化你的描述为专业的英文提示词

**⚙️ 高级生图（手动指定参数）：**
- `/create_pic model width height prompts`
- 示例：`/create_pic flux 1024 1024 a cute cat`

**📋 管理指令：**
- `/clear` - 清除当前会话的上下文历史
- `/help` - 显示此帮助信息
".

(** ** Session store, remote services and the handler monad *)

(** One entry of a history list: [{"role": ..., "content": ...}]. *)
Record Turn := { role : str; content : pyval }.

(** What a handler does to the outside, in order. *)
Inductive event :=
| ModelCall (messages : list Turn)
| ImageCall (model : str) (width height : Z) (prompt : str)
| Send (text : str)
| SendFile (data : list N) (filename : str)
| Unmodelled.

(** The answers of the outside to one handler run:
    [chat_completion messages] is [completion.choices[0].message.content]
    of [deepseek.chat.completions.create] (or the exception it raises),
    [pollinations_image] is the function of that name (lines 139-182). *)
Record env := {
  client_user_id : Z;
  chat_completion : list Turn -> outcome (option str);
  pollinations_image : str -> Z -> Z -> str -> outcome (list N * str)
}.

Record world := {
  conversation_history : gmap str (list Turn);
  trace : list event
}.

(** State (the store and the trace) and exceptions. *)
Definition M (A : Type) : Type := world -> outcome A * world.

#[export] Instance M_ret : MRet M := fun A a w => (Return a, w).
#[export] Instance M_bind : MBind M := fun A B f m w =>
  match m w with
  | (Return a, w') => f a w'
  | (Raise e, w') => (Raise e, w')
  end.

Definition lift {A} (o : outcome A) : M A := fun w => (o, w).

Definition emit (ev : event) : M unit := fun w =>
  (Return tt,
   {| conversation_history := conversation_history w; trace := trace w ++ [ev] |}).

(** [try: body  except Exception as e: handler] *)
Definition try_except {A} (body : M A) (handler : exn -> M A) : M A := fun w =>
  match body w with
  | (Raise e, w') => handler e w'
  | r => r
  end.

(** [conversation_history[key]] of the [defaultdict(list)]: an unknown key
    gets an empty list. *)
Definition history_get (key : str) : M (list Turn) := fun w =>
  match conversation_history w !! key with
  | Some h => (Return h, w)
  | None =>
    (Return [],
     {| conversation_history := <[key := []]> (conversation_history w);
        trace := trace w |})
  end.

(** The list stored under [key] becomes [h] (an in-place update of the
    stored list, or the assignment of line 204). *)
Definition history_put (key : str) (h : list Turn) : M unit := fun w =>
  (Return tt,
   {| conversation_history := <[key := h]> (conversation_history w);
      trace := trace w |}).

(** ** [get_session_key], [clear_session], [chunk_text] *)

Record Message := {
  author_bot : bool;
  author_id : Z;
  message_content : option str;
  is_dm_channel : bool;
  channel_id : Z;
  mentions_client : bool;
  role_mentions : list Z;
  guild_me_roles : option (list Z)
}.

Definition get_session_key (message : Message) : str :=
  if is_dm_channel message
  then py "dm_" ++ Str.of_Z (author_id message)
  else py "channel_" ++ Str.of_Z (channel_id message).

Definition clear_session (session_key : str) : M unit := fun w =>
  match conversation_history w !! session_key with
  | Some _ => history_put session_key [] w
  | None => (Return tt, w)
  end.

(** [range(0, stop, step)] for a positive [step]. *)
Definition range0 (stop step : nat) : list nat :=
  map (fun k => (k * step)%nat) (seq 0 ((stop + step - 1) / step)).

(** The chunks that the generator yields, in order. *)
Definition chunk_text (s : str) (n : nat) : list str :=
  map (fun i => take n (drop i s)) (range0 (length s) n).

(** ** [deepseek_chat] *)

Definition fallback_result (assistant_reply : str) : pyval :=
  PDict [ (py "need_image", PBool false);
          (py "image_prompt", PStr []);
          (py "width", PInt DEFAULT_IMAGE_WIDTH);
          (py "height", PInt DEFAULT_IMAGE_HEIGHT);
          (py "reply", PStr assistant_reply) ].

(** Lines 221-226: the text handed to [json.loads]. *)
Definition json_source (assistant_reply : str) : str :=
  match Re.re_search JSON_FENCE_RE assistant_reply with
  | Some (g :: _) => g
  | _ => assistant_reply
  end.

(** The condition of lines 239 and 241. *)
Definition invalid_dimension (result : pyval) (k : str) : outcome bool :=
  present ← Py.contains k result;
  if negb present then Return true else
  v ← Py.getitem result k;
  if negb (Py.isinstance_int v) then Return true else
  v' ← Py.getitem result k;
  Return (Py.int_val v' <=? 0)%Z.

(** Lines 245 and 246: [result[k] = max(64, min(4096, result[k]))]. *)
Definition clamp_dimension (result : pyval) (k : str) : outcome pyval :=
  v ← Py.getitem result k;
  Py.setitem result k (Py.max (PInt 64) (Py.min (PInt 4096) v)).

(** The body of the [try] statement, lines 220-246.  The text of the
    [JSONDecodeError] is never observed (line 248 discards it). *)
Definition parse_body (assistant_reply : str) : outcome pyval :=
  result ← match Json.loads (json_source assistant_reply) with
           | Some v => Return v
           | None => Raise (Error (py "JSONDecodeError") [])
           end;
  has_need ← Py.contains (py "need_image") result;
  has_all ← (if (has_need : bool) then Py.contains (py "reply") result else Return false);
  if negb has_all
  then Raise (Error (py "ValueError") (py "Missing required fields")) else
  has_prompt ← Py.contains (py "image_prompt") result;
  result ← (if negb has_prompt
            then Py.setitem result (py "image_prompt") (PStr [])
            else Return result);
  bad_width ← invalid_dimension result (py "width");
  result ← (if (bad_width : bool)
            then Py.setitem result (py "width") (PInt DEFAULT_IMAGE_WIDTH)
            else Return result);
  bad_height ← invalid_dimension result (py "height");
  result ← (if (bad_height : bool)
            then Py.setitem result (py "height") (PInt DEFAULT_IMAGE_HEIGHT)
            else Return result);
  result ← clamp_dimension result (py "width");
  clamp_dimension result (py "height").

(** [except (json.JSONDecodeError, ValueError)] *)
Definition is_value_error (e : exn) : bool :=
  Str.eqb (exn_name e) (py "JSONDecodeError") || Str.eqb (exn_name e) (py "ValueError").

(** Lines 219-256: the structured response step. *)
Definition structured_response (assistant_reply : str) : outcome pyval :=
  match parse_body assistant_reply with
  | Return result => Return result
  | Raise e =>
    if is_value_error e then Return (fallback_result assistant_reply) else Raise e
  end.

Definition user_turn (user_text : str) : Turn :=
  {| role := py "user"; content := PStr user_text |}.
Definition assistant_turn (reply : pyval) : Turn :=
  {| role := py "assistant"; content := reply |}.
Definition system_turn : Turn :=
  {| role := py "system"; content := PStr SYSTEM_PROMPT |}.

(** [history[-MAX_HISTORY_MESSAGES:]] *)
Definition last_messages (history : list Turn) : list Turn :=
  drop (length history - MAX_HISTORY_MESSAGES) history.

Definition deepseek_chat (E : env) (session_key user_text : str) : M pyval :=
  history ← history_get session_key;
  let history := history ++ [user_turn user_text] in
  history_put session_key history;;
  history ← (if bool_decide (MAX_HISTORY_MESSAGES < length history)%nat
             then history_put session_key (last_messages history);;
                  mret (last_messages history)
             else mret history);
  let messages := system_turn :: history in
  emit (ModelCall messages);;
  completion ← lift (chat_completion E messages);
  let assistant_reply := default [] completion in
  result ← lift (structured_response assistant_reply);
  reply ← lift (Py.getitem result (py "reply"));
  history_put session_key (history ++ [assistant_turn reply]);;
  mret result.

(** ** [on_message] *)

Definition nl : str := [10].

Fixpoint send_parts (parts : list str) : M unit :=
  match parts with
  | [] => mret tt
  | part :: rest => emit (Send part);; send_parts rest
  end.

(** The texts sent by the [/create_pic] branch. *)
Definition usage_text : str :=
  py "格式错误。" ++ nl
  ++ py "用法：`/create_pic model 1024 1024 prompts...`" ++ nl
  ++ py "示例：`/create_pic flux 1024 1024 a cat`".

Definition bad_dimensions_text : str := py "width/height 不合法（建议 64~4096 之间）。".

Definition generating_text (model : str) (width height : Z) (prompt : str) : str :=
  py "🎨 生成中：model=" ++ model ++ py ", " ++ Str.of_Z width ++ py "x"
  ++ Str.of_Z height ++ py ", prompt=`" ++ prompt ++ py "`".

Definition create_pic_failure_text (e : exn) : str :=
  match e with
  | HTTPError status text _ =>
    py "Pollinations 请求失败：HTTP " ++ Str.of_Z status ++ nl ++ take 800 text
  | _ => py "生成失败：" ++ exn_name e ++ py ": " ++ exn_text e
  end.

(** Line 367: the validation of the dimensions. *)
Definition dimensions_rejected (width height : Z) : bool :=
  ((width <=? 0) || (height <=? 0) || (4096 <? width) || (4096 <? height))%Z.

(** Lines 351-380: the [/create_pic] branch. *)
Definition create_pic_branch (E : env) (content : str) : M unit :=
  match Re.re_match CREATE_PIC_RE content with
  | Some [model; w; h; prompt] =>
    let width := Str.int_of_digits w in
    let height := Str.int_of_digits h in
    if dimensions_rejected width height
    then emit (Send bad_dimensions_text)
    else
      try_except
        (emit (Send (generating_text model width height prompt));;
         emit (ImageCall model width height prompt);;
         image ← lift (pollinations_image E model width height prompt);
         emit (SendFile image.1 image.2))
        (fun e => emit (Send (create_pic_failure_text e)))
  | _ => emit (Send usage_text)
  end.

(** Lines 393-414: the image generation of the default branch.  A truthy
    [image_prompt] that is a list or a dict is formatted and sliced in ways
    that depend on the interpreter version; the model records that the stage
    was entered and leaves its sends out. *)
Definition image_stage (E : env) (result : pyval) : M unit :=
  try_except
    (prompt ← lift (Py.getitem result (py "image_prompt"));
     width ← lift (Py.getitem result (py "width"));
     height ← lift (Py.getitem result (py "height"));
     match prompt, width, height with
     | PStr p, PInt w, PInt h =>
       emit (Send (py "🎨 正在生成图片 (" ++ Str.of_Z w ++ py "x" ++ Str.of_Z h
                   ++ py ")..." ++ nl ++ py "> Prompt: `" ++ take 200 p
                   ++ (if bool_decide (200 < length p)%nat then py "..." else [])
                   ++ py "`"));;
       emit (ImageCall DEFAULT_IMAGE_MODEL w h p);;
       image ← lift (pollinations_image E DEFAULT_IMAGE_MODEL w h p);
       emit (SendFile image.1 image.2)
     | PStr _, _, _ => emit Unmodelled
     | PList _, _, _ => emit Unmodelled
     | PDict _, _, _ => emit Unmodelled
     | v, _, _ =>
       lift (Raise (Py.TypeError
                      (py "'" ++ Py.type_name v ++ py "' object is not subscriptable")))
     end)
    (fun e =>
       match e with
       | HTTPError status _ _ =>
         emit (Send (py "⚠️ 图片生成失败：HTTP " ++ Str.of_Z status))
       | _ =>
         emit (Send (py "⚠️ 图片生成失败：" ++ exn_name e ++ py ": " ++ exn_text e))
       end).

(** Lines 383-417: the default branch. *)
Definition chat_branch (E : env) (session_key content : str) : M unit :=
  try_except
    (result ← deepseek_chat E session_key content;
     reply_value ← lift (Py.getitem result (py "reply"));
     stripped ← lift (Py.strip reply_value);
     let reply := match stripped with [] => py "(空回复)" | _ :: _ => stripped end in
     send_parts (chunk_text reply DISCORD_MAX_LEN);;
     need_image ← lift (Py.getitem result (py "need_image"));
     if Py.truthy need_image then
       image_prompt ← lift (Py.getitem result (py "image_prompt"));
       if Py.truthy image_prompt then image_stage E result else mret tt
     else mret tt)
    (fun e =>
       emit (Send (py "DeepSeek 调用失败：" ++ exn_name e ++ py ": " ++ exn_text e))).

(** Lines 318-417: what [on_message] does with the session key and the
    normalised content. *)
Definition on_content (E : env) (session_key content : str) : M unit :=
  if Str.eqb content (py "/clear") then
    clear_session session_key;;
    emit (Send (py "✅ 已清除本会话的上下文历史。"))
  else if Str.eqb content (py "/help") then emit (Send HELP_TEXT)
  else if Str.startswith (py "/create_pic") content then create_pic_branch E content
  else chat_branch E session_key content.

(** Lines 305-309: the mentions of the bot and of the roles are removed. *)
Definition strip_mentions (E : env) (message : Message) (content : str) : str :=
  let uid := Str.of_Z (client_user_id E) in
  let content := Str.replace (py "<@" ++ uid ++ py ">") [] content in
  let content := Str.replace (py "<@!" ++ uid ++ py ">") [] content in
  let content :=
    fold_left (fun c role => Str.replace (py "<@&" ++ Str.of_Z role ++ py ">") [] c)
              (role_mentions message) content in
  Str.strip content.

Definition on_message (E : env) (message : Message) : M unit :=
  if author_bot message then mret tt else
  let content := Str.strip (default [] (message_content message)) in
  match content with
  | [] => mret tt
  | _ :: _ =>
    let is_dm := is_dm_channel message in
    let is_mentioned := mentions_client message in
    let is_role_mentioned :=
      match guild_me_roles message with
      | Some roles =>
        existsb (fun role => bool_decide (role ∈ roles)) (role_mentions message)
      | None => false
      end in
    if negb is_dm && negb is_mentioned && negb is_role_mentioned then mret tt else
    let content :=
      if is_mentioned || is_role_mentioned
      then strip_mentions E message content else content in
    match content with
    | [] => emit (Send (py "你好！有什么可以帮你的吗？发送 `/help` 查看帮助。"))
    | _ :: _ => on_content E (get_session_key message) content
    end
  end.

(** A run of handlers, one after the other, each with the answers it gets. *)
Fixpoint run_messages (inbound : list (env * Message)) (w : world) : world :=
  match inbound with
  | [] => w
  | (E, message) :: rest => run_messages rest (on_message E message w).2
  end.

Definition empty_world : world :=
  {| conversation_history := ∅; trace := [] |}.

(** ** [urllib.parse.quote] with [safe=""] *)

Module Url.

Definition is_surrogate (c : N) : bool := (55296 <=? c) && (c <=? 57343).

(** The UTF-8 bytes of a character that is no surrogate. *)
Definition utf8_encode_char (c : N) : list N :=
  if c <? 128 then [c]
  else if c <? 2048 then [192 + c / 64; 128 + c mod 64]
  else if c <? 65536 then [224 + c / 4096; 128 + (c / 64) mod 64; 128 + c mod 64]
  else [240 + c / 262144; 128 + (c / 4096) mod 64; 128 + (c / 64) mod 64;
        128 + c mod 64].

Definition hex_lower (n : N) : N := if n <? 10 then 48 + n else 87 + n.
Definition hex_upper (n : N) : N := if n <? 10 then 48 + n else 55 + n.

(** [str(e)] of the [UnicodeEncodeError] that the strict encoder raises for
    the surrogates at the positions [start], ..., [last]; [c] is the first
    one. *)
Definition surrogates_not_allowed (c : N) (start last : nat) : str :=
  if bool_decide (start = last)
  then py "'utf-8' codec can't encode character '\u"
       ++ [hex_lower (c / 4096); hex_lower ((c / 256) mod 16);
           hex_lower ((c / 16) mod 16); hex_lower (c mod 16)]
       ++ py "' in position " ++ Str.of_nat start ++ py ": surrogates not allowed"
  else py "'utf-8' codec can't encode characters in position " ++ Str.of_nat start
       ++ py "-" ++ Str.of_nat last ++ py ": surrogates not allowed".

(** [s.encode("utf-8", "strict")], [s] being what follows position [pos]. *)
Fixpoint encode_from (pos : nat) (s : str) : outcome (list N) :=
  match s with
  | [] => Return []
  | c :: r =>
    if is_surrogate c
    then Raise (Error (py "UnicodeEncodeError")
                  (surrogates_not_allowed c pos (pos + Str.span_len is_surrogate r)))
    else rest ← encode_from (S pos) r; Return (utf8_encode_char c ++ rest)
  end.

Definition encode (s : str) : outcome (list N) := encode_from O s.

(** The bytes that are never quoted: letters, digits and [_.-~]. *)
Definition always_safe (b : N) : bool :=
  ((65 <=? b) && (b <=? 90)) || ((97 <=? b) && (b <=? 122))
  || ((48 <=? b) && (b <=? 57))
  || (b =? 95) || (b =? 46) || (b =? 45) || (b =? 126).

Definition quote_byte (b : N) : str :=
  if always_safe b then [b] else [37; hex_upper (b / 16); hex_upper (b mod 16)].

(** [quote(s, safe="")] *)
Definition quote (s : str) : outcome str :=
  bs ← encode s; Return (flat_map quote_byte bs).

End Url.

(** ** [requests] *)

Module Response.

(** What the handler and [raise_for_status] read of a response.  The value
    of a header is decoded as ISO-8859-1 by [http.client]: its characters
    are below 256. *)
Record t := {
  status_code : Z;
  reason : str;
  url : str;
  content_type : option str;
  content : list N;
  text : str
}.

(** [resp.raise_for_status()] *)
Definition raise_for_status (resp : t) : outcome unit :=
  let http_error_msg :=
    if (400 <=? status_code resp)%Z && (status_code resp <? 500)%Z
    then Str.of_Z (status_code resp) ++ py " Client Error: " ++ reason resp
         ++ py " for url: " ++ url resp
    else if (500 <=? status_code resp)%Z && (status_code resp <? 600)%Z
    then Str.of_Z (status_code resp) ++ py " Server Error: " ++ reason resp
         ++ py " for url: " ++ url resp
    else [] in
  match http_error_msg with
  | [] => Return tt
  | _ :: _ => Raise (HTTPError (status_code resp) (text resp) http_error_msg)
  end.

End Response.

(** [c.lower()] of a character below 256. *)
Definition lower_latin1 (c : N) : N :=
  if ((65 <=? c) && (c <=? 90)) || ((192 <=? c) && (c <=? 222) && negb (c =? 215))
  then c + 32 else c.

(** The network as [_pollinations_image_sync] sees it: the key of the
    environment and the answer of [requests.get] to a request (its URL, its
    parameters, its headers and its timeout). *)
Record network := {
  POLLINATIONS_API_KEY : option str;
  requests_get : str -> dict -> list (str * str) -> Z -> outcome Response.t
}.

(** Lines 146-161: the URL, the parameters and the headers of the request. *)
Definition pollinations_url (prompt_path : str) : str :=
  py "https://gen.pollinations.ai/image/" ++ prompt_path.

Definition pollinations_params (model : str) (width height : Z) : dict :=
  [ (py "model", PStr model);
    (py "width", PInt width);
    (py "height", PInt height);
    (py "seed", PInt (-1));
    (py "enhance", PStr (py "false")) ].

Definition pollinations_headers (key : option str) : list (str * str) :=
  let headers := [ (py "Accept", py "*/*") ] in
  match key with
  | Some (c :: k) => headers ++ [ (py "Authorization", py "Bearer " ++ c :: k) ]
  | _ => headers
  end.

(** Lines 166-172: the name of the file. *)
Definition image_filename (content_type : option str) : str :=
  let content_type := map lower_latin1 (default [] content_type) in
  if Str.contains (py "png") content_type then py "image.png"
  else if Str.contains (py "webp") content_type then py "image.webp"
  else py "image.jpg".

(** Lines 164-174: what is made of the response. *)
Definition pollinations_result (resp : Response.t) : outcome (list N * str) :=
  Response.raise_for_status resp;;
  let filename := image_filename (Response.content_type resp) in
  Return (Response.content resp, filename).

(** Lines 139-174. *)
Definition _pollinations_image_sync (net : network) (model : str) (width height : Z)
    (prompt : str) : outcome (list N * str) :=
  prompt_path ← Url.quote prompt;
  let url := pollinations_url prompt_path in
  let params := pollinations_params model width height in
  let headers := pollinations_headers (POLLINATIONS_API_KEY net) in
  resp ← requests_get net url params headers 120;
  pollinations_result resp.

(** The outside of the handlers when the image service is reached through
    [requests] (lines 177-182: [pollinations_image] runs the function above
    in a thread and gives its result or its exception). *)
Definition with_requests (E : env) (net : network) : env :=
  {| client_user_id := client_user_id E;
     chat_completion := chat_completion E;
     pollinations_image := _pollinations_image_sync net |}.

(** * Properties *)

(** ** Checks of the library models

    The expected values are those that CPython 3.11 computes for the same
    inputs. *)

Example json_loads_conforms_1 :
  map Json.loads
    [ py "";
      py " ";
      py "0";
      py "-0";
      py "01";
      py "1.";
      py ".5";
      py "1e5";
      py "1E+5";
      py "1e";
      py "1e+";
      py "1.5e-3x";
      py "-";
      py "--1" ]
  = [ None;
      None;
      Some (PInt 0);
      Some (PInt 0);
      None;
      None;
      None;
      Some (PFloat (py "1e5"));
      Some (PFloat (py "1E+5"));
      None;
      None;
      None;
      None;
      None ].
Proof. vm_compute. reflexivity. Qed.

Example json_loads_conforms_2 :
  map Json.loads
    [ py "+1";
      py "NaN";
      py "nan";
      py "Infinity";
      py "-Infinity";
      py "-Inf";
      py "Infinit";
      py "true";
      py "tru";
      py "truex";
      py "null";
      py " null ";
      [65279; 110; 117; 108; 108];
      [110; 117; 108; 108; 65279] ]
  = [ None;
      Some (PFloat (py "NaN"));
      None;
      Some (PFloat (py "Infinity"));
      Some (PFloat (py "-Infinity"));
      None;
      None;
      Some (PBool true);
      None;
      None;
      Some PNone;
      Some PNone;
      None;
      None ].
Proof. vm_compute. reflexivity. Qed.

Example json_loads_conforms_3 :
  map Json.loads
    [ py "[";
      py "]";
      py "[]";
      py "[ ]";
      py "[1,]";
      py "[,1]";
      py "[1 2]";
      py "[1,2]";
      py "[[[]]]";
      py "[[[[[[[[";
      py "]]";
      py "{";
      py "}";
      py "{}" ]
  = [ None;
      None;
      Some (PList []);
      Some (PList []);
      None;
      None;
      None;
      Some (PList [(PInt 1); (PInt 2)]);
      Some (PList [(PList [(PList [])])]);
      None;
      None;
      None;
      None;
      Some (PDict []) ].
Proof. vm_compute. reflexivity. Qed.

Example json_loads_conforms_4 :
  map Json.loads
    [ py "{ }";
      Str.jq "{'a'}";
      Str.jq "{'a':}";
      Str.jq "{'a':1,}";
      Str.jq "{'a':1 'b':2}";
      py "{a:1}";
      [123; 39; 97; 39; 58; 49; 125];
      Str.jq "{'a':1,'a':2,'b':3,'a':4}";
      Str.jq "'";
      Str.jq "''";
      Str.jq "'a";
      Str.jq "'\";
      Str.jq "'\'";
      Str.jq "'\u'" ]
  = [ Some (PDict []);
      None;
      None;
      None;
      None;
      None;
      None;
      Some (PDict [((py "a"), (PInt 4)); ((py "b"), (PInt 3))]);
      None;
      Some (PStr (py ""));
      None;
      None;
      None;
      None ].
Proof. vm_compute. reflexivity. Qed.

Example json_loads_conforms_5 :
  map Json.loads
    [ Str.jq "'\u12'";
      Str.jq "'\u123'";
      Str.jq "'\u1234'";
      Str.jq "'\u12G4'";
      Str.jq "'\uD83D\uDE00'";
      Str.jq "'\uD83D'";
      Str.jq "'\uD83Dx'";
      Str.jq "'\uD83D\u0041'";
      Str.jq "'\uD83D\uZZZZ'";
      Str.jq "'\uD83D\uDE0'";
      Str.jq "'\uDE00\uD83D'";
      Str.jq "'\ud83d\ude00\ud83d'";
      Str.jq "'\x41'";
      Str.jq "'\/\b\f\n\r\t\\\''" ]
  = [ None;
      None;
      Some (PStr [4660]);
      None;
      Some (PStr [128512]);
      Some (PStr [55357]);
      Some (PStr [55357; 120]);
      Some (PStr [55357; 65]);
      None;
      None;
      Some (PStr [56832; 55357]);
      Some (PStr [128512; 55357]);
      None;
      Some (PStr [47; 8; 12; 10; 13; 9; 92; 34]) ].
Proof. vm_compute. reflexivity. Qed.

Example json_loads_conforms_6 :
  map Json.loads
    [ [34; 97; 9; 98; 34];
      [34; 97; 10; 98; 34];
      [34; 97; 31; 98; 34];
      [34; 97; 127; 98; 34];
      [34; 0; 34];
      py "1 2";
      [49; 11];
      [11; 49];
      [160; 49];
      [49; 160];
      Str.jq "'a' 'b'";
      [91; 49; 93; 10];
      [9; 13; 10; 32; 91; 49; 93; 32; 9; 13; 10];
      py "123456789012345678901234567890" ]
  = [ None;
      None;
      None;
      Some (PStr [97; 127; 98]);
      None;
      None;
      None;
      None;
      None;
      None;
      None;
      Some (PList [(PInt 1)]);
      Some (PList [(PInt 1)]);
      Some (PInt 123456789012345678901234567890) ].
Proof. vm_compute. reflexivity. Qed.

Example json_loads_conforms_7 :
  map Json.loads
    [ py "-123456789012345678901234567890";
      py "0.0";
      py "-0.0";
      py "0e0";
      py "1.0";
      py "10";
      py "1_000";
      py "0x10";
      py "1e-400";
      py "[1e5,2E-3,3.25,-0.5e+2]";
      Str.jq "{'need_image': true, 'reply': 'ok'}";
      Str.jq "{'need_image': true, 'reply': 'ok', 'width': true}";
      Str.jq "'\u00e9\u4e2d'";
      Str.jq "'\uFFFF'" ]
  = [ Some (PInt (-123456789012345678901234567890));
      Some (PFloat (py "0.0"));
      Some (PFloat (py "-0.0"));
      Some (PFloat (py "0e0"));
      Some (PFloat (py "1.0"));
      Some (PInt 10);
      None;
      None;
      Some (PFloat (py "1e-400"));
      Some (PList [(PFloat (py "1e5")); (PFloat (py "2E-3")); (PFloat (py "3.25")); (PFloat (py "-0.5e+2"))]);
      Some (PDict [((py "need_image"), (PBool true)); ((py "reply"), (PStr (py "ok")))]);
      Some (PDict [((py "need_image"), (PBool true)); ((py "reply"), (PStr (py "ok"))); ((py "width"), (PBool true))]);
      Some (PStr [233; 20013]);
      Some (PStr [65535]) ].
Proof. vm_compute. reflexivity. Qed.

Example json_loads_conforms_8 :
  map Json.loads
    [ Str.jq "'\uffff'";
      Str.jq "'\U0041'";
      py "True";
      py "None";
      Str.jq "{'a':{'b':{'c':[1,{'d':null}]}}}";
      py "[[[[[[[[[[1]]]]]]]]]]";
      py "[{}]";
      Str.jq "{'':''}";
      Str.jq "{'a' : 1 , 'b' : [ ] }";
      Str.jq "{'a':1}x";
      py ",";
      py ":";
      py "[1,2,3";
      Str.jq "{'a':1" ]
  = [ Some (PStr [65535]);
      None;
      None;
      None;
      Some (PDict [((py "a"), (PDict [((py "b"), (PDict [((py "c"), (PList [(PInt 1); (PDict [((py "d"), PNone)])]))]))]))]);
      Some (PList [(PList [(PList [(PList [(PList [(PList [(PList [(PList [(PList [(PList [(PInt 1)])])])])])])])])])]);
      Some (PList [(PDict [])]);
      Some (PDict [((py ""), (PStr (py "")))]);
      Some (PDict [((py "a"), (PInt 1)); ((py "b"), (PList []))]);
      None;
      None;
      None;
      None;
      None ].
Proof. vm_compute. reflexivity. Qed.

Example json_loads_conforms_9 :
  map Json.loads
    [ py "[1}";
      Str.jq "{'a':1]";
      py "-1e";
      py "-01";
      py "00";
      py "0.";
      py "0.e1";
      py "0.1e";
      py "1.e1";
      py "2e+";
      py "2e-";
      py "2e+1";
      py "I";
      py "N" ]
  = [ None;
      None;
      None;
      None;
      None;
      None;
      None;
      None;
      None;
      None;
      None;
      Some (PFloat (py "2e+1"));
      None;
      None ].
Proof. vm_compute. reflexivity. Qed.

Example json_loads_conforms_10 :
  map Json.loads
    [ py "n";
      py "t";
      py "f";
      py "-I";
      py "-N";
      py "nullnull";
      py "falsey";
      py "1a";
      py "1-1";
      py "1+1";
      py "1.2.3";
      py "1e1e1";
      py "1e1.5";
      py "- 1" ]
  = [ None;
      None;
      None;
      None;
      None;
      None;
      None;
      None;
      None;
      None;
      None;
      None;
      None;
      None ].
Proof. vm_compute. reflexivity. Qed.

Example create_pic_re_conforms_1 :
  map (Re.re_match CREATE_PIC_RE)
    [ py "/create_pic flux 1024 1024 a cat";
      py "/create_pic flux abc 1024 a cat";
      py "/create_pic";
      py "/create_pic ";
      py "/create_pic a 1 2 3";
      py "/create_pic a 1 2  ";
      [47; 99; 114; 101; 97; 116; 101; 95; 112; 105; 99; 32; 97; 32; 49; 32; 50; 32; 10];
      [47; 99; 114; 101; 97; 116; 101; 95; 112; 105; 99; 32; 97; 32; 49; 32; 50; 32; 120; 10];
      py "/create_pic  a  01  002   x y  ";
      py "/create_picx a 1 2 3" ]
  = [ Some [py "flux"; py "1024"; py "1024"; py "a cat"];
      None;
      None;
      None;
      Some [py "a"; py "1"; py "2"; py "3"];
      Some [py "a"; py "1"; py "2"; py " "];
      Some [py "a"; py "1"; py "2"; [10]];
      Some [py "a"; py "1"; py "2"; [120; 10]];
      Some [py "a"; py "01"; py "002"; py "x y  "];
      None ].
Proof. vm_compute. reflexivity. Qed.

Example create_pic_re_conforms_2 :
  map (Re.re_match CREATE_PIC_RE)
    [ [47; 99; 114; 101; 97; 116; 101; 95; 112; 105; 99; 9; 97; 10; 49; 13; 50; 11; 122];
      py "/create_pic a1 2 3 4 5";
      py "/create_pic 1 2 3";
      py "/create_pic 1 2 3 4";
      py "/create_pic a 1 2";
      py "/create_pic a -1 2 x";
      py "/create_pic a 1.5 2 x";
      py "/create_pic a 1 2x y";
      [47; 99; 114; 101; 97; 116; 101; 95; 112; 105; 99; 32; 97; 160; 49; 160; 50; 160; 120];
      py " /create_pic a 1 2 x" ]
  = [ Some [py "a"; py "1"; py "2"; py "z"];
      Some [py "a1"; py "2"; py "3"; py "4 5"];
      None;
      Some [py "1"; py "2"; py "3"; py "4"];
      None;
      None;
      None;
      None;
      Some [py "a"; py "1"; py "2"; py "x"];
      None ].
Proof. vm_compute. reflexivity. Qed.

Example json_source_conforms_1 :
  map json_source
    [ py "";
      py "plain text";
      py "```json```";
      py "```json ```";
      py "```json a ```";
      [96; 96; 96; 106; 115; 111; 110; 10; 123; 34; 97; 34; 58; 49; 125; 10; 96; 96; 96];
      py "x```json a``` ```json b```";
      py "```json a";
      py "```json a``" ]
  = [ py "";
      py "plain text";
      py "";
      py "";
      py "a";
      Str.jq "{'a':1}";
      py "a";
      py "```json a";
      py "```json a``" ].
Proof. vm_compute. reflexivity. Qed.

Example json_source_conforms_2 :
  map json_source
    [ py "````json a````";
      py "```json```json```";
      py "```js```json x ``` y```";
      py "``` ```json  ```";
      py "```json ` `` ```";
      [96; 96; 96; 106; 115; 111; 110; 160; 97; 160; 96; 96; 96];
      py "```JSON a```";
      [96; 96; 96; 106; 115; 111; 110; 32; 97; 10; 96; 96; 96; 10; 96; 96; 96; 106; 115; 111; 110; 32; 98; 96; 96; 96] ]
  = [ py "a";
      py "";
      py "x";
      py "";
      py "` ``";
      py "a";
      py "```JSON a```";
      py "a" ].
Proof. vm_compute. reflexivity. Qed.

Example strip_conforms_1 :
  map Str.strip
    [ py "  a b  ";
      [9; 10; 32; 120; 32; 13; 11; 12];
      [28; 31; 97; 133; 160];
      [8195; 97; 12288];
      [8203; 97; 8203];
      py "";
      py " " ]
  = [ py "a b";
      py "x";
      py "a";
      py "a";
      [8203; 97; 8203];
      py "";
      py "" ].
Proof. vm_compute. reflexivity. Qed.

Example replace_conforms :
  Str.replace (py "<@7>") (py "") (py "<@7> hi <@7>") = py " hi "
  /\ Str.replace (py "<@!7>") (py "") (py "a<@!7>b<@7>") = py "ab<@7>"
  /\ Str.replace (py "aa") (py "b") (py "aaaaa") = py "bba"
  /\ Str.replace (py "ab") (py "") (py "xabyababz") = py "xyz".
Proof. vm_compute. repeat split; reflexivity. Qed.

Example of_Z_conforms :
  map Str.of_Z [0; 7; 1024; -5; 12345678901234567890]%Z
  = [py "0"; py "7"; py "1024"; py "-5"; py "12345678901234567890"].
Proof. vm_compute. reflexivity. Qed.

Example int_of_digits_conforms :
  map Str.int_of_digits [py "0"; py "007"; py "1024"; py "4097"]
  = [0; 7; 1024; 4097]%Z.
Proof. vm_compute. reflexivity. Qed.

Example float_is_zero_conforms :
  map Py.float_is_zero
    [py "0.0"; py "-0e5"; py "1e-400"; py "2e-324"; py "3e-324"; py "5e-324";
     py "1e-300"; py "0.5"; py "NaN"; py "-Infinity"]
  = [true; true; true; true; false; false; false; false; false; false].
Proof. vm_compute. reflexivity. Qed.

Example py_decodes_utf8 : py "(空回复)" = [40; 31354; 22238; 22797; 41].
Proof. vm_compute. reflexivity. Qed.

(** ** The history store under [deepseek_chat] *)

Section History.

Implicit Types (w : world) (h : list Turn) (key : str).

Definition stored (w : world) (key : str) : list Turn :=
  default [] (conversation_history w !! key).

(** The turns that the model is sent for a new user text. *)
Definition sent_history (w : world) (key user_text : str) : list Turn :=
  last_messages (stored w key ++ [user_turn user_text]).

(** The world at the moment the model is called. *)
Definition at_model_call (w : world) (key user_text : str) : world :=
  {| conversation_history :=
       <[key := sent_history w key user_text]> (conversation_history w);
     trace := trace w ++ [ModelCall (system_turn :: sent_history w key user_text)] |}.

Lemma last_messages_short h :
  (length h <= MAX_HISTORY_MESSAGES)%nat -> last_messages h = h.
Proof.
  intros H. unfold last_messages.
  replace (length h - MAX_HISTORY_MESSAGES)%nat with O by lia. reflexivity.
Qed.

Lemma last_messages_length h :
  length (last_messages h) = Nat.min MAX_HISTORY_MESSAGES (length h).
Proof. unfold last_messages. rewrite length_drop. lia. Qed.

Lemma last_messages_suffix h :
  h = take (length h - MAX_HISTORY_MESSAGES) h ++ last_messages h.
Proof. unfold last_messages. symmetry. apply take_drop. Qed.

Lemma last_messages_last h t : last (last_messages (h ++ [t])) = Some t.
Proof.
  unfold last_messages. rewrite length_app. simpl.
  rewrite drop_app_le by (unfold MAX_HISTORY_MESSAGES; lia).
  apply last_snoc.
Qed.

(** One run of [deepseek_chat], step by step. *)
Lemma deepseek_chat_run (E : env) key user_text w :
  let sent := sent_history w key user_text in
  let w1 := at_model_call w key user_text in
  deepseek_chat E key user_text w =
  match chat_completion E (system_turn :: sent) with
  | Raise e => (Raise e, w1)
  | Return completion =>
    match structured_response (default [] completion) with
    | Raise e => (Raise e, w1)
    | Return result =>
      match Py.getitem result (py "reply") with
      | Raise e => (Raise e, w1)
      | Return reply =>
        (Return result,
         {| conversation_history :=
              <[key := sent ++ [assistant_turn reply]]> (conversation_history w);
            trace := trace w1 |})
      end
    end
  end.
Proof.
  intros sent w1.
  unfold deepseek_chat, mbind, M_bind, history_get, history_put, emit, lift, mret, M_ret.
  subst sent w1. unfold at_model_call, sent_history, stored.
  destruct (conversation_history w !! key) as [h0|] eqn:Hk; simpl.
  - destruct (bool_decide (MAX_HISTORY_MESSAGES < _)%nat) eqn:Hlen; simpl.
    + rewrite insert_insert_eq.
      destruct (chat_completion E _) as [c|e]; simpl; [|done].
      destruct (structured_response _) as [r|e]; simpl; [|done].
      destruct (Py.getitem r _) as [v|e]; simpl; [|done].
      by rewrite insert_insert_eq.
    + apply bool_decide_eq_false in Hlen.
      rewrite last_messages_short by lia.
      destruct (chat_completion E _) as [c|e]; simpl; [|done].
      destruct (structured_response _) as [r|e]; simpl; [|done].
      destruct (Py.getitem r _) as [v|e]; simpl; [|done].
      by rewrite insert_insert_eq.
  - rewrite insert_insert_eq.
    destruct (chat_completion E _) as [c|e]; simpl; [|done].
    destruct (structured_response _) as [r|e]; simpl; [|done].
    destruct (Py.getitem r _) as [v|e]; simpl; [|done].
    by rewrite insert_insert_eq.
Qed.

End History.

(** ** Dictionaries *)

Section DictFacts.

Implicit Types (d : dict) (k : str) (v : pyval).

Lemma eqb_true k k' : Str.eqb k k' = true <-> k = k'.
Proof. unfold Str.eqb. apply bool_decide_eq_true. Qed.

Lemma eqb_false k k' : Str.eqb k k' = false <-> k <> k'.
Proof. unfold Str.eqb. apply bool_decide_eq_false. Qed.

Lemma eqb_refl k : Str.eqb k k = true.
Proof. by apply eqb_true. Qed.

Lemma dict_get_set_eq k v d : Dict.get k (Dict.set k v d) = Some v.
Proof.
  induction d as [|[k' v'] d IH]; simpl.
  - by rewrite eqb_refl.
  - destruct (Str.eqb k k') eqn:Hk; simpl.
    + by rewrite eqb_refl.
    + by rewrite Hk.
Qed.

Lemma dict_get_set_ne k k' v d :
  k <> k' -> Dict.get k' (Dict.set k v d) = Dict.get k' d.
Proof.
  intros Hne. induction d as [|[k0 v0] d IH]; simpl.
  - assert (Str.eqb k' k = false) as -> by (apply eqb_false; congruence). done.
  - destruct (Str.eqb k k0) eqn:Hk; simpl.
    + apply eqb_true in Hk. subst k0.
      assert (Str.eqb k' k = false) as -> by (apply eqb_false; congruence). done.
    + destruct (Str.eqb k' k0); [done | apply IH].
Qed.

Lemma dict_has_get k d :
  Dict.has k d = true <-> exists v, Dict.get k d = Some v.
Proof.
  unfold Dict.has. destruct (Dict.get k d); split; eauto; intros H.
  - discriminate.
  - by destruct H.
Qed.

Lemma dict_has_false k d : Dict.has k d = false <-> Dict.get k d = None.
Proof. unfold Dict.has. destruct (Dict.get k d); split; congruence. Qed.

End DictFacts.

(** Two key literals differ. *)
Ltac keys_differ := let H := fresh in intros H; vm_compute in H; discriminate H.

(** ** The structured response step on objects *)

Section Normalisation.

Implicit Types (o d : dict) (k : str) (v : pyval) (raw : str).

(** The steps of lines 234-246 when [result] is a [dict]. *)
Definition default_prompt (d : dict) : dict :=
  if Dict.has (py "image_prompt") d then d
  else Dict.set (py "image_prompt") (PStr []) d.

Definition dimension_is_bad (d : dict) (k : str) : bool :=
  match Dict.get k d with
  | None => true
  | Some v => negb (Py.isinstance_int v) || (Py.int_val v <=? 0)%Z
  end.

Definition default_dimension (k : str) (dflt : Z) (d : dict) : dict :=
  if dimension_is_bad d k then Dict.set k (PInt dflt) d else d.

Definition clamp (v : pyval) : pyval := Py.max (PInt 64) (Py.min (PInt 4096) v).

Definition clamp_dict (k : str) (d : dict) : dict :=
  match Dict.get k d with
  | Some v => Dict.set k (clamp v) d
  | None => d
  end.

Definition normalise (o : dict) : dict :=
  clamp_dict (py "height")
    (clamp_dict (py "width")
       (default_dimension (py "height") DEFAULT_IMAGE_HEIGHT
          (default_dimension (py "width") DEFAULT_IMAGE_WIDTH (default_prompt o)))).

Lemma invalid_dimension_dict d k :
  invalid_dimension (PDict d) k = Return (dimension_is_bad d k).
Proof.
  unfold invalid_dimension, dimension_is_bad, Dict.has. simpl.
  unfold Dict.has. destruct (Dict.get k d) as [v|] eqn:Hg; simpl; [|done].
  destruct (Py.isinstance_int v); simpl; done.
Qed.

Lemma clamp_dimension_dict d k :
  Dict.has k d = true -> clamp_dimension (PDict d) k = Return (PDict (clamp_dict k d)).
Proof.
  intros [v Hv]%dict_has_get. unfold clamp_dimension, clamp_dict. simpl.
  by rewrite Hv.
Qed.

Definition clampZ (z : Z) : Z := Z.max 64 (Z.min 4096 z).

Lemma clamp_int v :
  Py.isinstance_int v = true -> clamp v = PInt (clampZ (Py.int_val v)).
Proof.
  unfold clamp, clampZ, Py.max, Py.min.
  destruct v as [|[]|z| | | |]; try discriminate; intros _; simpl; try reflexivity.
  destruct (4096 <? z)%Z eqn:H1; simpl.
  - assert ((z <? 4096)%Z = false) as -> by lia. simpl. f_equal. lia.
  - destruct (z <? 4096)%Z eqn:H2; simpl.
    + destruct (64 <? z)%Z eqn:H3; f_equal; lia.
    + f_equal. lia.
Qed.

Lemma default_dimension_get_eq k dflt d :
  Dict.get k (default_dimension k dflt d)
  = if dimension_is_bad d k then Some (PInt dflt) else Dict.get k d.
Proof.
  unfold default_dimension. destruct (dimension_is_bad d k); [|done].
  apply dict_get_set_eq.
Qed.

Lemma default_dimension_get_ne k k' dflt d :
  k <> k' -> Dict.get k' (default_dimension k dflt d) = Dict.get k' d.
Proof.
  intros Hne. unfold default_dimension. destruct (dimension_is_bad d k); [|done].
  by apply dict_get_set_ne.
Qed.

Lemma default_dimension_has k dflt d :
  Dict.has k (default_dimension k dflt d) = true.
Proof.
  apply dict_has_get. rewrite default_dimension_get_eq.
  unfold dimension_is_bad. destruct (Dict.get k d) as [v|]; [|eauto].
  destruct (negb _ || _); eauto.
Qed.

Lemma clamp_dict_get_eq k d :
  Dict.get k (clamp_dict k d) = clamp <$> Dict.get k d.
Proof.
  unfold clamp_dict. destruct (Dict.get k d) as [v|] eqn:Hv; simpl.
  - apply dict_get_set_eq.
  - by rewrite Hv.
Qed.

Lemma clamp_dict_get_ne k k' d :
  k <> k' -> Dict.get k' (clamp_dict k d) = Dict.get k' d.
Proof.
  intros Hne. unfold clamp_dict. destruct (Dict.get k d); [|done].
  by apply dict_get_set_ne.
Qed.

Lemma default_prompt_get_ne k o :
  py "image_prompt" <> k -> Dict.get k (default_prompt o) = Dict.get k o.
Proof.
  intros Hne. unfold default_prompt. destruct (Dict.has _ o); [done|].
  by apply dict_get_set_ne.
Qed.

Lemma default_prompt_get o :
  Dict.get (py "image_prompt") (default_prompt o)
  = Some (default (PStr []) (Dict.get (py "image_prompt") o)).
Proof.
  unfold default_prompt, Dict.has.
  destruct (Dict.get (py "image_prompt") o) eqn:Hp; simpl; [done|].
  apply dict_get_set_eq.
Qed.

(** The value that a dimension ends with. *)
Definition dimension_value (o : dict) (k : str) (dflt : Z) : Z :=
  if dimension_is_bad o k then clampZ dflt
  else clampZ (Py.int_val (default PNone (Dict.get k o))).

Lemma dimension_step k dflt d :
  clamp <$> Dict.get k (default_dimension k dflt d)
  = Some (PInt (dimension_value d k dflt)).
Proof.
  rewrite default_dimension_get_eq. unfold dimension_value, dimension_is_bad.
  destruct (Dict.get k d) as [v|] eqn:Hv; simpl; [|by rewrite clamp_int].
  destruct (Py.isinstance_int v) eqn:Hi; simpl; [|by rewrite clamp_int].
  destruct (Py.int_val v <=? 0)%Z; simpl; by rewrite clamp_int.
Qed.

Lemma dimension_is_bad_ext d d' k :
  Dict.get k d = Dict.get k d' -> dimension_is_bad d k = dimension_is_bad d' k.
Proof. unfold dimension_is_bad. by intros ->. Qed.

Lemma dimension_value_ext d d' k dflt :
  Dict.get k d = Dict.get k d' -> dimension_value d k dflt = dimension_value d' k dflt.
Proof.
  intros H. unfold dimension_value. rewrite (dimension_is_bad_ext d d' k H).
  by rewrite H.
Qed.

Lemma normalise_width o :
  Dict.get (py "width") (normalise o)
  = Some (PInt (dimension_value o (py "width") DEFAULT_IMAGE_WIDTH)).
Proof.
  unfold normalise.
  rewrite clamp_dict_get_ne by keys_differ.
  rewrite clamp_dict_get_eq.
  rewrite default_dimension_get_ne by keys_differ.
  rewrite dimension_step. do 2 f_equal.
  apply dimension_value_ext, default_prompt_get_ne. keys_differ.
Qed.

Lemma normalise_height o :
  Dict.get (py "height") (normalise o)
  = Some (PInt (dimension_value o (py "height") DEFAULT_IMAGE_HEIGHT)).
Proof.
  unfold normalise.
  rewrite clamp_dict_get_eq.
  assert (Hw : forall d,
             Dict.get (py "height") (clamp_dict (py "width") d)
             = Dict.get (py "height") d)
    by (intros d; apply clamp_dict_get_ne; keys_differ).
  assert (Hstep : forall d d' : dict,
             Dict.get (py "height") d = Dict.get (py "height") d' ->
             clamp <$> Dict.get (py "height") d = clamp <$> Dict.get (py "height") d')
    by (by intros d d' ->).
  rewrite (Hstep _ _ (Hw _)). rewrite dimension_step. do 2 f_equal.
  apply dimension_value_ext.
  rewrite default_dimension_get_ne by keys_differ.
  apply default_prompt_get_ne. keys_differ.
Qed.

Lemma normalise_prompt o :
  Dict.get (py "image_prompt") (normalise o)
  = Some (default (PStr []) (Dict.get (py "image_prompt") o)).
Proof.
  unfold normalise.
  rewrite !clamp_dict_get_ne by keys_differ.
  rewrite !default_dimension_get_ne by keys_differ.
  apply default_prompt_get.
Qed.


Lemma dimension_value_range o k :
  (64 <= dimension_value o k 1024 <= 4096)%Z.
Proof. unfold dimension_value, clampZ. destruct (dimension_is_bad o k); lia. Qed.

(** The body of the [try] on a decoded object. *)
Lemma parse_body_object raw o :
  Json.loads (json_source raw) = Some (PDict o) ->
  parse_body raw =
  if Dict.has (py "need_image") o && Dict.has (py "reply") o
  then Return (PDict (normalise o))
  else Raise (Error (py "ValueError") (py "Missing required fields")).
Proof.
  intros Hl. unfold parse_body. rewrite Hl.
  cbn [mbind outcome_bind Py.contains].
  destruct (Dict.has (py "need_image") o); cbn [andb negb mbind outcome_bind Py.contains]; [|done].
  destruct (Dict.has (py "reply") o); cbn [andb negb mbind outcome_bind]; [|done].
  assert (Hp : (if negb (Dict.has (py "image_prompt") o)
                then Py.setitem (PDict o) (py "image_prompt") (PStr [])
                else Return (PDict o)) = Return (PDict (default_prompt o))).
  { unfold default_prompt. by destruct (Dict.has (py "image_prompt") o). }
  rewrite Hp. cbn [mbind outcome_bind].
  rewrite invalid_dimension_dict. cbn [mbind outcome_bind].
  set (d1 := default_prompt o).
  assert (Hw : (if dimension_is_bad d1 (py "width")
                then Py.setitem (PDict d1) (py "width") (PInt DEFAULT_IMAGE_WIDTH)
                else Return (PDict d1))
               = Return (PDict (default_dimension (py "width") DEFAULT_IMAGE_WIDTH d1))).
  { unfold default_dimension. by destruct (dimension_is_bad d1 (py "width")). }
  rewrite Hw. cbn [mbind outcome_bind].
  rewrite invalid_dimension_dict. cbn [mbind outcome_bind].
  set (d2 := default_dimension (py "width") DEFAULT_IMAGE_WIDTH d1).
  assert (Hh : (if dimension_is_bad d2 (py "height")
                then Py.setitem (PDict d2) (py "height") (PInt DEFAULT_IMAGE_HEIGHT)
                else Return (PDict d2))
               = Return (PDict (default_dimension (py "height") DEFAULT_IMAGE_HEIGHT d2))).
  { unfold default_dimension. by destruct (dimension_is_bad d2 (py "height")). }
  rewrite Hh. cbn [mbind outcome_bind].
  set (d3 := default_dimension (py "height") DEFAULT_IMAGE_HEIGHT d2).
  rewrite clamp_dimension_dict.
  2:{ apply dict_has_get. subst d3.
      rewrite default_dimension_get_ne by keys_differ.
      apply dict_has_get, default_dimension_has. }
  cbn [mbind outcome_bind].
  rewrite clamp_dimension_dict; [done|].
  apply dict_has_get. rewrite clamp_dict_get_ne by keys_differ.
  apply dict_has_get, default_dimension_has.
Qed.

End Normalisation.

(** ** The structured response step on values that are not objects *)

Section NotAnObject.

Implicit Types (v : pyval) (k raw : str).

Definition not_dict (v : pyval) : Prop := forall d, v <> PDict d.

Lemma setitem_not_dict v k x :
  not_dict v -> exists e, Py.setitem v k x = Raise e.
Proof. intros H. destruct v; simpl; eauto. by destruct (H d). Qed.

Lemma invalid_dimension_not_dict v k :
  not_dict v ->
  (exists e, invalid_dimension v k = Raise e) \/ invalid_dimension v k = Return true.
Proof.
  intros H. unfold invalid_dimension.
  destruct v; simpl; eauto.
  - destruct (Str.contains k s); simpl; eauto.
  - destruct (existsb _ l); simpl; eauto.
  - by destruct (H d).
Qed.

(** A decoded value that is not an object never leaves the [try] body
    normally. *)
Lemma parse_body_not_dict raw v :
  Json.loads (json_source raw) = Some v -> not_dict v ->
  exists e, parse_body raw = Raise e.
Proof.
  intros Hl Hv. unfold parse_body. rewrite Hl. cbn [mbind outcome_bind].
  destruct (Py.contains (py "need_image") v) as [b1|e]; cbn [mbind outcome_bind]; eauto.
  assert (Hrest : forall b : bool, exists e,
    (if negb b
     then Raise (Error (py "ValueError") (py "Missing required fields"))
     else
       has_prompt ← Py.contains (py "image_prompt") v;
       result ← (if negb has_prompt
                 then Py.setitem v (py "image_prompt") (PStr [])
                 else Return v);
       bad_width ← invalid_dimension result (py "width");
       result0 ← (if (bad_width : bool)
                  then Py.setitem result (py "width") (PInt DEFAULT_IMAGE_WIDTH)
                  else Return result);
       bad_height ← invalid_dimension result0 (py "height");
       result1 ← (if (bad_height : bool)
                  then Py.setitem result0 (py "height") (PInt DEFAULT_IMAGE_HEIGHT)
                  else Return result0);
       result2 ← clamp_dimension result1 (py "width");
       clamp_dimension result2 (py "height")) = Raise e).
  { intros [|]; cbn [negb]; eauto.
    destruct (Py.contains (py "image_prompt") v) as [b3|e]; cbn [mbind outcome_bind]; eauto.
    destruct b3; cbn [negb].
    - cbn [mbind outcome_bind].
      destruct (invalid_dimension_not_dict v (py "width") Hv) as [[e ->]| ->];
        cbn [mbind outcome_bind]; eauto.
      destruct (setitem_not_dict v (py "width") (PInt DEFAULT_IMAGE_WIDTH) Hv) as [e ->].
      cbn [mbind outcome_bind]. eauto.
    - destruct (setitem_not_dict v (py "image_prompt") (PStr []) Hv) as [e ->].
      cbn [mbind outcome_bind]. eauto. }
  destruct b1.
  - destruct (Py.contains (py "reply") v) as [b2|e]; cbn [mbind outcome_bind]; eauto.
  - cbn [mbind outcome_bind]. apply (Hrest false).
Qed.

(** Whenever the [try] body returns, it returns a normalised object. *)
Lemma parse_body_returns raw result :
  parse_body raw = Return result ->
  exists o, Json.loads (json_source raw) = Some (PDict o)
            /\ Dict.has (py "need_image") o = true
            /\ Dict.has (py "reply") o = true
            /\ result = PDict (normalise o).
Proof.
  intros H.
  destruct (Json.loads (json_source raw)) as [v|] eqn:Hl.
  - destruct v as [| | | | | |o].
    1-6: (edestruct (parse_body_not_dict raw) as [e He]; [exact Hl | by intros d |];
          congruence).
    exists o. rewrite (parse_body_object raw o Hl) in H.
    destruct (Dict.has (py "need_image") o), (Dict.has (py "reply") o);
      simpl in H; try discriminate.
    by inversion H.
  - unfold parse_body in H. rewrite Hl in H. discriminate.
Qed.

(** The fallback is taken exactly on the two caught exceptions. *)
Lemma structured_response_returns raw result :
  structured_response raw = Return result ->
  result = fallback_result raw \/ parse_body raw = Return result.
Proof.
  unfold structured_response. destruct (parse_body raw) as [r|e].
  - intros H. by right.
  - destruct (is_value_error e); [|discriminate]. intros H. left. congruence.
Qed.

End NotAnObject.

(** ** The structured response step: results *)

Section StructuredResponse.

Implicit Types (o d : dict) (raw : str) (result : pyval).

Lemma structured_response_object raw o :
  Json.loads (json_source raw) = Some (PDict o) ->
  structured_response raw =
  Return (if Dict.has (py "need_image") o && Dict.has (py "reply") o
          then PDict (normalise o) else fallback_result raw).
Proof.
  intros Hl. unfold structured_response. rewrite (parse_body_object raw o Hl).
  by destruct (Dict.has (py "need_image") o && Dict.has (py "reply") o).
Qed.


(** The defaults of lines 234-242 on an object that has the required
    fields: a missing prompt becomes the empty string; a dimension that is
    missing, is no instance of [int] or is not positive becomes 1024. *)
Lemma defaults_on_object raw o :
  Json.loads (json_source raw) = Some (PDict o) ->
  Dict.has (py "need_image") o = true -> Dict.has (py "reply") o = true ->
  exists d, structured_response raw = Return (PDict d)
    /\ (Dict.has (py "image_prompt") o = false ->
        Dict.get (py "image_prompt") d = Some (PStr []))
    /\ (dimension_is_bad o (py "width") = true ->
        Dict.get (py "width") d = Some (PInt 1024))
    /\ (dimension_is_bad o (py "height") = true ->
        Dict.get (py "height") d = Some (PInt 1024)).
Proof.
  intros Hl Hn Hr. exists (normalise o).
  rewrite (structured_response_object raw o Hl), Hn, Hr. simpl.
  split; [done|]. split; [|split].
  - intros Hp%dict_has_false. by rewrite normalise_prompt, Hp.
  - intros Hb. rewrite normalise_width. unfold dimension_value. by rewrite Hb.
  - intros Hb. rewrite normalise_height. unfold dimension_value. by rewrite Hb.
Qed.

End StructuredResponse.

(** The step on decoded values that are not objects: a scalar, a string
    that contains both field names and an array that contains both raise a
    [TypeError]; a string or an array without them takes the fallback. *)
Example structured_response_on_non_objects :
  map structured_response
    [ py "null"; py "true"; py "1.5";
      Str.jq "'need_image reply'";
      Str.jq "['need_image', 'reply']";
      Str.jq "'reply'";
      Str.jq "['reply']" ]
  = [ Raise (Py.TypeError (py "argument of type 'NoneType' is not iterable"));
      Raise (Py.TypeError (py "argument of type 'bool' is not iterable"));
      Raise (Py.TypeError (py "argument of type 'float' is not iterable"));
      Raise (Py.TypeError (py "'str' object does not support item assignment"));
      Raise (Py.TypeError (py "list indices must be integers or slices, not str"));
      Return (fallback_result (Str.jq "'reply'"));
      Return (fallback_result (Str.jq "['reply']")) ].
Proof. vm_compute. reflexivity. Qed.

(** ** The matcher on the two patterns *)

Section Matcher.

Implicit Types (s l a b : str) (p : N -> bool).

Definition all_chars (p : N -> bool) (s : str) : Prop := Forall (fun c => p c = true) s.

(** [s] is empty or its first character fails [p]. *)
Definition stops (p : N -> bool) (s : str) : Prop :=
  match s with [] => True | c :: _ => p c = false end.

Lemma startswith_app l s : Str.startswith l (l ++ s) = true.
Proof. induction l as [|c l IH]; simpl; [done|]. by rewrite N.eqb_refl. Qed.

Lemma startswith_prefix l s : Str.startswith l s = true -> s = l ++ drop (length l) s.
Proof.
  revert s. induction l as [|c l IH]; intros [|c' s]; simpl; try done.
  intros [->%N.eqb_eq H]%andb_prop. f_equal. by apply IH.
Qed.

Lemma span_len_app p a b :
  all_chars p a -> stops p b -> Str.span_len p (a ++ b) = length a.
Proof.
  intros Ha Hb. induction Ha as [|c a Hc Ha IH]; simpl.
  - destruct b; [done|]. simpl in *. by rewrite Hb.
  - by rewrite Hc, IH.
Qed.

Lemma span_len_le p s : (Str.span_len p s <= length s)%nat.
Proof. induction s as [|c s IH]; simpl; [done|]. destruct (p c); simpl; lia. Qed.


Lemma span_len_stops p s : stops p (drop (Str.span_len p s) s).
Proof.
  induction s as [|c s IH]; simpl; [done|].
  destruct (p c) eqn:Hc; simpl; done.
Qed.




Lemma counts_greedy_head least most :
  (least <= most)%nat -> exists tl, Re.counts true least most = most :: tl.
Proof.
  intros H. unfold Re.counts.
  replace (S most - least)%nat with (S (most - least)) by lia.
  rewrite seq_S, rev_app_distr. simpl.
  replace (least + (most - least))%nat with most by lia. eauto.
Qed.


(** A greedy repetition followed by a pattern that matches right after the
    longest run: the first attempt succeeds. *)
Lemma match_greedy_run (i : Re.item) k least (rest : list Re.item) a b groups :
  Re.atom_of i = Re.Rep true k least ->
  all_chars (Re.in_cls k) a -> stops (Re.in_cls k) b -> (least <= length a)%nat ->
  Re.match_here rest b = Some groups ->
  Re.match_here (i :: rest) (a ++ b) = Some (Re.capture i a groups).
Proof.
  intros Hi Ha Hb Hleast Hrest. cbn [Re.match_here]. rewrite Hi.
  rewrite (span_len_app _ a b Ha Hb).
  destruct (counts_greedy_head least (length a) Hleast) as [tl ->].
  cbn [Re.first_some]. rewrite drop_app_length, take_app_length, Hrest. done.
Qed.



Lemma first_some_Some {A B} (f : A -> option B) (l : list A) y :
  Re.first_some f l = Some y -> exists x, x ∈ l /\ f x = Some y.
Proof.
  induction l as [|x l IH]; simpl; [done|].
  destruct (f x) as [y'|] eqn:Hx.
  - intros [= ->]. exists x. split; [left|done].
  - intros (x' & Hin & Hx')%IH. exists x'. split; [by right|done].
Qed.






End Matcher.

(** ** The scanner of [json.loads]: fuel and sizes *)

Section Scanner.

Implicit Types (s acc rest x : str) (v : pyval) (fuel : nat).

Ltac split_scan H :=
  repeat match type of H with
         | context [match ?t with _ => _ end] =>
           let E := fresh "E" in destruct t eqn:E; try discriminate H
         end.

Lemma scanstring_size_bounded n s acc x rest :
  (length s <= n)%nat ->
  Json.scanstring s acc = Json.Scanned x rest ->
  (length x + length rest + 1 <= length acc + length s)%nat.
Proof.
  revert s acc. induction n as [|n IH]; intros s acc Hn H.
  { destruct s; [discriminate H | simpl in Hn; lia]. }
  destruct s as [|c r]; [discriminate H|]. cbn [Json.scanstring] in H.
  split_scan H;
    try (injection H as <- <-; rewrite length_rev; simpl; lia);
    (apply IH in H; [simpl in *; lia | simpl in *; lia]).
Qed.


Lemma scanstring_size s acc x rest :
  Json.scanstring s acc = Json.Scanned x rest ->
  (length x + length rest + 1 <= length acc + length s)%nat.
Proof. by apply (scanstring_size_bounded (length s)). Qed.

Lemma scanstring_not_starved s acc : Json.scanstring s acc <> Json.Starved.
Proof.
  remember (length s) as n eqn:Hn. assert (Hle : (length s <= n)%nat) by lia. clear Hn.
  revert s acc Hle. induction n as [|n IH]; intros s acc Hle H.
  { destruct s; [discriminate H | simpl in Hle; lia]. }
  destruct s as [|c r]; [discriminate H|]. cbn [Json.scanstring] in H.
  split_scan H; (apply IH in H; [done | simpl in *; lia]).
Qed.

Lemma skip_ws_length s : (length (Json.skip_ws s) <= length s)%nat.
Proof. unfold Json.skip_ws. rewrite length_drop. lia. Qed.

(** A scalar is scanned without fuel, consumes at least one character and is
    neither a string nor a container. *)
Definition is_scalar (v : pyval) : Prop :=
  match v with
  | PNone | PBool _ | PInt _ | PFloat _ => True
  | _ => False
  end.

Lemma scan_word_scanned w v0 s r :
  w <> [] -> Json.scan_word w v0 s = Some r ->
  exists rest, r = Json.Scanned v0 rest /\ (length rest < length s)%nat.
Proof.
  intros Hw. unfold Json.scan_word.
  destruct (Str.startswith w s) eqn:Hs; [|done]. intros [= <-].
  eexists. split; [done|]. apply startswith_prefix in Hs.
  apply (f_equal length) in Hs. rewrite length_app, length_drop in Hs.
  rewrite length_drop. destruct w; [done | simpl in *; lia].
Qed.

Lemma scan_number_scanned s v rest :
  Json.scan_number s = Json.Scanned v rest ->
  is_scalar v /\ (length rest < length s)%nat.
Proof.
  unfold Json.scan_number.
  destruct (Json.number_span s) as [[n fl]|] eqn:Hspan; [|done].
  intros [= <- <-].
  split.
  - destruct fl; [done|]. destruct (take n s) as [|c ?]; [done|]. by destruct (c =? 45).
  - rewrite length_drop. unfold Json.number_span in Hspan.
    destruct s as [|c0 s0].
    + simpl in Hspan. discriminate Hspan.
    + revert Hspan.
      match goal with
      | |- context [match ?nint with O => None | S _ => _ end] =>
        destruct nint eqn:Hnint; [done|]
      end.
      intros [= <- _]. simpl. lia.
Qed.

Lemma scan_scalar_scanned s v rest :
  Json.scan_scalar s = Json.Scanned v rest ->
  is_scalar v /\ (length rest < length s)%nat.
Proof.
  unfold Json.scan_scalar.
  repeat match goal with
         | |- context [Json.scan_word ?w ?v0 s] =>
           let E := fresh "E" in
           destruct (Json.scan_word w v0 s) as [r|] eqn:E;
             [ apply scan_word_scanned in E as (rest' & -> & Hlt);
               [ intros [= <- <-]; by split
               | intros Hnil; vm_compute in Hnil; discriminate Hnil ]
             | ]
         end.
  apply scan_number_scanned.
Qed.

Lemma scan_scalar_not_starved s : Json.scan_scalar s <> Json.Starved.
Proof.
  unfold Json.scan_scalar, Json.scan_word, Json.scan_number.
  repeat match goal with
         | |- context [if ?b then _ else _] => destruct b; [done|]
         end.
  by destruct (Json.number_span s) as [[n fl]|].
Qed.


Lemma skip_ws_cons s c r : Json.skip_ws s = c :: r -> (S (length r) <= length s)%nat.
Proof.
  intros H. pose proof (skip_ws_length s) as Hl. rewrite H in Hl. exact Hl.
Qed.

(** What a scan that ends must satisfy: it consumed something, and the
    strings it produced are shorter than what it consumed. *)
Definition value_fits (v : pyval) (s rest : str) : Prop :=
  (forall x, v = PStr x -> (length x + length rest + 2 <= length s)%nat)
  /\ (forall d k x, v = PDict d -> Dict.get k d = Some (PStr x) ->
                    (length x + 2 < length s)%nat).

Definition members_fit (seen : dict) (v : pyval) (s rest : str) : Prop :=
  exists d, v = PDict d
    /\ forall k x, Dict.get k d = Some (PStr x) ->
                   Dict.get k seen = Some (PStr x)
                   \/ (length x + length rest + 2 <= length s)%nat.

Definition scan_ok (r : Json.scan pyval) (s : str) (P : pyval -> str -> Prop) : Prop :=
  match r with
  | Json.Scanned v rest => (length rest < length s)%nat /\ P v rest
  | Json.Invalid => True
  | Json.Starved => False
  end.

Lemma scan_fuel_enough fuel :
  (forall s, (2 * length s < fuel)%nat ->
     scan_ok (Json.scan_once fuel s) s (fun v rest => value_fits v s rest))
  /\ (forall s (seen : dict), (2 * length s < fuel)%nat ->
        scan_ok (Json.scan_members fuel s seen) s
                (fun v rest => members_fit seen v s rest))
  /\ (forall s (seen : list pyval), (2 * length s + 1 < fuel)%nat ->
        scan_ok (Json.scan_elements fuel s seen) s
                (fun v rest => exists l, v = PList l)).
Proof.
  induction fuel as [|f (IHonce & IHmembers & IHelements)].
  { repeat split; intros; lia. }
  split; [|split].
  - intros [|c r] Hf; cbn [Json.scan_once]; [done|]. simpl in Hf.
    destruct (c =? 34).
    { destruct (Json.scanstring r []) as [x rest| |] eqn:Hs; cbn [Json.scan_map scan_ok];
        [| done | by apply scanstring_not_starved in Hs].
      apply scanstring_size in Hs. simpl in *.
      split; [simpl in *; lia|]. split; [intros x' [= <-]; simpl in *; lia | done]. }
    destruct (c =? 123).
    { destruct (Json.skip_ws r) as [|c' r'] eqn:Hws; [done|].
      apply skip_ws_cons in Hws as Hlen.
      destruct (c' =? 125).
      { simpl. split; [simpl in *; lia|]. split; [done|]. intros d k x [= <-]. done. }
      rewrite <- Hws. pose proof (skip_ws_length r) as Hl.
      specialize (IHmembers (Json.skip_ws r) [] ltac:(simpl in *; lia)).
      destruct (Json.scan_members f (Json.skip_ws r) []) as [v rest| |]; [|done|done].
      destruct IHmembers as [Hrest (d & -> & Hd)]. simpl.
      split; [simpl in *; lia|]. split; [done|].
      intros d' k x [= <-] Hk. destruct (Hd k x Hk) as [Hnil|Hfit]; [done | simpl in *; lia]. }
    destruct (c =? 91).
    { destruct (Json.skip_ws r) as [|c' r'] eqn:Hws; [done|].
      apply skip_ws_cons in Hws as Hlen.
      destruct (c' =? 93).
      { simpl. split; [simpl in *; lia|]. split; done. }
      rewrite <- Hws. pose proof (skip_ws_length r) as Hl.
      specialize (IHelements (Json.skip_ws r) [] ltac:(simpl in *; lia)).
      destruct (Json.scan_elements f (Json.skip_ws r) []) as [v rest| |]; [|done|done].
      destruct IHelements as [Hrest [l ->]]. simpl.
      split; [simpl in *; lia|]. split; done. }
    destruct (Json.scan_scalar (c :: r)) as [v rest| |] eqn:Hs;
      [| done | by apply scan_scalar_not_starved in Hs].
    apply scan_scalar_scanned in Hs as [Hv Hlen]. simpl.
    split; [done|]. split.
    + intros x ->. done.
    + intros d k x ->. done.
  - intros [|q r] acc Hf; cbn [Json.scan_members]; [done|]. simpl in Hf.
    destruct (q =? 34); [|done].
    destruct (Json.scanstring r []) as [key r1| |] eqn:Hs;
      [| done | by apply scanstring_not_starved in Hs].
    apply scanstring_size in Hs. simpl in Hs.
    destruct (Json.skip_ws r1) as [|colon r2] eqn:Hws1; [done|].
    apply skip_ws_cons in Hws1.
    destruct (colon =? 58); [|done].
    pose proof (skip_ws_length r2) as Hl2.
    specialize (IHonce (Json.skip_ws r2) ltac:(simpl in *; lia)).
    destruct (Json.scan_once f (Json.skip_ws r2)) as [v r3| |]; [|done|done].
    destruct IHonce as [Hr3 [Hstr _]].
    destruct (Json.skip_ws r3) as [|d r4] eqn:Hws3; [done|].
    apply skip_ws_cons in Hws3.
    assert (Hset : forall k x, Dict.get k (Dict.set key v acc) = Some (PStr x) ->
              Dict.get k acc = Some (PStr x)
              \/ (length x + length r3 + 2 <= length (Json.skip_ws r2))%nat).
    { intros k x Hk. destruct (decide (key = k)) as [->|Hne].
      - rewrite dict_get_set_eq in Hk. injection Hk as ->. right. by apply Hstr.
      - rewrite dict_get_set_ne in Hk by done. by left. }
    destruct (d =? 125).
    { simpl. split; [simpl in *; lia|]. eexists. split; [done|].
      intros k x Hk. destruct (Hset k x Hk) as [?|?]; [by left | right; simpl in *; lia]. }
    destruct (d =? 44); [|done].
    pose proof (skip_ws_length r4) as Hl4.
    specialize (IHmembers (Json.skip_ws r4) (Dict.set key v acc) ltac:(simpl in *; lia)).
    destruct (Json.scan_members f (Json.skip_ws r4) _) as [v' rest| |]; [|done|done].
    destruct IHmembers as [Hrest (d' & -> & Hd')]. simpl.
    split; [simpl in *; lia|]. eexists. split; [done|].
    intros k x Hk. destruct (Hd' k x Hk) as [Hk'|?]; [|right; simpl in *; lia].
    destruct (Hset k x Hk') as [?|?]; [by left | right; simpl in *; lia].
  - intros s acc Hf. cbn [Json.scan_elements].
    specialize (IHonce s ltac:(simpl in *; lia)).
    destruct (Json.scan_once f s) as [v r1| |]; [|done|done].
    destruct IHonce as [Hr1 _].
    destruct (Json.skip_ws r1) as [|d r2] eqn:Hws; [done|].
    apply skip_ws_cons in Hws.
    destruct (d =? 93).
    { simpl. split; [simpl in *; lia|]. eauto. }
    destruct (d =? 44); [|done].
    pose proof (skip_ws_length r2) as Hl2.
    specialize (IHelements (Json.skip_ws r2) (acc ++ [v]) ltac:(simpl in *; lia)).
    destruct (Json.scan_elements f (Json.skip_ws r2) _) as [v' rest| |]; [|done|done].
    destruct IHelements as [Hrest [l ->]]. simpl. split; [simpl in *; lia|]. eauto.
Qed.

(** [json.loads] never runs out of fuel. *)
Lemma loads_not_starved s :
  Json.scan_once (Json.fuel_for s) (Json.skip_ws s) <> Json.Starved.
Proof.
  pose proof (skip_ws_length s) as Hl.
  destruct (scan_fuel_enough (Json.fuel_for s)) as [Honce _].
  specialize (Honce (Json.skip_ws s) ltac:(unfold Json.fuel_for; lia)).
  intros H. by rewrite H in Honce.
Qed.


End Scanner.

(** ** The fenced block of a completion *)

Section Fence.

Implicit Types (s l a b pre body rest lead core trail : str) (p : N -> bool).











Lemma span_len_last p y c x :
  p c = false -> (Str.span_len p (y ++ c :: x) <= length y)%nat.
Proof.
  intros Hc. induction y as [|c' y IH]; simpl.
  - by rewrite Hc.
  - destruct (p c'); simpl; lia.
Qed.


Lemma counts_range greedy least most j :
  j ∈ Re.counts greedy least most -> (least <= j <= most)%nat.
Proof.
  unfold Re.counts. intros Hin.
  assert (Hseq : In j (seq least (S most - least))).
  { destruct greedy; apply list_elem_of_In in Hin; [by apply in_rev | done]. }
  apply in_seq in Hseq. lia.
Qed.











End Fence.

(** ** The bound on the stored histories *)

Section Bound.

Implicit Types (w : world) (h : list Turn) (key : str).

(** Every stored history has at most 51 turns, and every call of the model
    carries the system turn and at most 50 turns. *)
Definition bounded (w : world) : Prop :=
  (forall key h, conversation_history w !! key = Some h ->
                 (length h <= S MAX_HISTORY_MESSAGES)%nat)
  /\ (forall messages, ModelCall messages ∈ trace w ->
                       (length messages <= S MAX_HISTORY_MESSAGES)%nat).

Definition preserves {A} (m : M A) : Prop :=
  forall w, bounded w -> bounded (m w).2.

Definition small_event (ev : event) : Prop :=
  match ev with
  | ModelCall messages => (length messages <= S MAX_HISTORY_MESSAGES)%nat
  | _ => True
  end.

Lemma bounded_put w key h :
  bounded w -> (length h <= S MAX_HISTORY_MESSAGES)%nat ->
  bounded {| conversation_history := <[key := h]> (conversation_history w);
             trace := trace w |}.
Proof.
  intros [Hs Ht] Hh. split; simpl; [|done].
  intros key' h'. rewrite lookup_insert. case_decide.
  - intros [= <-]. done.
  - apply Hs.
Qed.

Lemma bounded_emit w ev :
  bounded w -> small_event ev ->
  bounded {| conversation_history := conversation_history w;
             trace := trace w ++ [ev] |}.
Proof.
  intros [Hs Ht] Hev. split; simpl; [done|].
  intros messages [Hin | Hin]%elem_of_app; [by apply Ht|].
  apply list_elem_of_singleton in Hin. by subst ev.
Qed.

Lemma preserves_ret {A} (a : A) : preserves (mret a).
Proof. by intros w Hw. Qed.

Lemma preserves_lift {A} (o : outcome A) : preserves (lift o).
Proof. by intros w Hw. Qed.

Lemma preserves_emit ev : small_event ev -> preserves (emit ev).
Proof. intros Hev w Hw. by apply bounded_emit. Qed.

Lemma preserves_bind {A B} (m : M A) (f : A -> M B) :
  preserves m -> (forall a, preserves (f a)) -> preserves (m ≫= f).
Proof.
  intros Hm Hf w Hw. unfold mbind, M_bind.
  specialize (Hm w Hw). destruct (m w) as [[a|e] w']; simpl in *; [|done].
  by apply Hf.
Qed.

Lemma preserves_try {A} (body : M A) (handler : exn -> M A) :
  preserves body -> (forall e, preserves (handler e)) ->
  preserves (try_except body handler).
Proof.
  intros Hb Hh w Hw. unfold try_except.
  specialize (Hb w Hw). destruct (body w) as [[a|e] w']; simpl in *; [done|].
  by apply Hh.
Qed.

Lemma preserves_send_parts parts : preserves (send_parts parts).
Proof.
  induction parts as [|part parts IH]; simpl.
  - apply preserves_ret.
  - apply preserves_bind; [by apply preserves_emit | done].
Qed.

Lemma preserves_clear_session key : preserves (clear_session key).
Proof.
  intros w Hw. unfold clear_session.
  destruct (conversation_history w !! key); [|done].
  apply bounded_put; [done | simpl; lia].
Qed.

Lemma sent_history_length w key user_text :
  (length (sent_history w key user_text) <= MAX_HISTORY_MESSAGES)%nat.
Proof. unfold sent_history. rewrite last_messages_length. lia. Qed.

Lemma bounded_at_model_call w key user_text :
  bounded w -> bounded (at_model_call w key user_text).
Proof.
  intros Hw. pose proof (sent_history_length w key user_text) as Hlen.
  assert (Hput := bounded_put w key (sent_history w key user_text) Hw ltac:(lia)).
  apply (bounded_emit _ (ModelCall (system_turn :: sent_history w key user_text)))
    in Hput; [exact Hput | simpl; lia].
Qed.

Lemma preserves_deepseek_chat (E : env) key user_text :
  preserves (deepseek_chat E key user_text).
Proof.
  intros w Hw. rewrite deepseek_chat_run.
  pose proof (bounded_at_model_call w key user_text Hw) as H1.
  pose proof (sent_history_length w key user_text) as Hlen.
  destruct (chat_completion E _) as [c|e]; [|done].
  destruct (structured_response _) as [r|e]; [|done].
  destruct (Py.getitem r _) as [v|e]; [|done].
  simpl. destruct H1 as [_ Ht]. destruct Hw as [Hs _]. split; simpl; [|done].
  intros key' h'. rewrite lookup_insert. case_decide.
  - intros [= <-]. rewrite length_app. simpl. lia.
  - apply Hs.
Qed.

Lemma preserves_create_pic_branch (E : env) content :
  preserves (create_pic_branch E content).
Proof.
  unfold create_pic_branch.
  destruct (Re.re_match CREATE_PIC_RE content) as [[|model [|wd [|ht [|prompt [|? ?]]]]]|];
    try (by apply preserves_emit).
  destruct (dimensions_rejected _ _); [by apply preserves_emit|].
  apply preserves_try.
  - apply preserves_bind; [by apply preserves_emit|]. intros _.
    apply preserves_bind; [by apply preserves_emit|]. intros _.
    apply preserves_bind; [apply preserves_lift|]. intros image.
    by apply preserves_emit.
  - intros e. by apply preserves_emit.
Qed.

Lemma preserves_image_stage (E : env) result : preserves (image_stage E result).
Proof.
  unfold image_stage. apply preserves_try.
  - apply preserves_bind; [apply preserves_lift|]. intros prompt.
    apply preserves_bind; [apply preserves_lift|]. intros width.
    apply preserves_bind; [apply preserves_lift|]. intros height.
    destruct prompt; try apply preserves_lift; try (by apply preserves_emit).
    destruct width; try (by apply preserves_emit).
    destruct height; try (by apply preserves_emit).
    apply preserves_bind; [by apply preserves_emit|]. intros _.
    apply preserves_bind; [by apply preserves_emit|]. intros _.
    apply preserves_bind; [apply preserves_lift|]. intros image.
    by apply preserves_emit.
  - intros [status text m|n m]; by apply preserves_emit.
Qed.

Lemma preserves_chat_branch (E : env) key content :
  preserves (chat_branch E key content).
Proof.
  unfold chat_branch. apply preserves_try.
  - apply preserves_bind; [apply preserves_deepseek_chat|]. intros result.
    apply preserves_bind; [apply preserves_lift|]. intros reply_value.
    apply preserves_bind; [apply preserves_lift|]. intros stripped.
    apply preserves_bind; [apply preserves_send_parts|]. intros _.
    apply preserves_bind; [apply preserves_lift|]. intros need_image.
    destruct (Py.truthy need_image); [|apply preserves_ret].
    apply preserves_bind; [apply preserves_lift|]. intros image_prompt.
    destruct (Py.truthy image_prompt); [apply preserves_image_stage|apply preserves_ret].
  - intros e. by apply preserves_emit.
Qed.

Lemma preserves_on_content (E : env) key content :
  preserves (on_content E key content).
Proof.
  unfold on_content.
  destruct (Str.eqb content (py "/clear")).
  { apply preserves_bind; [apply preserves_clear_session|].
    intros _. by apply preserves_emit. }
  destruct (Str.eqb content (py "/help")); [by apply preserves_emit|].
  destruct (Str.startswith _ content).
  - apply preserves_create_pic_branch.
  - apply preserves_chat_branch.
Qed.

Lemma preserves_on_message (E : env) (message : Message) :
  preserves (on_message E message).
Proof.
  unfold on_message.
  destruct (author_bot message); [apply preserves_ret|].
  generalize (Str.strip (default [] (message_content message))).
  intros [|c content]; [apply preserves_ret|].
  destruct (negb _ && negb _ && negb _); [apply preserves_ret|].
  match goal with |- preserves (match ?x with _ => _ end) => destruct x end.
  - by apply preserves_emit.
  - apply preserves_on_content.
Qed.

Lemma bounded_run_messages inbound w :
  bounded w -> bounded (run_messages inbound w).
Proof.
  revert w. induction inbound as [|[E message] rest IH]; intros w Hw; simpl; [done|].
  apply IH. by apply preserves_on_message.
Qed.

Lemma bounded_empty : bounded empty_world.
Proof.
  split; simpl.
  - intros key h. by rewrite lookup_empty.
  - intros messages Hin. by apply elem_of_nil in Hin.
Qed.

End Bound.

(** ** Runs used as examples *)

(** An outside whose model always answers [reply]. *)
Definition answering (reply : str) : env :=
  {| client_user_id := 7;
     chat_completion := fun _ => Return (Some reply);
     pollinations_image := fun _ _ _ _ => Return ([137; 80; 78; 71], py "image.png") |}.

(** An outside whose model call fails. *)
Definition failing (e : exn) : env :=
  {| client_user_id := 7;
     chat_completion := fun _ => Raise e;
     pollinations_image := fun _ _ _ _ => Return ([137; 80; 78; 71], py "image.png") |}.

(** A direct message of user 42. *)
Definition direct_message (text : str) : Message :=
  {| author_bot := false; author_id := 42; message_content := Some text;
     is_dm_channel := true; channel_id := 5; mentions_client := false;
     role_mentions := []; guild_me_roles := None |}.

(** ** The history store: results *)

Section HistoryResults.

Implicit Types (w : world) (key : str).

(** A direct message with some text reaches the dispatch of line 318 with
    the key of the sender and the stripped text. *)
Lemma on_message_in_dm (E : env) (message : Message) w :
  author_bot message = false -> is_dm_channel message = true ->
  mentions_client message = false -> guild_me_roles message = None ->
  Str.strip (default [] (message_content message)) <> [] ->
  on_message E message w
  = on_content E (py "dm_" ++ Str.of_Z (author_id message))
               (Str.strip (default [] (message_content message))) w.
Proof.
  intros Hbot Hdm Hm Hg Hne. unfold on_message, get_session_key.
  rewrite Hbot, Hdm, Hm, Hg.
  destruct (Str.strip (default [] (message_content message))) as [|c content];
    [done|]. reflexivity.
Qed.

Lemma stored_insert w key h tr :
  stored {| conversation_history := <[key := h]> (conversation_history w);
            trace := tr |} key = h.
Proof. unfold stored. simpl. by rewrite lookup_insert_eq. Qed.

Lemma chat_branch_failure (E : env) key content w e :
  chat_completion E (system_turn :: sent_history w key content) = Raise e ->
  chat_branch E key content w =
  (Return tt,
   {| conversation_history :=
        <[key := sent_history w key content]> (conversation_history w);
      trace := trace w ++ [ModelCall (system_turn :: sent_history w key content)]
               ++ [Send (py "DeepSeek 调用失败：" ++ exn_name e ++ py ": "
                         ++ exn_text e)] |}).
Proof.
  intros He. unfold chat_branch, try_except, mbind, M_bind.
  rewrite deepseek_chat_run, He. unfold emit, at_model_call. simpl.
  by rewrite <- app_assoc.
Qed.

End HistoryResults.

(** ** [chunk_text] *)

Section Chunks.

Implicit Types (s : str) (n m i : nat).

Lemma chunks_concat n m s :
  (0 < n)%nat -> (length s <= m * n)%nat ->
  concat (map (fun i => take n (drop i s)) (map (fun k => (k * n)%nat) (seq 0 m))) = s.
Proof.
  intros Hn. revert s. induction m as [|m IH]; intros s Hlen.
  - destruct s; [done | simpl in Hlen; lia].
  - cbn [seq map concat]. rewrite <- seq_shift, !map_map.
    rewrite (map_ext _ (fun k => take n (drop (k * n) (drop n s)))).
    2: { intros k. rewrite drop_drop. do 2 f_equal. }
    rewrite <- (map_map (fun k => (k * n)%nat) (fun i => take n (drop i (drop n s)))).
    rewrite IH by (rewrite length_drop; lia).
    apply take_drop.
Qed.

Lemma chunk_count_bounds n len :
  (0 < n)%nat ->
  let m := ((len + n - 1) / n)%nat in
  (len <= m * n)%nat /\ (m * n < len + n)%nat.
Proof.
  intros Hn m. subst m.
  pose proof (Nat.div_mod_eq (len + n - 1) n) as Hd.
  pose proof (Nat.mod_upper_bound (len + n - 1) n ltac:(lia)) as Hm.
  nia.
Qed.

Lemma chunk_text_concat s n : (0 < n)%nat -> concat (chunk_text s n) = s.
Proof.
  intros Hn. unfold chunk_text, range0. apply chunks_concat; [done|].
  apply (chunk_count_bounds n (length s) Hn).
Qed.

Lemma chunk_text_length s n :
  length (chunk_text s n) = ((length s + n - 1) / n)%nat.
Proof. unfold chunk_text, range0. by rewrite !length_map, length_seq. Qed.

(** The chunk of index [i] is the slice [s[i*n : i*n + n]]. *)
Lemma chunk_text_lookup s n i part :
  (0 < n)%nat -> chunk_text s n !! i = Some part ->
  part = take n (drop (i * n) s) /\ (0 < length part <= n)%nat.
Proof.
  intros Hn Hi. unfold chunk_text, range0 in Hi.
  rewrite !list_lookup_fmap in Hi.
  destruct (seq 0 _ !! i) as [k|] eqn:Hk; [|done].
  apply lookup_seq in Hk as [-> Hlt]. simpl in Hi. injection Hi as <-.
  split; [done|].
  rewrite length_take, length_drop.
  pose proof (chunk_count_bounds n (length s) Hn) as [_ Hup]. simpl in Hup.
  nia.
Qed.


End Chunks.

(** ** Traces of the default branch *)

Section Traces.

Implicit Types (w : world).








Lemma send_parts_run parts w :
  send_parts parts w =
  (Return tt,
   {| conversation_history := conversation_history w;
      trace := trace w ++ map Send parts |}).
Proof.
  revert w. induction parts as [|part parts IH]; intros w.
  - simpl. rewrite app_nil_r. by destruct w.
  - cbn [send_parts map]. unfold mbind, M_bind, emit. rewrite IH. simpl.
    by rewrite <- app_assoc.
Qed.



End Traces.

(** ** The [/create_pic] branch: results *)

Section CreatePic.

Implicit Types (w : world) (content key : str).

Lemma create_pic_is_no_other_command content :
  Str.startswith (py "/create_pic") content = true ->
  Str.eqb content (py "/clear") = false /\ Str.eqb content (py "/help") = false.
Proof.
  intros H. split; apply eqb_false; intros ->; vm_compute in H; discriminate.
Qed.

Lemma on_content_create_pic (E : env) key content w :
  Str.startswith (py "/create_pic") content = true ->
  on_content E key content w = create_pic_branch E content w.
Proof.
  intros H. unfold on_content.
  destruct (create_pic_is_no_other_command content H) as [-> ->]. by rewrite H.
Qed.

(** What the branch adds to the trace. *)
Definition create_pic_events (E : env) (content : str) : list event :=
  match Re.re_match CREATE_PIC_RE content with
  | Some [model; wd; ht; prompt] =>
    let width := Str.int_of_digits wd in
    let height := Str.int_of_digits ht in
    if dimensions_rejected width height then [Send bad_dimensions_text]
    else [Send (generating_text model width height prompt);
          ImageCall model width height prompt]
         ++ match pollinations_image E model width height prompt with
            | Return image => [SendFile image.1 image.2]
            | Raise e => [Send (create_pic_failure_text e)]
            end
  | _ => [Send usage_text]
  end.

Lemma create_pic_branch_run (E : env) content w :
  create_pic_branch E content w =
  (Return tt,
   {| conversation_history := conversation_history w;
      trace := trace w ++ create_pic_events E content |}).
Proof.
  unfold create_pic_branch, create_pic_events.
  destruct (Re.re_match CREATE_PIC_RE content)
    as [[|model [|wd [|ht [|prompt [|? ?]]]]]|]; try reflexivity.
  destruct (dimensions_rejected _ _); [reflexivity|].
  unfold try_except, mbind, M_bind, emit, lift. cbn [conversation_history trace].
  destruct (pollinations_image E _ _ _ _) as [image|e];
    cbn [conversation_history trace]; by rewrite <- !app_assoc.
Qed.

End CreatePic.

(** ** Session keys *)

Section SessionKeys.

Lemma bytes_of_inj (a b : string) : Str.bytes_of a = Str.bytes_of b -> a = b.
Proof.
  revert b. induction a as [|x a IH]; intros [|y b]; simpl; try done.
  intros [= Hxy Hab]. f_equal; [|by apply IH].
  rewrite <- (ascii_N_embedding x), <- (ascii_N_embedding y). by rewrite Hxy.
Qed.

Lemma to_int_proper (z : Z) :
  Z.to_int z <> Decimal.Pos Decimal.Nil /\ Z.to_int z <> Decimal.Neg Decimal.Nil.
Proof.
  destruct z as [|p|p]; simpl; split; try done; intros [= H];
    by apply (DecimalPos.Unsigned.to_uint_nonnil p).
Qed.

(** [str] of an integer determines the integer. *)
Lemma of_Z_inj (a b : Z) : Str.of_Z a = Str.of_Z b -> a = b.
Proof.
  unfold Str.of_Z. intros H%bytes_of_inj.
  apply DecimalZ.to_int_inj.
  destruct (to_int_proper a) as [Ha1 Ha2], (to_int_proper b) as [Hb1 Hb2].
  pose proof (NilZero.isi _ Ha1 Ha2) as Ia. pose proof (NilZero.isi _ Hb1 Hb2) as Ib.
  rewrite H in Ia. congruence.
Qed.

End SessionKeys.

(** ** Runs of the default branch *)

Section Runs.

Implicit Types (w : world) (key content : str).

(** The texts sent by the default branch. *)
Definition chat_failure_text (e : exn) : str :=
  py "DeepSeek 调用失败：" ++ exn_name e ++ py ": " ++ exn_text e.

Definition image_failure_text (e : exn) : str :=
  match e with
  | HTTPError status _ _ => py "⚠️ 图片生成失败：HTTP " ++ Str.of_Z status
  | _ => py "⚠️ 图片生成失败：" ++ exn_name e ++ py ": " ++ exn_text e
  end.

Definition image_announce_text (width height : Z) (prompt : str) : str :=
  py "🎨 正在生成图片 (" ++ Str.of_Z width ++ py "x" ++ Str.of_Z height
  ++ py ")..." ++ nl ++ py "> Prompt: `" ++ take 200 prompt
  ++ (if bool_decide (200 < length prompt)%nat then py "..." else [])
  ++ py "`".

(** What the image stage adds to the trace. *)
Definition image_stage_events (E : env) (result : pyval) : list event :=
  match Py.getitem result (py "image_prompt") with
  | Raise e => [Send (image_failure_text e)]
  | Return prompt =>
    match Py.getitem result (py "width") with
    | Raise e => [Send (image_failure_text e)]
    | Return width =>
      match Py.getitem result (py "height") with
      | Raise e => [Send (image_failure_text e)]
      | Return height =>
        match prompt, width, height with
        | PStr p, PInt wd, PInt ht =>
          [Send (image_announce_text wd ht p); ImageCall DEFAULT_IMAGE_MODEL wd ht p]
          ++ match pollinations_image E DEFAULT_IMAGE_MODEL wd ht p with
             | Return image => [SendFile image.1 image.2]
             | Raise e => [Send (image_failure_text e)]
             end
        | PStr _, _, _ => [Unmodelled]
        | PList _, _, _ => [Unmodelled]
        | PDict _, _, _ => [Unmodelled]
        | v, _, _ =>
          [Send (image_failure_text
                   (Py.TypeError (py "'" ++ Py.type_name v
                                  ++ py "' object is not subscriptable")))]
        end
      end
    end
  end.

Lemma image_stage_run (E : env) result w :
  image_stage E result w =
  (Return tt,
   {| conversation_history := conversation_history w;
      trace := trace w ++ image_stage_events E result |}).
Proof.
  unfold image_stage, image_stage_events, try_except, mbind, M_bind, lift.
  destruct (Py.getitem result (py "image_prompt")) as [prompt|e].
  2: { destruct e; unfold emit, image_failure_text; reflexivity. }
  destruct (Py.getitem result (py "width")) as [width|e].
  2: { destruct e; unfold emit, image_failure_text; reflexivity. }
  destruct (Py.getitem result (py "height")) as [height|e].
  2: { destruct e; unfold emit, image_failure_text; reflexivity. }
  destruct prompt as [| | | |p| |];
    try (unfold emit, image_failure_text, Py.TypeError; reflexivity).
  destruct width as [| |wd| | | |]; try (unfold emit; reflexivity).
  destruct height as [| |ht| | | |]; try (unfold emit; reflexivity).
  unfold emit, image_announce_text. cbn [conversation_history trace].
  generalize (pollinations_image E DEFAULT_IMAGE_MODEL wd ht p). intros [image|e];
    cbn [conversation_history trace].
  - rewrite <- !app_assoc. reflexivity.
  - destruct e; unfold image_failure_text; cbn [conversation_history trace];
      rewrite <- !app_assoc; reflexivity.
Qed.

(** What the default branch adds to the trace once [deepseek_chat] has
    returned [result] (lines 385-414). *)
Definition reply_events (E : env) (result : pyval) : list event :=
  match Py.getitem result (py "reply") with
  | Raise e => [Send (chat_failure_text e)]
  | Return reply_value =>
    match Py.strip reply_value with
    | Raise e => [Send (chat_failure_text e)]
    | Return stripped =>
      map Send (chunk_text (match stripped with
                            | [] => py "(空回复)"
                            | _ :: _ => stripped
                            end) DISCORD_MAX_LEN)
      ++ match Py.getitem result (py "need_image") with
         | Raise e => [Send (chat_failure_text e)]
         | Return need_image =>
           if Py.truthy need_image then
             match Py.getitem result (py "image_prompt") with
             | Raise e => [Send (chat_failure_text e)]
             | Return image_prompt =>
               if Py.truthy image_prompt then image_stage_events E result else []
             end
           else []
         end
    end
  end.

Lemma chat_branch_run (E : env) key content w :
  chat_branch E key content w =
  (Return tt,
   {| conversation_history := conversation_history (deepseek_chat E key content w).2;
      trace := trace (deepseek_chat E key content w).2
               ++ match (deepseek_chat E key content w).1 with
                  | Return result => reply_events E result
                  | Raise e => [Send (chat_failure_text e)]
                  end |}).
Proof.
  unfold chat_branch, try_except.
  unfold mbind at 1. unfold M_bind at 1.
  generalize (deepseek_chat E key content w). intros [[result|e] w1]; cbn [fst snd].
  2: { unfold emit, chat_failure_text. reflexivity. }
  unfold reply_events, mbind, M_bind, lift.
  generalize (Py.getitem result (py "reply")). intros [reply_value|e].
  2: { unfold emit, chat_failure_text. reflexivity. }
  generalize (Py.strip reply_value). intros [stripped|e].
  2: { unfold emit, chat_failure_text. reflexivity. }
  rewrite send_parts_run.
  generalize (Py.getitem result (py "need_image")). intros [need_image|e].
  2: { unfold emit, chat_failure_text. cbn [conversation_history trace].
       by rewrite <- app_assoc. }
  generalize (Py.truthy need_image). intros [|].
  2: { unfold mret, M_ret. by rewrite app_nil_r. }
  generalize (Py.getitem result (py "image_prompt")). intros [image_prompt|e].
  2: { unfold emit, chat_failure_text. cbn [conversation_history trace].
       by rewrite <- app_assoc. }
  generalize (Py.truthy image_prompt). intros [|].
  2: { unfold mret, M_ret. by rewrite app_nil_r. }
  rewrite image_stage_run. cbn [conversation_history trace]. by rewrite <- app_assoc.
Qed.

End Runs.

(** ** The steps of [on_message] *)

Section Dispatch.

Implicit Types (w : world) (key content : str) (message : Message).

Lemma deepseek_chat_trace (E : env) key user_text w :
  trace (deepseek_chat E key user_text w).2
  = trace w ++ [ModelCall (system_turn :: sent_history w key user_text)].
Proof.
  rewrite deepseek_chat_run. unfold at_model_call.
  generalize (chat_completion E (system_turn :: sent_history w key user_text)).
  intros [completion|e]; [|reflexivity].
  generalize (structured_response (default [] completion)).
  intros [result|e]; [|reflexivity].
  generalize (Py.getitem result (py "reply")). intros [reply|e]; reflexivity.
Qed.

(** The history that [deepseek_chat] leaves under its key: the turns sent to
    the model, followed by the assistant turn when the call returned. *)
Lemma deepseek_chat_store (E : env) key user_text w :
  exists h,
    conversation_history (deepseek_chat E key user_text w).2
    = <[key := h]> (conversation_history w)
    /\ (h = sent_history w key user_text
        \/ exists result reply,
             (deepseek_chat E key user_text w).1 = Return result
             /\ Py.getitem result (py "reply") = Return reply
             /\ h = sent_history w key user_text ++ [assistant_turn reply]).
Proof.
  rewrite deepseek_chat_run. unfold at_model_call.
  generalize (chat_completion E (system_turn :: sent_history w key user_text)).
  intros [completion|e]; [|eexists; split; [reflexivity | by left]].
  generalize (structured_response (default [] completion)).
  intros [result|e]; [|eexists; split; [reflexivity | by left]].
  destruct (Py.getitem result (py "reply")) as [reply|e] eqn:Hreply;
    [|eexists; split; [reflexivity | by left]].
  eexists. split; [reflexivity|]. right. by exists result, reply.
Qed.

(** Lines 285-293. *)
Definition is_role_mentioned (message : Message) : bool :=
  match guild_me_roles message with
  | Some roles => existsb (fun role => bool_decide (role ∈ roles)) (role_mentions message)
  | None => false
  end.

(** Whether the handler gets past line 300: the author is no bot, the
    content is not blank, and the message is a direct message or mentions
    the bot or one of its roles. *)
Definition addressed (message : Message) : bool :=
  negb (author_bot message)
  && negb (Str.eqb (Str.strip (default [] (message_content message))) [])
  && (is_dm_channel message || mentions_client message || is_role_mentioned message).

(** The variable [content] at line 316. *)
Definition command_text (E : env) (message : Message) : str :=
  let content := Str.strip (default [] (message_content message)) in
  if mentions_client message || is_role_mentioned message
  then strip_mentions E message content else content.

Definition greeting_text : str := py "你好！有什么可以帮你的吗？发送 `/help` 查看帮助。".

Lemma on_message_run (E : env) message w :
  on_message E message w =
  if addressed message then
    match command_text E message with
    | [] => emit (Send greeting_text) w
    | _ :: _ => on_content E (get_session_key message) (command_text E message) w
    end
  else (Return tt, w).
Proof.
  unfold on_message, addressed, command_text, is_role_mentioned, greeting_text.
  destruct (author_bot message); [reflexivity|]. cbn [negb andb].
  generalize (Str.strip (default [] (message_content message))). intros [|c content].
  { reflexivity. }
  assert (Str.eqb (c :: content) [] = false) as -> by (by apply eqb_false).
  cbn [negb andb].
  generalize (match guild_me_roles message with
              | Some roles =>
                existsb (fun role => bool_decide (role ∈ roles)) (role_mentions message)
              | None => false
              end). intros role_mentioned.
  destruct (is_dm_channel message), (mentions_client message), role_mentioned;
    cbn [negb andb orb]; try reflexivity;
    destruct (strip_mentions E message (c :: content)); reflexivity.
Qed.

Definition clear_text : str := py "✅ 已清除本会话的上下文历史。".

(** A command of [on_message]: a content that is not handed to the model. *)
Definition is_command (content : str) : bool :=
  Str.eqb content (py "/clear") || Str.eqb content (py "/help")
  || Str.startswith (py "/create_pic") content.

Lemma on_content_chat (E : env) key content w :
  is_command content = false ->
  on_content E key content w = chat_branch E key content w.
Proof.
  unfold is_command, on_content.
  intros [[-> ->]%orb_false_iff ->]%orb_false_iff. reflexivity.
Qed.

Lemma on_content_clear (E : env) key w :
  on_content E key (py "/clear") w =
  (Return tt,
   {| conversation_history :=
        match conversation_history w !! key with
        | Some _ => <[key := []]> (conversation_history w)
        | None => conversation_history w
        end;
      trace := trace w ++ [Send clear_text] |}).
Proof.
  unfold on_content. rewrite eqb_refl.
  unfold mbind, M_bind, clear_session, history_put, emit, clear_text.
  destruct (conversation_history w !! key); reflexivity.
Qed.

Lemma on_content_help (E : env) key w :
  on_content E key (py "/help") w =
  (Return tt,
   {| conversation_history := conversation_history w;
      trace := trace w ++ [Send HELP_TEXT] |}).
Proof.
  unfold on_content.
  assert (Str.eqb (py "/help") (py "/clear") = false) as ->
    by (apply eqb_false; keys_differ).
  rewrite eqb_refl. reflexivity.
Qed.

(** The four ways of [on_content]. *)
Lemma on_content_cases (E : env) key content w :
  content = py "/clear"
  \/ content = py "/help"
  \/ (Str.startswith (py "/create_pic") content = true
      /\ on_content E key content w = create_pic_branch E content w)
  \/ (is_command content = false
      /\ on_content E key content w = chat_branch E key content w).
Proof.
  destruct (Str.eqb content (py "/clear")) eqn:H1.
  { apply eqb_true in H1. subst content. by left. }
  destruct (Str.eqb content (py "/help")) eqn:H2.
  { apply eqb_true in H2. subst content. right. by left. }
  destruct (Str.startswith (py "/create_pic") content) eqn:H3.
  { right. right. left. split; [done|]. by apply on_content_create_pic. }
  right. right. right.
  assert (Hc : is_command content = false) by (unfold is_command; by rewrite H1, H2, H3).
  split; [done|]. by apply on_content_chat.
Qed.

End Dispatch.

(** ** What one message adds to the trace and does to the store *)

Section Effects.

Implicit Types (w : world) (key content : str) (message : Message).

(** What the default branch adds to the trace. *)
Definition chat_events (E : env) (key content : str) (w : world) : list event :=
  ModelCall (system_turn :: sent_history w key content)
  :: match (deepseek_chat E key content w).1 with
     | Return result => reply_events E result
     | Raise e => [Send (chat_failure_text e)]
     end.

Definition on_content_events (E : env) (key content : str) (w : world) : list event :=
  if Str.eqb content (py "/clear") then [Send clear_text]
  else if Str.eqb content (py "/help") then [Send HELP_TEXT]
  else if Str.startswith (py "/create_pic") content then create_pic_events E content
  else chat_events E key content w.

Definition on_message_events (E : env) (message : Message) (w : world) : list event :=
  if addressed message then
    match command_text E message with
    | [] => [Send greeting_text]
    | _ :: _ => on_content_events E (get_session_key message) (command_text E message) w
    end
  else [].

Lemma chat_branch_trace (E : env) key content w :
  trace (chat_branch E key content w).2 = trace w ++ chat_events E key content w.
Proof.
  rewrite chat_branch_run. cbn [snd trace]. rewrite deepseek_chat_trace.
  unfold chat_events. by rewrite <- app_assoc.
Qed.


Lemma on_content_trace (E : env) key content w :
  trace (on_content E key content w).2 = trace w ++ on_content_events E key content w.
Proof.
  unfold on_content_events.
  destruct (on_content_cases E key content w)
    as [->|[->|[[Hc ->]|[Hc ->]]]].
  - rewrite on_content_clear, eqb_refl. reflexivity.
  - rewrite on_content_help, eqb_refl.
    assert (Str.eqb (py "/help") (py "/clear") = false) as ->
      by (apply eqb_false; keys_differ).
    reflexivity.
  - destruct (create_pic_is_no_other_command content Hc) as [-> ->]. rewrite Hc.
    by rewrite create_pic_branch_run.
  - unfold is_command in Hc.
    apply orb_false_iff in Hc as [[-> ->]%orb_false_iff ->].
    apply chat_branch_trace.
Qed.

(** The store after [on_content]: unchanged, or changed under the session
    key only. *)
Lemma on_content_store (E : env) key content w :
  let after := (on_content E key content w).2 in
  conversation_history after = conversation_history w
  \/ (content = py "/clear"
      /\ conversation_history after = <[key := []]> (conversation_history w))
  \/ (is_command content = false
      /\ exists h,
           conversation_history after = <[key := h]> (conversation_history w)
           /\ (h = sent_history w key content
               \/ exists reply, h = sent_history w key content ++ [assistant_turn reply])).
Proof.
  cbv zeta.
  destruct (on_content_cases E key content w)
    as [->|[->|[[Hc ->]|[Hc ->]]]].
  - rewrite on_content_clear. cbn [snd conversation_history].
    destruct (conversation_history w !! key); [right; left; done | by left].
  - rewrite on_content_help. by left.
  - rewrite create_pic_branch_run. by left.
  - right. right. split; [done|].
    rewrite chat_branch_run. cbn [snd conversation_history].
    destruct (deepseek_chat_store E key content w) as (h & Hs & Hh).
    exists h. split; [done|].
    destruct Hh as [->|(result & reply & _ & _ & ->)]; [by left | right; eauto].
Qed.


Lemma on_message_trace (E : env) message w :
  trace (on_message E message w).2 = trace w ++ on_message_events E message w.
Proof.
  rewrite on_message_run. unfold on_message_events.
  destruct (addressed message); [|by rewrite app_nil_r].
  destruct (command_text E message); [done|]. apply on_content_trace.
Qed.

Lemma on_message_store (E : env) message w :
  let after := (on_message E message w).2 in
  let key := get_session_key message in
  let content := command_text E message in
  conversation_history after = conversation_history w
  \/ (content = py "/clear"
      /\ conversation_history after = <[key := []]> (conversation_history w))
  \/ (addressed message = true /\ content <> [] /\ is_command content = false
      /\ exists h,
           conversation_history after = <[key := h]> (conversation_history w)
           /\ (h = sent_history w key content
               \/ exists reply, h = sent_history w key content ++ [assistant_turn reply])).
Proof.
  cbv zeta. rewrite on_message_run.
  destruct (addressed message); [|by left].
  destruct (command_text E message) as [|c content] eqn:Hcontent; [by left|].
  destruct (on_content_store E (get_session_key message) (c :: content) w)
    as [H|[H|[Hc H]]]; [by left | right; by left |].
  right. right. done.
Qed.

End Effects.

(** ** Answers *)

Section Answers.

Implicit Types (w : world) (key content : str) (message : Message).












Lemma on_message_other_key (E : env) message w key :
  key <> get_session_key message ->
  conversation_history (on_message E message w).2 !! key = conversation_history w !! key.
Proof.
  intros Hkey.
  destruct (on_message_store E message w) as [->|[[_ ->]|(_ & _ & _ & h & -> & _)]];
    [done | |]; by rewrite lookup_insert_ne.
Qed.

End Answers.

(** ** Calls of the two services *)

Section Calls.

Implicit Types (w : world) (key content : str) (message : Message) (events : list event).

Definition is_model_call (ev : event) : bool :=
  match ev with ModelCall _ => true | _ => false end.

Definition is_image_call (ev : event) : bool :=
  match ev with ImageCall _ _ _ _ => true | _ => false end.

(** The calls of the model and the requests of an image among some events. *)
Definition model_calls (events : list event) : list event := List.filter is_model_call events.
Definition image_calls (events : list event) : list event := List.filter is_image_call events.

Lemma model_calls_app a b : model_calls (a ++ b) = model_calls a ++ model_calls b.
Proof. apply List.filter_app. Qed.

Lemma image_calls_app a b : image_calls (a ++ b) = image_calls a ++ image_calls b.
Proof. apply List.filter_app. Qed.

Lemma model_calls_sends (parts : list str) : model_calls (map Send parts) = [].
Proof. induction parts as [|part parts IH]; [done|exact IH]. Qed.

Lemma image_calls_sends (parts : list str) : image_calls (map Send parts) = [].
Proof. induction parts as [|part parts IH]; [done|exact IH]. Qed.

Lemma image_stage_events_model_calls (E : env) result :
  model_calls (image_stage_events E result) = [].
Proof.
  unfold image_stage_events.
  destruct (Py.getitem result (py "image_prompt")) as [prompt|e]; [|reflexivity].
  destruct (Py.getitem result (py "width")) as [width|e]; [|reflexivity].
  destruct (Py.getitem result (py "height")) as [height|e]; [|reflexivity].
  destruct prompt as [| | | |p| |]; try reflexivity.
  destruct width as [| |wd| | | |]; try reflexivity.
  destruct height as [| |ht| | | |]; try reflexivity.
  destruct (pollinations_image E _ _ _ _); reflexivity.
Qed.

Lemma reply_events_model_calls (E : env) result : model_calls (reply_events E result) = [].
Proof.
  unfold reply_events.
  destruct (Py.getitem result (py "reply")) as [reply_value|e]; [|reflexivity].
  destruct (Py.strip reply_value) as [stripped|e]; [|reflexivity].
  rewrite model_calls_app, model_calls_sends. cbn [app].
  destruct (Py.getitem result (py "need_image")) as [need_image|e]; [|reflexivity].
  destruct (Py.truthy need_image); [|reflexivity].
  destruct (Py.getitem result (py "image_prompt")) as [image_prompt|e]; [|reflexivity].
  destruct (Py.truthy image_prompt); [|reflexivity].
  apply image_stage_events_model_calls.
Qed.

Lemma create_pic_events_model_calls (E : env) content :
  model_calls (create_pic_events E content) = [].
Proof.
  unfold create_pic_events.
  destruct (Re.re_match CREATE_PIC_RE content)
    as [[|model [|wd [|ht [|prompt [|? ?]]]]]|]; try reflexivity.
  destruct (dimensions_rejected _ _); [reflexivity|].
  destruct (pollinations_image E _ _ _ _); reflexivity.
Qed.

Lemma chat_events_model_calls (E : env) key content w :
  model_calls (chat_events E key content w)
  = [ModelCall (system_turn :: sent_history w key content)].
Proof.
  unfold chat_events. change (model_calls (?ev :: ?l)) with (ev :: model_calls l).
  f_equal. destruct (deepseek_chat E key content w).1; [|reflexivity].
  apply reply_events_model_calls.
Qed.

(** The model is called by the default branch only, once, with the system
    turn and the history that is sent. *)
Lemma on_message_events_model_calls (E : env) message w :
  model_calls (on_message_events E message w)
  = if addressed message
       && negb (Str.eqb (command_text E message) [])
       && negb (is_command (command_text E message))
    then [ModelCall (system_turn
                       :: sent_history w (get_session_key message) (command_text E message))]
    else [].
Proof.
  unfold on_message_events. destruct (addressed message); [|reflexivity].
  cbn [andb]. destruct (command_text E message) as [|c content] eqn:Hcontent.
  { reflexivity. }
  assert (Str.eqb (c :: content) [] = false) as -> by (by apply eqb_false).
  cbn [negb andb]. unfold on_content_events, is_command.
  destruct (Str.eqb (c :: content) (py "/clear")); [reflexivity|].
  destruct (Str.eqb (c :: content) (py "/help")); [reflexivity|].
  destruct (Str.startswith (py "/create_pic") (c :: content)); cbn [orb negb].
  - apply create_pic_events_model_calls.
  - apply chat_events_model_calls.
Qed.

Lemma image_stage_events_image_calls (E : env) result :
  (length (image_calls (image_stage_events E result)) <= 1)%nat.
Proof.
  unfold image_stage_events.
  destruct (Py.getitem result (py "image_prompt")) as [prompt|e]; [|simpl; lia].
  destruct (Py.getitem result (py "width")) as [width|e]; [|simpl; lia].
  destruct (Py.getitem result (py "height")) as [height|e]; [|simpl; lia].
  destruct prompt as [| | | |p| |]; try (simpl; lia).
  destruct width as [| |wd| | | |]; try (simpl; lia).
  destruct height as [| |ht| | | |]; try (simpl; lia).
  destruct (pollinations_image E _ _ _ _); simpl; lia.
Qed.

Lemma reply_events_image_calls (E : env) result :
  (length (image_calls (reply_events E result)) <= 1)%nat.
Proof.
  unfold reply_events.
  destruct (Py.getitem result (py "reply")) as [reply_value|e]; [|simpl; lia].
  destruct (Py.strip reply_value) as [stripped|e]; [|simpl; lia].
  rewrite image_calls_app, image_calls_sends. cbn [app].
  destruct (Py.getitem result (py "need_image")) as [need_image|e]; [|simpl; lia].
  destruct (Py.truthy need_image); [|simpl; lia].
  destruct (Py.getitem result (py "image_prompt")) as [image_prompt|e]; [|simpl; lia].
  destruct (Py.truthy image_prompt); [|simpl; lia].
  apply image_stage_events_image_calls.
Qed.

Lemma create_pic_events_image_calls (E : env) content :
  (length (image_calls (create_pic_events E content)) <= 1)%nat.
Proof.
  unfold create_pic_events.
  destruct (Re.re_match CREATE_PIC_RE content)
    as [[|model [|wd [|ht [|prompt [|? ?]]]]]|]; try (simpl; lia).
  destruct (dimensions_rejected _ _); [simpl; lia|].
  destruct (pollinations_image E _ _ _ _); simpl; lia.
Qed.

Lemma on_message_events_image_calls (E : env) message w :
  (length (image_calls (on_message_events E message w)) <= 1)%nat.
Proof.
  unfold on_message_events. destruct (addressed message); [|simpl; lia].
  destruct (command_text E message) as [|c content]; [simpl; lia|].
  unfold on_content_events.
  destruct (Str.eqb (c :: content) (py "/clear")); [simpl; lia|].
  destruct (Str.eqb (c :: content) (py "/help")); [simpl; lia|].
  destruct (Str.startswith (py "/create_pic") (c :: content)).
  - apply create_pic_events_image_calls.
  - unfold chat_events. change (image_calls (ModelCall ?m :: ?l)) with (image_calls l).
    destruct (deepseek_chat E _ _ w).1; [apply reply_events_image_calls | simpl; lia].
Qed.

End Calls.

(** ** What a match of [CREATE_PIC_RE] looks like *)

Section Parsed.

Implicit Types (s l content model wd ht prompt : str) (p : N -> bool).

Lemma take_span_all p s n :
  (n <= Str.span_len p s)%nat -> all_chars p (take n s).
Proof.
  revert n. induction s as [|c s IH]; intros n Hn.
  - rewrite take_nil. constructor.
  - destruct n as [|n]; [constructor|]. simpl in Hn.
    destruct (p c) eqn:Hc; [|lia]. cbn [take]. constructor; [done|].
    apply IH. lia.
Qed.

Lemma take_nonempty s n : (1 <= n <= length s)%nat -> take n s <> [].
Proof.
  intros Hn H. apply (f_equal length) in H. rewrite length_take in H. simpl in H. lia.
Qed.

Lemma match_literal_inv l (rest : list Re.item) s g :
  Re.match_here (Re.Plain (Re.Lit l) :: rest) s = Some g ->
  s = l ++ drop (length l) s /\ Re.match_here rest (drop (length l) s) = Some g.
Proof.
  cbn [Re.match_here Re.atom_of]. destruct (Str.startswith l s) eqn:Hs; [|done].
  intros H. split; [by apply startswith_prefix|].
  destruct (Re.match_here rest (drop (length l) s)); [|done]. exact H.
Qed.

(** A matched repetition took some characters of its class, at least the
    least count, and the rest of the pattern matched what follows. *)
Lemma match_rep_inv (i : Re.item) greedy k least (rest : list Re.item) s g :
  Re.atom_of i = Re.Rep greedy k least ->
  Re.match_here (i :: rest) s = Some g ->
  exists m t g',
    s = m ++ t /\ all_chars (Re.in_cls k) m /\ (least <= length m)%nat
    /\ Re.match_here rest t = Some g' /\ g = Re.capture i m g'.
Proof.
  intros Hi. cbn [Re.match_here]. rewrite Hi.
  intros (n & Hn%counts_range & Hm)%first_some_Some.
  destruct (Re.match_here rest (drop n s)) as [g'|] eqn:Hrest; [|done].
  injection Hm as <-.
  pose proof (span_len_le (Re.in_cls k) s) as Hle.
  exists (take n s), (drop n s), g'.
  split; [by rewrite take_drop|]. split; [apply take_span_all; lia|].
  split; [rewrite length_take; lia | done].
Qed.

(** The last two items: the greedy group takes all that is left. *)
Lemma match_rest_of_line s g :
  Re.match_here [Re.Group (Re.Rep true Re.Any 1); Re.Plain Re.Eos] s = Some g ->
  s <> [] /\ g = [s].
Proof.
  destruct s as [|c s]; [done|]. intros H. split; [done|].
  rewrite <- (app_nil_r (c :: s)) in H at 1.
  rewrite (match_greedy_run (Re.Group (Re.Rep true Re.Any 1)) Re.Any 1
             [Re.Plain Re.Eos] (c :: s) [] [] eq_refl) in H.
  - by injection H as <-.
  - by apply Forall_forall.
  - done.
  - simpl. lia.
  - reflexivity.
Qed.

Lemma nonempty_length s : (1 <= length s)%nat -> s <> [].
Proof. destruct s; simpl; [lia | done]. Qed.


(** Every match of the command pattern is a line of the grammar. *)
Lemma create_pic_match_inv content model wd ht prompt :
  Re.re_match CREATE_PIC_RE content = Some [model; wd; ht; prompt] ->
  exists ws1 ws2 ws3 ws4,
    content = py "/create_pic" ++ ws1 ++ model ++ ws2 ++ wd ++ ws3 ++ ht ++ ws4 ++ prompt
    /\ (ws1 <> [] /\ all_chars Str.isspace ws1)
    /\ (model <> [] /\ all_chars (fun c => negb (Str.isspace c)) model)
    /\ (ws2 <> [] /\ all_chars Str.isspace ws2)
    /\ (wd <> [] /\ all_chars Str.isdigit wd)
    /\ (ws3 <> [] /\ all_chars Str.isspace ws3)
    /\ (ht <> [] /\ all_chars Str.isdigit ht)
    /\ (ws4 <> [] /\ all_chars Str.isspace ws4)
    /\ prompt <> [].
Proof.
  unfold Re.re_match, CREATE_PIC_RE.
  intros [H0 H]%match_literal_inv.
  apply (match_rep_inv (Re.Plain (Re.Rep true Re.Space 1)) true Re.Space 1 _ _ _ eq_refl)
    in H as (ws1 & t1 & g1 & E1 & A1 & L1 & H & G1).
  cbn [Re.capture] in G1. subst g1.
  apply (match_rep_inv (Re.Group (Re.Rep true Re.NonSpace 1)) true Re.NonSpace 1 _ _ _
           eq_refl) in H as (m & t2 & g2 & E2 & A2 & L2 & H & G2).
  cbn [Re.capture] in G2. injection G2 as <- <-.
  apply (match_rep_inv (Re.Plain (Re.Rep true Re.Space 1)) true Re.Space 1 _ _ _ eq_refl)
    in H as (ws2 & t3 & g3 & E3 & A3 & L3 & H & G3).
  cbn [Re.capture] in G3. subst g3.
  apply (match_rep_inv (Re.Group (Re.Rep true Re.Digit 1)) true Re.Digit 1 _ _ _ eq_refl)
    in H as (d1 & t4 & g4 & E4 & A4 & L4 & H & G4).
  cbn [Re.capture] in G4. injection G4 as <- <-.
  apply (match_rep_inv (Re.Plain (Re.Rep true Re.Space 1)) true Re.Space 1 _ _ _ eq_refl)
    in H as (ws3 & t5 & g5 & E5 & A5 & L5 & H & G5).
  cbn [Re.capture] in G5. subst g5.
  apply (match_rep_inv (Re.Group (Re.Rep true Re.Digit 1)) true Re.Digit 1 _ _ _ eq_refl)
    in H as (d2 & t6 & g6 & E6 & A6 & L6 & H & G6).
  cbn [Re.capture] in G6. injection G6 as <- <-.
  apply (match_rep_inv (Re.Plain (Re.Rep true Re.Space 1)) true Re.Space 1 _ _ _ eq_refl)
    in H as (ws4 & t7 & g7 & E7 & A7 & L7 & H & G7).
  cbn [Re.capture] in G7. subst g7.
  apply match_rest_of_line in H as [Hp [= <-]].
  exists ws1, ws2, ws3, ws4.
  split.
  { rewrite H0 at 1. f_equal. rewrite E1. f_equal. rewrite E2. f_equal.
    rewrite E3. f_equal. rewrite E4. f_equal. rewrite E5. f_equal.
    rewrite E6. f_equal. exact E7. }
  repeat split; try done; by apply nonempty_length.
Qed.

End Parsed.

(** ** The requests of an image *)

Section ImageRequests.

Implicit Types (w : world) (key content raw : str) (message : Message).

Ltac elems H :=
  repeat match type of H with
         | _ ∈ _ ++ _ => apply elem_of_app in H as [H|H]
         | _ ∈ _ :: _ => apply elem_of_cons in H as [H|H]
         | _ ∈ [] => by apply elem_of_nil in H
         | _ ∈ map Send _ => apply list_elem_of_fmap in H as (? & H & _)
         | ImageCall _ _ _ _ = Send _ => discriminate H
         | ImageCall _ _ _ _ = SendFile _ _ => discriminate H
         | ImageCall _ _ _ _ = Unmodelled => discriminate H
         | ImageCall _ _ _ _ = ModelCall _ => discriminate H
         end.

Lemma deepseek_chat_result (E : env) key user_text w result :
  (deepseek_chat E key user_text w).1 = Return result ->
  exists completion,
    chat_completion E (system_turn :: sent_history w key user_text) = Return completion
    /\ structured_response (default [] completion) = Return result.
Proof.
  rewrite deepseek_chat_run.
  destruct (chat_completion E _) as [completion|e]; [|done].
  destruct (structured_response _) as [r|e] eqn:Hr; [|done].
  destruct (Py.getitem r _) as [v|e]; [|done].
  cbn [fst]. intros [= ->]. by exists completion.
Qed.

(** The dimensions of a decision. *)
Lemma decision_dimensions raw result :
  structured_response raw = Return result ->
  exists d wd ht,
    result = PDict d
    /\ Dict.get (py "width") d = Some (PInt wd)
    /\ Dict.get (py "height") d = Some (PInt ht)
    /\ (64 <= wd <= 4096)%Z /\ (64 <= ht <= 4096)%Z.
Proof.
  intros [-> | Hb]%structured_response_returns.
  - exists [ (py "need_image", PBool false); (py "image_prompt", PStr []);
             (py "width", PInt 1024); (py "height", PInt 1024);
             (py "reply", PStr raw) ], 1024%Z, 1024%Z.
    repeat split; try done; by vm_compute.
  - destruct (parse_body_returns raw result Hb) as (o & Hl & Hn & Hr & ->).
    exists (normalise o), (dimension_value o (py "width") 1024),
      (dimension_value o (py "height") 1024).
    split; [done|]. split; [apply normalise_width|].
    split; [apply normalise_height|].
    split; apply dimension_value_range.
Qed.

Lemma getitem_dict (d : dict) k v :
  Py.getitem (PDict d) k = Return v -> Dict.get k d = Some v.
Proof. cbn [Py.getitem]. destruct (Dict.get k d); [|done]. by intros [= ->]. Qed.

(** A request made by the image stage carries the prompt and the dimensions
    of the decision and the default model. *)
Lemma image_stage_events_image (E : env) result model width height prompt :
  ImageCall model width height prompt ∈ image_stage_events E result ->
  model = DEFAULT_IMAGE_MODEL
  /\ Py.getitem result (py "image_prompt") = Return (PStr prompt)
  /\ Py.getitem result (py "width") = Return (PInt width)
  /\ Py.getitem result (py "height") = Return (PInt height).
Proof.
  unfold image_stage_events.
  destruct (Py.getitem result (py "image_prompt")) as [p|e]; [|intros H; elems H].
  destruct (Py.getitem result (py "width")) as [wd|e]; [|intros H; elems H].
  destruct (Py.getitem result (py "height")) as [ht|e]; [|intros H; elems H].
  destruct p as [| | | |p| |]; try solve [intros H; elems H].
  destruct wd as [| |wd| | | |]; try solve [intros H; elems H].
  destruct ht as [| |ht| | | |]; try solve [intros H; elems H].
  intros H. apply elem_of_app in H as [H|H].
  - elems H. by injection H as -> -> -> ->.
  - destruct (pollinations_image E _ _ _ _); elems H.
Qed.

Lemma reply_events_image (E : env) raw result model width height prompt :
  structured_response raw = Return result ->
  ImageCall model width height prompt ∈ reply_events E result ->
  model = DEFAULT_IMAGE_MODEL
  /\ (64 <= width <= 4096)%Z /\ (64 <= height <= 4096)%Z /\ prompt <> [].
Proof.
  intros Hres. unfold reply_events.
  destruct (Py.getitem result (py "reply")) as [reply_value|e]; [|intros H; elems H].
  destruct (Py.strip reply_value) as [stripped|e]; [|intros H; elems H].
  intros H. apply elem_of_app in H as [H|H]; [elems H|].
  destruct (Py.getitem result (py "need_image")) as [need_image|e]; [|elems H].
  destruct (Py.truthy need_image); [|elems H].
  destruct (Py.getitem result (py "image_prompt")) as [image_prompt|e] eqn:Hp; [|elems H].
  destruct (Py.truthy image_prompt) eqn:Htruthy; [|elems H].
  apply image_stage_events_image in H as (-> & Hp' & Hw & Hh).
  rewrite Hp in Hp'. injection Hp' as ->.
  destruct (decision_dimensions raw result Hres)
    as (d & wd & ht & -> & Hwd & Hht & Rw & Rh).
  apply getitem_dict in Hw, Hh. rewrite Hwd in Hw. rewrite Hht in Hh.
  injection Hw as <-. injection Hh as <-.
  split; [done|]. split; [done|]. split; [done|].
  intros ->. discriminate Htruthy.
Qed.

Lemma dimensions_accepted width height :
  dimensions_rejected width height = false ->
  (1 <= width <= 4096)%Z /\ (1 <= height <= 4096)%Z.
Proof.
  unfold dimensions_rejected.
  rewrite !orb_false_iff, !Z.leb_gt, !Z.ltb_ge. lia.
Qed.

Lemma create_pic_events_image (E : env) content model width height prompt :
  ImageCall model width height prompt ∈ create_pic_events E content ->
  exists wd ht,
    Re.re_match CREATE_PIC_RE content = Some [model; wd; ht; prompt]
    /\ width = Str.int_of_digits wd /\ height = Str.int_of_digits ht
    /\ (1 <= width <= 4096)%Z /\ (1 <= height <= 4096)%Z.
Proof.
  unfold create_pic_events.
  destruct (Re.re_match CREATE_PIC_RE content)
    as [[|model' [|wd [|ht [|prompt' [|? ?]]]]]|]; try solve [intros H; elems H].
  destruct (dimensions_rejected _ _) eqn:Hrej; [intros H; elems H|].
  intros H. apply elem_of_app in H as [H|H].
  - elems H. injection H as -> -> -> ->. exists wd, ht.
    split; [done|]. split; [done|]. split; [done|].
    by apply dimensions_accepted.
  - destruct (pollinations_image E _ _ _ _); elems H.
Qed.

Lemma default_model_nonempty : DEFAULT_IMAGE_MODEL <> [].
Proof. intros H. vm_compute in H. discriminate H. Qed.

(** Every request that one message causes. *)
Lemma on_message_events_image (E : env) message w model width height prompt :
  ImageCall model width height prompt ∈ on_message_events E message w ->
  (1 <= width <= 4096)%Z /\ (1 <= height <= 4096)%Z /\ model <> [] /\ prompt <> []
  /\ (Str.startswith (py "/create_pic") (command_text E message) = false ->
      model = DEFAULT_IMAGE_MODEL /\ (64 <= width)%Z /\ (64 <= height)%Z).
Proof.
  unfold on_message_events. destruct (addressed message); [|intros H; elems H].
  destruct (command_text E message) as [|c content]; [intros H; elems H|].
  unfold on_content_events.
  destruct (Str.eqb (c :: content) (py "/clear")); [intros H; elems H|].
  destruct (Str.eqb (c :: content) (py "/help")); [intros H; elems H|].
  destruct (Str.startswith (py "/create_pic") (c :: content)).
  - intros (wd & ht & Hm & _ & _ & Rw & Rh)%create_pic_events_image.
    apply create_pic_match_inv in Hm
      as (ws1 & ws2 & ws3 & ws4 & _ & _ & [Hmodel _] & _ & _ & _ & _ & _ & Hprompt).
    repeat split; try done; lia.
  - unfold chat_events. intros H. apply elem_of_cons in H as [H|H]; [discriminate H|].
    destruct (deepseek_chat E _ _ w).1 as [result|e] eqn:Hrun; [|elems H].
    apply deepseek_chat_result in Hrun as (completion & _ & Hres).
    apply (reply_events_image E _ _ _ _ _ _ Hres) in H as (-> & Rw & Rh & Hp).
    split; [lia|]. split; [lia|]. split; [apply default_model_nonempty|].
    split; [done|]. intros _. split; [done|]. lia.
Qed.

End ImageRequests.

(** ** The shape of the histories and of the calls of the model *)

Section Shape.

Implicit Types (w : world) (key content s : str) (message : Message) (h : list Turn).

Lemma lstrip_stops s : stops Str.isspace s -> Str.lstrip s = s.
Proof.
  unfold Str.lstrip. destruct s as [|c s]; [done|]. simpl. by intros ->.
Qed.

Lemma rstrip_keeps_head s : stops Str.isspace s -> stops Str.isspace (Str.rstrip s).
Proof.
  unfold Str.rstrip, Str.lstrip. destruct s as [|c s]; [done|]. cbn [stops]. intros Hc.
  cbn [rev].
  pose proof (span_len_last Str.isspace (rev s) c [] Hc) as Hle.
  rewrite drop_app_le by exact Hle.
  rewrite rev_app_distr. cbn [rev app]. exact Hc.
Qed.

(** [strip] leaves a stripped text as it is. *)
Lemma strip_strip s : Str.strip (Str.strip s) = Str.strip s.
Proof.
  unfold Str.strip.
  pose proof (span_len_stops Str.isspace s) as Ha. fold (Str.lstrip s) in Ha.
  set (a := Str.lstrip s) in *.
  rewrite (lstrip_stops (Str.rstrip a)) by by apply rstrip_keeps_head.
  unfold Str.rstrip at 1. unfold Str.rstrip at 1. rewrite rev_involutive.
  rewrite (lstrip_stops (Str.lstrip (rev a))); [done|].
  apply span_len_stops.
Qed.













End Shape.

(** ** The default branch, from the completion to the sends *)

Section Completions.

Implicit Types (w : world) (key content raw : str).







End Completions.

(** ** Requests of an image through a run *)

Section ImageRuns.

Implicit Types (w : world).

Definition image_call_in_bounds (ev : event) : Prop :=
  match ev with
  | ImageCall model width height prompt =>
    (1 <= width <= 4096)%Z /\ (1 <= height <= 4096)%Z /\ model <> [] /\ prompt <> []
  | _ => True
  end.

Lemma image_calls_in_bounds_on_message (E : env) (message : Message) w :
  Forall image_call_in_bounds (trace w) ->
  Forall image_call_in_bounds (trace (on_message E message w).2).
Proof.
  intros Hw. rewrite on_message_trace. apply Forall_app. split; [done|].
  apply Forall_forall. intros [messages|model width height prompt|text|data name|] Hin;
    try done.
  apply on_message_events_image in Hin as (Rw & Rh & Hm & Hp & _). done.
Qed.

Lemma image_calls_in_bounds_run inbound w :
  Forall image_call_in_bounds (trace w) ->
  Forall image_call_in_bounds (trace (run_messages inbound w)).
Proof.
  revert w. induction inbound as [|[E message] rest IH]; intros w Hw; simpl; [done|].
  apply IH. by apply image_calls_in_bounds_on_message.
Qed.

End ImageRuns.

(** ** Mentions *)

Section Mentions.

Implicit Types (s old new p q x ws text : str) (message : Message).

Lemma startswith_app_l p q s : Str.startswith (p ++ q) s = true -> Str.startswith p s = true.
Proof.
  revert s. induction p as [|c p IH]; intros [|c' s]; simpl; try done.
  intros [Hc Hs]%andb_prop. rewrite Hc. by apply IH.
Qed.

Lemma contains_app_l p q s : Str.contains p s = false -> Str.contains (p ++ q) s = false.
Proof.
  induction s as [|c s IH]; cbn [Str.contains].
  - rewrite !orb_false_r. intros Hp.
    destruct (Str.startswith (p ++ q) []) eqn:Hpq; [|done].
    apply startswith_app_l in Hpq. congruence.
  - intros [Hp Hs]%orb_false_iff. apply orb_false_iff. split; [|by apply IH].
    destruct (Str.startswith (p ++ q) (c :: s)) eqn:Hpq; [|done].
    apply startswith_app_l in Hpq. congruence.
Qed.

(** Nothing is replaced in a text that does not contain [old]. *)
Lemma replace_absent old new s : Str.contains old s = false -> Str.replace old new s = s.
Proof.
  unfold Str.replace. induction s as [|c s IH]; [done|].
  cbn [Str.contains Str.replace_go]. intros [-> Hs]%orb_false_iff. f_equal. by apply IH.
Qed.

Lemma replace_go_skip old new x s :
  Str.replace_go old new (length x) (x ++ s) = Str.replace_go old new O s.
Proof. induction x as [|c x IH]; [done|]. exact IH. Qed.

(** An occurrence in front is removed. *)
Lemma replace_prefix old s : old <> [] -> Str.replace old [] (old ++ s) = Str.replace old [] s.
Proof.
  destruct old as [|c old]; [done|]. intros _. unfold Str.replace.
  cbn [app Str.replace_go].
  assert (Hst : Str.startswith (c :: old) (c :: old ++ s) = true)
    by apply (startswith_app (c :: old) s).
  rewrite Hst. replace (length (c :: old) - 1)%nat with (length old) by (simpl; lia).
  apply replace_go_skip.
Qed.

(** A pattern that starts with a character that is no whitespace does not
    start inside leading whitespace. *)
Lemma contains_after_space c p ws s :
  Str.isspace c = false -> all_chars Str.isspace ws ->
  Str.contains (c :: p) s = false -> Str.contains (c :: p) (ws ++ s) = false.
Proof.
  intros Hc Hws Hs. induction Hws as [|c' ws Hc' Hws IH]; [done|].
  cbn [app Str.contains Str.startswith]. rewrite IH, orb_false_r.
  destruct (c =? c') eqn:Heq; [|done]. apply N.eqb_eq in Heq. congruence.
Qed.

Lemma strip_after_space ws text :
  all_chars Str.isspace ws -> Str.strip text = text -> Str.strip (ws ++ text) = text.
Proof.
  intros Hws Htext.
  assert (Hstops : stops Str.isspace text).
  { rewrite <- Htext. unfold Str.strip. apply rstrip_keeps_head, span_len_stops. }
  unfold Str.strip in *. unfold Str.lstrip at 1.
  rewrite (span_len_app _ ws text Hws Hstops), drop_app_length.
  by rewrite (lstrip_stops text Hstops) in Htext.
Qed.

Definition user_mention (E : env) : str := py "<@" ++ Str.of_Z (client_user_id E) ++ py ">".

Lemma mention_opening : Str.isspace 60 = false /\ py "<@" = 60 :: [64].
Proof. split; vm_compute; reflexivity. Qed.

(** The three replacements leave a text without [<@] as it is. *)
Lemma strip_mentions_plain (E : env) message s :
  Str.contains (py "<@") s = false -> strip_mentions E message s = Str.strip s.
Proof.
  intros Hs. unfold strip_mentions. f_equal.
  rewrite (replace_absent (py "<@" ++ _)) by by apply contains_app_l.
  change (py "<@!") with (py "<@" ++ py "!"). rewrite <- app_assoc.
  rewrite (replace_absent (py "<@" ++ _)) by by apply contains_app_l.
  induction (role_mentions message) as [|role roles IH]; [done|].
  cbn [fold_left]. change (py "<@&") with (py "<@" ++ py "&"). rewrite <- app_assoc.
  rewrite (replace_absent (py "<@" ++ _)) by by apply contains_app_l.
  exact IH.
Qed.

(** A mention of the bot in front of a text is removed with the whitespace
    that follows it. *)
Lemma strip_mentions_prefix (E : env) message ws text :
  all_chars Str.isspace ws -> Str.contains (py "<@") text = false ->
  Str.strip text = text ->
  strip_mentions E message (user_mention E ++ ws ++ text) = text.
Proof.
  intros Hws Htext Hstrip.
  assert (Hrest : Str.contains (py "<@") (ws ++ text) = false).
  { destruct mention_opening as [Hc ->]. by apply contains_after_space. }
  assert (Hfirst : Str.replace (user_mention E) [] (user_mention E ++ ws ++ text)
                   = ws ++ text).
  { rewrite replace_prefix.
    - apply replace_absent. unfold user_mention. by apply contains_app_l.
    - unfold user_mention. destruct mention_opening as [_ ->]. done. }
  transitivity (strip_mentions E message (ws ++ text)).
  - unfold strip_mentions. fold (user_mention E). rewrite Hfirst.
    rewrite (replace_absent (user_mention E) [] (ws ++ text)); [done|].
    unfold user_mention. by apply contains_app_l.
  - rewrite strip_mentions_plain by done. by apply strip_after_space.
Qed.

End Mentions.

(** A message of user 42 in channel 5 that mentions the bot. *)
Definition channel_mention (text : str) : Message :=
  {| author_bot := false; author_id := 42; message_content := Some text;
     is_dm_channel := false; channel_id := 5; mentions_client := true;
     role_mentions := []; guild_me_roles := None |}.

(** ** Chunks of any size *)

Section ChunkSizes.

Implicit Types (s : str) (n i : nat).

Lemma chunk_text_empty n : chunk_text [] n = [].
Proof.
  unfold chunk_text, range0. cbn [length]. destruct n as [|n]; [done|].
  replace ((0 + S n - 1) / S n)%nat with O; [done|].
  symmetry. apply Nat.div_small. lia.
Qed.

(** A chunk that is followed by another one is full. *)
Lemma chunk_text_full s n i part :
  (0 < n)%nat -> chunk_text s n !! i = Some part -> (S i < length (chunk_text s n))%nat ->
  length part = n.
Proof.
  intros Hn Hi Hlt. destruct (chunk_text_lookup s n i part Hn Hi) as [-> _].
  rewrite chunk_text_length in Hlt.
  pose proof (chunk_count_bounds n (length s) Hn) as [_ Hup]. cbv zeta in Hup.
  rewrite length_take, length_drop. nia.
Qed.

Lemma chunk_text_last s n part :
  (0 < n)%nat -> last (chunk_text s n) = Some part ->
  (length part = length s - (length (chunk_text s n) - 1) * n)%nat
  /\ (0 < length part <= n)%nat.
Proof.
  intros Hn Hlast. rewrite last_lookup in Hlast.
  destruct (chunk_text_lookup s n _ part Hn Hlast) as [Hpart Hlen].
  split; [|done].
  apply lookup_lt_Some in Hlast.
  pose proof (chunk_count_bounds n (length s) Hn) as [Hlow Hup]. cbv zeta in Hlow, Hup.
  rewrite <- chunk_text_length in Hlow, Hup.
  set (m := length (chunk_text s n)) in *.
  assert (Hm : (pred m * n = m * n - n)%nat) by nia.
  rewrite Hpart, length_take, length_drop.
  replace (m - 1)%nat with (pred m) by lia. rewrite Hm. lia.
Qed.

End ChunkSizes.

(** ** The fields of a decision *)

Section DecisionFields.

Implicit Types (raw k : str) (o d : dict) (result : pyval).


End DecisionFields.

(** ** Checks of [quote] and of [lower]

    The results are those of CPython 3.11. *)

Example quote_conforms_1 :
  Url.quote []
  = Return [].
Proof. vm_compute. reflexivity. Qed.

Example quote_conforms_2 :
  Url.quote [97; 32; 99; 97; 116]
  = Return (py "a%20cat").
Proof. vm_compute. reflexivity. Qed.

Example quote_conforms_3 :
  Url.quote [127; 128; 2047; 2048]
  = Return (py "%7F%C2%80%DF%BF%E0%A0%80").
Proof. vm_compute. reflexivity. Qed.

Example quote_conforms_4 :
  Url.quote [65535; 65536; 1114111]
  = Return (py "%EF%BF%BF%F0%90%80%80%F4%8F%BF%BF").
Proof. vm_compute. reflexivity. Qed.

Example quote_conforms_5 :
  Url.quote [55295; 57344]
  = Return (py "%ED%9F%BF%EE%80%80").
Proof. vm_compute. reflexivity. Qed.

Example quote_conforms_6 :
  Url.quote [65; 90; 97; 122; 48; 57; 95; 46; 45; 126]
  = Return (py "AZaz09_.-~").
Proof. vm_compute. reflexivity. Qed.

Example quote_conforms_7 :
  Url.quote [47; 63; 35; 38; 61; 43; 37; 34; 39]
  = Return (py "%2F%3F%23%26%3D%2B%25%22%27").
Proof. vm_compute. reflexivity. Qed.

Example quote_conforms_8 :
  Url.quote [29483; 128512]
  = Return (py "%E7%8C%AB%F0%9F%98%80").
Proof. vm_compute. reflexivity. Qed.

Example quote_conforms_9 :
  Url.quote [55296]
  = Raise (Error (py "UnicodeEncodeError")
               (py "'utf-8' codec can't encode character '\ud800' in position 0: surrogates not allowed")).
Proof. vm_compute. reflexivity. Qed.

Example quote_conforms_10 :
  Url.quote [97; 98; 57343; 99]
  = Raise (Error (py "UnicodeEncodeError")
               (py "'utf-8' codec can't encode character '\udfff' in position 2: surrogates not allowed")).
Proof. vm_compute. reflexivity. Qed.

Example quote_conforms_11 :
  Url.quote [97; 55296; 56320; 98]
  = Raise (Error (py "UnicodeEncodeError")
               (py "'utf-8' codec can't encode characters in position 1-2: surrogates not allowed")).
Proof. vm_compute. reflexivity. Qed.

Example quote_conforms_12 :
  Url.quote [55296; 55296; 55296]
  = Raise (Error (py "UnicodeEncodeError")
               (py "'utf-8' codec can't encode characters in position 0-2: surrogates not allowed")).
Proof. vm_compute. reflexivity. Qed.

Example quote_conforms_13 :
  Url.quote [97; 97; 97; 97; 97; 97; 97; 97; 97; 97; 97; 97; 55996; 55296; 97]
  = Raise (Error (py "UnicodeEncodeError")
               (py "'utf-8' codec can't encode characters in position 12-13: surrogates not allowed")).
Proof. vm_compute. reflexivity. Qed.

Example lower_latin1_conforms :
  map lower_latin1 (map N.of_nat (seq 0 256))
  = [0; 1; 2; 3; 4; 5; 6; 7; 8; 9; 10; 11; 12; 13; 14; 15; 16; 17; 18; 19;
     20; 21; 22; 23; 24; 25; 26; 27; 28; 29; 30; 31; 32; 33; 34; 35; 36;
     37; 38; 39; 40; 41; 42; 43; 44; 45; 46; 47; 48; 49; 50; 51; 52; 53;
     54; 55; 56; 57; 58; 59; 60; 61; 62; 63; 64; 97; 98; 99; 100; 101;
     102; 103; 104; 105; 106; 107; 108; 109; 110; 111; 112; 113; 114; 115;
     116; 117; 118; 119; 120; 121; 122; 91; 92; 93; 94; 95; 96; 97; 98;
     99; 100; 101; 102; 103; 104; 105; 106; 107; 108; 109; 110; 111; 112;
     113; 114; 115; 116; 117; 118; 119; 120; 121; 122; 123; 124; 125; 126;
     127; 128; 129; 130; 131; 132; 133; 134; 135; 136; 137; 138; 139; 140;
     141; 142; 143; 144; 145; 146; 147; 148; 149; 150; 151; 152; 153; 154;
     155; 156; 157; 158; 159; 160; 161; 162; 163; 164; 165; 166; 167; 168;
     169; 170; 171; 172; 173; 174; 175; 176; 177; 178; 179; 180; 181; 182;
     183; 184; 185; 186; 187; 188; 189; 190; 191; 224; 225; 226; 227; 228;
     229; 230; 231; 232; 233; 234; 235; 236; 237; 238; 239; 240; 241; 242;
     243; 244; 245; 246; 215; 248; 249; 250; 251; 252; 253; 254; 223; 224;
     225; 226; 227; 228; 229; 230; 231; 232; 233; 234; 235; 236; 237; 238;
     239; 240; 241; 242; 243; 244; 245; 246; 247; 248; 249; 250; 251; 252;
     253; 254; 255].
Proof. vm_compute. reflexivity. Qed.

(** ** The request of [_pollinations_image_sync] *)

Section Quote.

Implicit Types (s q : str) (bs : list N) (c b : N) (pos : nat).

Lemma hex_upper_safe n : n < 16 -> Url.always_safe (Url.hex_upper n) = true.
Proof.
  intros Hn. unfold Url.hex_upper, Url.always_safe.
  destruct (n <? 10) eqn:H10.
  - apply N.ltb_lt in H10.
    assert ((48 <=? 48 + n) && (48 + n <=? 57) = true) as ->
      by (apply andb_true_iff; split; apply N.leb_le; lia).
    by rewrite !orb_true_r.
  - apply N.ltb_ge in H10.
    assert ((65 <=? 55 + n) && (55 + n <=? 90) = true) as ->
      by (apply andb_true_iff; split; apply N.leb_le; lia).
    done.
Qed.

(** A character of a quoted byte is never quoted itself, or is the percent
    sign. *)
Lemma quote_byte_chars b c :
  b < 256 -> c ∈ Url.quote_byte b -> Url.always_safe c = true \/ c = 37.
Proof.
  intros Hb. unfold Url.quote_byte. destruct (Url.always_safe b) eqn:Hs.
  - intros ->%list_elem_of_singleton. by left.
  - intros Hin. apply elem_of_cons in Hin as [->|Hin]; [by right|].
    apply elem_of_cons in Hin as [->|Hin].
    { left. apply hex_upper_safe. apply N.Div0.div_lt_upper_bound. lia. }
    apply list_elem_of_singleton in Hin as ->.
    left. apply hex_upper_safe. apply N.mod_lt. lia.
Qed.

(** A Python string holds code points below 0x110000. *)
Definition code_points (s : str) : Prop := Forall (fun c => c < 1114112) s.

Lemma code_points_check s : forallb (fun c => c <? 1114112) s = true -> code_points s.
Proof.
  intros H. apply Forall_forall. intros c Hin%list_elem_of_In.
  rewrite forallb_forall in H. by apply N.ltb_lt, H.
Qed.

Lemma utf8_encode_char_bytes c b :
  c < 1114112 -> b ∈ Url.utf8_encode_char c -> b < 256.
Proof.
  intros Hc. unfold Url.utf8_encode_char.
  pose proof (N.mod_lt c 64 ltac:(lia)) as M1.
  pose proof (N.mod_lt (c / 64) 64 ltac:(lia)) as M2.
  pose proof (N.mod_lt (c / 4096) 64 ltac:(lia)) as M3.
  destruct (c <? 128) eqn:H1.
  { apply N.ltb_lt in H1. intros ->%list_elem_of_singleton. lia. }
  destruct (c <? 2048) eqn:H2.
  { apply N.ltb_lt in H2.
    assert (c / 64 < 32) by (apply N.Div0.div_lt_upper_bound; lia).
    intros Hin. repeat (apply elem_of_cons in Hin as [->|Hin]; [lia|]).
    by apply elem_of_nil in Hin. }
  destruct (c <? 65536) eqn:H3.
  { apply N.ltb_lt in H3.
    assert (c / 4096 < 16) by (apply N.Div0.div_lt_upper_bound; lia).
    intros Hin. repeat (apply elem_of_cons in Hin as [->|Hin]; [lia|]).
    by apply elem_of_nil in Hin. }
  assert (c / 262144 < 5) by (apply N.Div0.div_lt_upper_bound; lia).
  intros Hin. repeat (apply elem_of_cons in Hin as [->|Hin]; [lia|]).
  by apply elem_of_nil in Hin.
Qed.

Lemma encode_from_bytes pos s bs :
  code_points s -> Url.encode_from pos s = Return bs -> Forall (fun b => b < 256) bs.
Proof.
  intros Hs. revert pos bs. induction Hs as [|c s Hc Hs IH]; intros pos bs.
  { intros [= <-]. constructor. }
  cbn [Url.encode_from]. destruct (Url.is_surrogate c); [done|].
  destruct (Url.encode_from (S pos) s) as [rest|e] eqn:Hrest; [|done].
  cbn [mbind outcome_bind]. intros [= <-]. apply Forall_app. split.
  - apply Forall_forall. intros b. by apply utf8_encode_char_bytes.
  - by apply (IH (S pos)).
Qed.

(** The encoder fails exactly on the strings that hold a surrogate. *)
Lemma encode_from_raises pos s :
  (exists e, Url.encode_from pos s = Raise e)
  <-> exists c, c ∈ s /\ Url.is_surrogate c = true.
Proof.
  revert pos. induction s as [|c s IH]; intros pos; cbn [Url.encode_from].
  { split; [by intros [e He] | intros (c & Hin & _); by apply elem_of_nil in Hin]. }
  destruct (Url.is_surrogate c) eqn:Hc.
  { split; [|by eauto]. intros _. exists c. split; [left | done]. }
  split.
  - intros [e He]. destruct (Url.encode_from (S pos) s) as [rest|e'] eqn:Hrest; [done|].
    destruct (proj1 (IH (S pos))) as (c' & Hin & Hc'); [by eauto|].
    exists c'. split; [by right | done].
  - intros (c' & Hin & Hc'). apply elem_of_cons in Hin as [->|Hin]; [congruence|].
    destruct (proj2 (IH (S pos))) as [e He]; [by eauto|].
    exists e. by rewrite He.
Qed.

Lemma encode_from_error pos s e :
  Url.encode_from pos s = Raise e -> exn_name e = py "UnicodeEncodeError".
Proof.
  revert pos. induction s as [|c s IH]; intros pos; cbn [Url.encode_from]; [done|].
  destruct (Url.is_surrogate c); [by intros [= <-]|].
  destruct (Url.encode_from (S pos) s) as [rest|e'] eqn:Hrest; [done|].
  cbn [mbind outcome_bind]. intros [= <-]. by apply (IH (S pos)).
Qed.

Lemma quote_chars s q c :
  code_points s -> Url.quote s = Return q -> c ∈ q ->
  Url.always_safe c = true \/ c = 37.
Proof.
  intros Hs. unfold Url.quote, Url.encode.
  destruct (Url.encode_from 0 s) as [bs|e] eqn:Hbs; [|done].
  cbn [mbind outcome_bind]. intros [= <-] Hin.
  apply list_elem_of_In, in_flat_map in Hin as (b & Hb & Hin).
  pose proof (encode_from_bytes _ _ _ Hs Hbs) as Hbytes.
  rewrite Forall_forall in Hbytes.
  apply (quote_byte_chars b); [apply Hbytes; by apply list_elem_of_In|].
  by apply list_elem_of_In.
Qed.

End Quote.

(** ** Nothing of the prompt is lost in the URL *)

Section Unquote.

Implicit Types (s q : str) (bs : list N) (c b n : N) (pos : nat).

Definition unhex (h : N) : N := if h <? 58 then h - 48 else h - 55.

(** A left inverse of the quoting of bytes. *)
Fixpoint unquote (q : str) : list N :=
  match q with
  | [] => []
  | c :: r =>
    if c =? 37
    then match r with
         | h :: l :: r' => (unhex h * 16 + unhex l) :: unquote r'
         | _ => []
         end
    else c :: unquote r
  end.

Lemma unhex_hex_upper n : n < 16 -> unhex (Url.hex_upper n) = n.
Proof.
  intros Hn. unfold unhex, Url.hex_upper. destruct (n <? 10) eqn:H10.
  - apply N.ltb_lt in H10. assert ((48 + n <? 58) = true) as -> by (apply N.ltb_lt; lia).
    lia.
  - apply N.ltb_ge in H10. assert ((55 + n <? 58) = false) as -> by (apply N.ltb_ge; lia).
    lia.
Qed.

Lemma percent_is_quoted : Url.always_safe 37 = false.
Proof. reflexivity. Qed.

Lemma unquote_quote_byte b q :
  b < 256 -> unquote (Url.quote_byte b ++ q) = b :: unquote q.
Proof.
  intros Hb. unfold Url.quote_byte. destruct (Url.always_safe b) eqn:Hs.
  - cbn [app unquote]. destruct (b =? 37) eqn:H37; [|done].
    apply N.eqb_eq in H37. subst b. by rewrite percent_is_quoted in Hs.
  - cbn [app unquote]. rewrite N.eqb_refl.
    rewrite !unhex_hex_upper.
    + f_equal. pose proof (N.Div0.div_mod b 16). lia.
    + apply N.mod_lt. lia.
    + apply N.Div0.div_lt_upper_bound. lia.
Qed.

Lemma unquote_quote bs :
  Forall (fun b => b < 256) bs -> unquote (flat_map Url.quote_byte bs) = bs.
Proof.
  induction 1 as [|b bs Hb Hbs IH]; [done|].
  cbn [flat_map]. rewrite unquote_quote_byte by done. by rewrite IH.
Qed.

Lemma utf8_decode_encode_char c bs :
  c < 1114112 ->
  Str.utf8_decode (Url.utf8_encode_char c ++ bs) = c :: Str.utf8_decode bs.
Proof.
  intros Hc. unfold Url.utf8_encode_char.
  pose proof (N.Div0.div_mod c 64) as D1.
  pose proof (N.mod_lt c 64 ltac:(lia)) as M1.
  pose proof (N.Div0.div_mod (c / 64) 64) as D2.
  pose proof (N.mod_lt (c / 64) 64 ltac:(lia)) as M2.
  pose proof (N.Div0.div_mod (c / 4096) 64) as D3.
  pose proof (N.mod_lt (c / 4096) 64 ltac:(lia)) as M3.
  assert (Q2 : c / 64 / 64 = c / 4096) by (by rewrite N.Div0.div_div).
  assert (Q3 : c / 4096 / 64 = c / 262144) by (by rewrite N.Div0.div_div).
  rewrite Q2 in D2. rewrite Q3 in D3. clear Q2 Q3.
  set (q1 := c / 64) in *. set (r1 := c mod 64) in *. set (r2 := q1 mod 64) in *.
  set (q2 := c / 4096) in *. set (r3 := q2 mod 64) in *. set (q3 := c / 262144) in *.
  clearbody r3 r2 r1 q3 q2 q1.
  destruct (c <? 128) eqn:H1.
  { cbn [app Str.utf8_decode]. by rewrite H1. }
  apply N.ltb_ge in H1.
  destruct (c <? 2048) eqn:H2.
  { apply N.ltb_lt in H2. cbn [app Str.utf8_decode].
    assert ((192 + q1 <? 128) = false) as -> by (apply N.ltb_ge; lia).
    assert ((192 + q1 <? 224) = true) as -> by (apply N.ltb_lt; lia).
    f_equal. lia. }
  apply N.ltb_ge in H2.
  destruct (c <? 65536) eqn:H3.
  { apply N.ltb_lt in H3. cbn [app Str.utf8_decode].
    assert ((224 + q2 <? 128) = false) as -> by (apply N.ltb_ge; lia).
    assert ((224 + q2 <? 224) = false) as -> by (apply N.ltb_ge; lia).
    assert ((224 + q2 <? 240) = true) as -> by (apply N.ltb_lt; lia).
    f_equal. lia. }
  apply N.ltb_ge in H3. cbn [app Str.utf8_decode].
  assert ((240 + q3 <? 128) = false) as -> by (apply N.ltb_ge; lia).
  assert ((240 + q3 <? 224) = false) as -> by (apply N.ltb_ge; lia).
  assert ((240 + q3 <? 240) = false) as -> by (apply N.ltb_ge; lia).
  f_equal. lia.
Qed.

Lemma utf8_decode_encode_from pos s bs :
  code_points s -> Url.encode_from pos s = Return bs -> Str.utf8_decode bs = s.
Proof.
  intros Hs. revert pos bs. induction Hs as [|c s Hc Hs IH]; intros pos bs.
  { by intros [= <-]. }
  cbn [Url.encode_from]. destruct (Url.is_surrogate c); [done|].
  destruct (Url.encode_from (S pos) s) as [rest|e] eqn:Hrest; [|done].
  cbn [mbind outcome_bind]. intros [= <-].
  rewrite utf8_decode_encode_char by done. f_equal. by apply (IH (S pos)).
Qed.

(** The prompt is what the URL path decodes to. *)
Lemma quote_decodes s q :
  code_points s -> Url.quote s = Return q -> Str.utf8_decode (unquote q) = s.
Proof.
  intros Hs. unfold Url.quote, Url.encode.
  destruct (Url.encode_from 0 s) as [bs|e] eqn:Hbs; [|done].
  cbn [mbind outcome_bind]. intros [= <-].
  rewrite unquote_quote by by apply (encode_from_bytes 0 s).
  by apply (utf8_decode_encode_from 0).
Qed.

Lemma quote_inj s s' q :
  code_points s -> code_points s' ->
  Url.quote s = Return q -> Url.quote s' = Return q -> s = s'.
Proof.
  intros Hs Hs' Hq Hq'.
  by rewrite <- (quote_decodes s q Hs Hq), <- (quote_decodes s' q Hs' Hq').
Qed.

End Unquote.

(** ** The answer of the image service *)

Section ImageService.

Implicit Types (resp : Response.t) (net : network) (w : world).

(** Whether [raise_for_status] raises. *)
Definition is_http_error (status : Z) : bool := (400 <=? status)%Z && (status <? 600)%Z.

Lemma error_message_nonempty (a b c d : str) :
  b <> [] -> exists x r, a ++ b ++ c ++ d = x :: r.
Proof.
  intros Hb. destruct a as [|x a]; [|by eauto].
  destruct b as [|x b]; [done|]. by eauto.
Qed.

Lemma raise_for_status_cases resp :
  if is_http_error (Response.status_code resp)
  then exists message,
         Response.raise_for_status resp
         = Raise (HTTPError (Response.status_code resp) (Response.text resp) message)
  else Response.raise_for_status resp = Return tt.
Proof.
  unfold is_http_error, Response.raise_for_status.
  assert (Hc : py " Client Error: " <> []) by (intros H; vm_compute in H; discriminate H).
  assert (Hs : py " Server Error: " <> []) by (intros H; vm_compute in H; discriminate H).
  destruct ((400 <=? Response.status_code resp)%Z && (Response.status_code resp <? 500)%Z)
    eqn:H4.
  { apply andb_true_iff in H4 as [H400 H500].
    assert ((400 <=? Response.status_code resp)%Z
            && (Response.status_code resp <? 600)%Z = true) as ->
      by (apply andb_true_iff; split; [done | lia]).
    destruct (error_message_nonempty (Str.of_Z (Response.status_code resp))
                (py " Client Error: ") (Response.reason resp)
                (py " for url: " ++ Response.url resp) Hc) as (x & r & ->).
    by eauto. }
  destruct ((500 <=? Response.status_code resp)%Z && (Response.status_code resp <? 600)%Z)
    eqn:H5.
  { apply andb_true_iff in H5 as [H500 H600].
    assert ((400 <=? Response.status_code resp)%Z
            && (Response.status_code resp <? 600)%Z = true) as ->
      by (apply andb_true_iff; split; [lia | done]).
    destruct (error_message_nonempty (Str.of_Z (Response.status_code resp))
                (py " Server Error: ") (Response.reason resp)
                (py " for url: " ++ Response.url resp) Hs) as (x & r & ->).
    by eauto. }
  assert ((400 <=? Response.status_code resp)%Z
          && (Response.status_code resp <? 600)%Z = false) as ->; [|done].
  apply andb_false_iff. apply andb_false_iff in H4, H5. lia.
Qed.

Lemma pollinations_result_cases resp :
  if is_http_error (Response.status_code resp)
  then exists message,
         pollinations_result resp
         = Raise (HTTPError (Response.status_code resp) (Response.text resp) message)
  else pollinations_result resp
       = Return (Response.content resp, image_filename (Response.content_type resp)).
Proof.
  pose proof (raise_for_status_cases resp) as H. unfold pollinations_result.
  destruct (is_http_error (Response.status_code resp)).
  - destruct H as [message ->]. by exists message.
  - by rewrite H.
Qed.

Lemma pollinations_run net model width height prompt q :
  Url.quote prompt = Return q ->
  _pollinations_image_sync net model width height prompt
  = (resp ← requests_get net (pollinations_url q)
             (pollinations_params model width height)
             (pollinations_headers (POLLINATIONS_API_KEY net)) 120;
     pollinations_result resp).
Proof. intros Hq. unfold _pollinations_image_sync. by rewrite Hq. Qed.

(** A prompt made of characters that are never quoted is its own path. *)
Lemma quote_safe (s : str) :
  Forall (fun c => Url.always_safe c = true) s -> Url.quote s = Return s.
Proof.
  intros Hs. unfold Url.quote, Url.encode.
  assert (Hgen : forall pos, Url.encode_from pos s = Return s).
  { induction Hs as [|c s Hc Hs IH]; intros pos; [done|].
    cbn [Url.encode_from].
    assert (Hlt : c < 128).
    { unfold Url.always_safe in Hc.
      rewrite !orb_true_iff, !andb_true_iff, !N.leb_le, !N.eqb_eq in Hc. lia. }
    assert (Url.is_surrogate c = false) as ->.
    { unfold Url.is_surrogate. apply andb_false_iff. left. apply N.leb_gt. lia. }
    rewrite (IH (S pos)). cbn [mbind outcome_bind]. unfold Url.utf8_encode_char.
    by apply N.ltb_lt in Hlt as ->. }
  rewrite Hgen. cbn [mbind outcome_bind]. f_equal.
  clear Hgen. induction Hs as [|c s Hc Hs IH]; [done|].
  cbn [flat_map]. unfold Url.quote_byte at 1. rewrite Hc. cbn [app]. by f_equal.
Qed.

End ImageService.

(** A response with the status 404 and a network that gives every request
    the same response. *)
Definition not_found : Response.t :=
  {| Response.status_code := 404; Response.reason := py "Not Found";
     Response.url := py "https://gen.pollinations.ai/image/a%20cat";
     Response.content_type := Some (py "text/plain");
     Response.content := [110; 111]; Response.text := py "no" |}.

Definition answering_network (resp : Response.t) : network :=
  {| POLLINATIONS_API_KEY := Some (py "sk_1");
     requests_get := fun _ _ _ _ => Return resp |}.

(** * The claims of the specification *)

(** C1, counterexample: 26 direct messages, each answered by the model, leave
    51 turns in the stored history: the 26th user turn brings the list to 51
    and it is cut to 50 (line 204), then the assistant turn is appended
    (line 259) and nothing cuts the list again. *)
Lemma history_holds_51_after_reply :
  (MAX_HISTORY_MESSAGES <
   length (stored (run_messages
                     (repeat (answering (py "ok"), direct_message (py "hi")) 26)
                     empty_world)
                  (py "dm_42")))%nat.
Proof. vm_compute. lia. Qed.

(** C1, as amended: through any run of handlers a stored history never
    exceeds 51 turns and the model is never sent more than 50 turns (after the
    system turn); [deepseek_chat] sends the model the last 50 turns of the
    stored history extended by the user turn, in order, the oldest ones being
    the ones left out, and stores that list, followed by the assistant turn
    when there is one. *)
Theorem history_bounded_when_model_called :
  (forall inbound w, bounded w -> bounded (run_messages inbound w))
  /\ (forall (E : env) key user_text w,
        let before := stored w key ++ [user_turn user_text] in
        let sent := last_messages before in
        let w' := (deepseek_chat E key user_text w).2 in
        before = take (length before - MAX_HISTORY_MESSAGES) before ++ sent
        /\ length sent = Nat.min MAX_HISTORY_MESSAGES (length before)
        /\ trace w' = trace w ++ [ModelCall (system_turn :: sent)]
        /\ (stored w' key = sent
            \/ exists reply, stored w' key = sent ++ [assistant_turn reply])).
Proof.
  split; [apply bounded_run_messages|].
  intros E key user_text w before sent w'.
  split; [apply last_messages_suffix|].
  split; [apply last_messages_length|].
  subst w'. rewrite deepseek_chat_run. fold before. fold sent.
  unfold at_model_call, sent_history. fold before. fold sent.
  destruct (chat_completion E _) as [c|e]; simpl.
  2: { split; [done|]. left. apply stored_insert. }
  destruct (structured_response _) as [r|e]; simpl.
  2: { split; [done|]. left. apply stored_insert. }
  destruct (Py.getitem r _) as [v|e]; simpl.
  2: { split; [done|]. left. apply stored_insert. }
  split; [done|]. right. exists v. apply stored_insert.
Qed.

Lemma history_bounded_when_model_called_witness :
  bounded empty_world
  /\ bounded (run_messages
                (repeat (answering (py "ok"), direct_message (py "hi")) 26)
                empty_world).
Proof.
  split; [apply bounded_empty|].
  apply (proj1 history_bounded_when_model_called). apply bounded_empty.
Defined.

(** C2: the structured response step does not degrade every parse failure
    to the fallback.  When the model answers with the bare number 123,
    [json.loads] succeeds with an [int], the membership test of line 231
    raises a [TypeError], which the handler of line 248 does not catch: the
    exception leaves [deepseek_chat], no assistant turn is stored, and
    [on_message] reports the exception to the user. *)
Theorem bare_number_raises_type_error :
  Json.loads (json_source (py "123")) = Some (PInt 123)
  /\ structured_response (py "123")
     = Raise (Error (py "TypeError") (py "argument of type 'int' is not iterable"))
  /\ structured_response (py "123") <> Return (fallback_result (py "123"))
  /\ (deepseek_chat (answering (py "123")) (py "dm_42") (py "hi") empty_world).1
     = Raise (Error (py "TypeError") (py "argument of type 'int' is not iterable"))
  /\ stored (on_message (answering (py "123")) (direct_message (py "hi"))
                        empty_world).2 (py "dm_42")
     = [user_turn (py "hi")]
  /\ trace (on_message (answering (py "123")) (direct_message (py "hi"))
                       empty_world).2
     = [ModelCall [system_turn; user_turn (py "hi")];
        Send (py "DeepSeek 调用失败：TypeError: argument of type 'int' is not iterable")].
Proof.
  split; [by vm_compute|]. split; [by vm_compute|]. split; [by vm_compute|].
  split; [by vm_compute|]. split; by vm_compute.
Qed.








(** C6: a width given as the JSON boolean true is not an integer of the
    payload, yet line 239 keeps it ([bool] is an instance of [int] and True
    is positive) and line 245 turns it into 64: the default 1024 is not
    substituted.  The example of the specification, with both dimensions
    absent, does get the defaults. *)
Theorem boolean_width_not_defaulted :
  (exists d, structured_response
               (Str.jq "{'need_image': true, 'reply': 'ok', 'width': true}")
             = Return (PDict d)
     /\ Dict.get (py "width") d = Some (PInt 64)
     /\ Dict.get (py "height") d = Some (PInt 1024))
  /\ (exists d, structured_response (Str.jq "{'need_image': true, 'reply': 'ok'}")
                = Return (PDict d)
        /\ Dict.get (py "image_prompt") d = Some (PStr [])
        /\ Dict.get (py "width") d = Some (PInt 1024)
        /\ Dict.get (py "height") d = Some (PInt 1024)).
Proof.
  split; eexists; (split; [vm_compute; reflexivity|]); repeat split; by vm_compute.
Qed.

(** C7: when the call of the model raises, [deepseek_chat] has called it
    once and raises the same exception; the stored history is the one that
    was sent, it ends with the user turn and has no assistant turn;
    [on_message] then sends the failure text and nothing else. *)
Theorem model_failure_propagates (E : env) (key user_text : str) (w : world) (e : exn) :
  chat_completion E (system_turn :: sent_history w key user_text) = Raise e ->
  let sent := sent_history w key user_text in
  let run := deepseek_chat E key user_text w in
  let handled := chat_branch E key user_text w in
  run.1 = Raise e
  /\ trace run.2 = trace w ++ [ModelCall (system_turn :: sent)]
  /\ stored run.2 key = sent
  /\ last sent = Some (user_turn user_text)
  /\ handled.1 = Return tt
  /\ trace handled.2
     = trace run.2 ++ [Send (py "DeepSeek 调用失败：" ++ exn_name e ++ py ": "
                             ++ exn_text e)]
  /\ conversation_history handled.2 = conversation_history run.2.
Proof.
  intros He sent run handled. subst run handled.
  rewrite (chat_branch_failure E key user_text w e He).
  rewrite deepseek_chat_run, He. unfold at_model_call.
  cbn [fst snd trace conversation_history].
  split; [done|]. split; [done|]. split; [apply stored_insert|].
  split; [apply last_messages_last|]. split; [done|].
  split; [by rewrite app_assoc | done].
Qed.

Lemma model_failure_propagates_witness :
  chat_completion (failing (Error (py "APIConnectionError") (py "Connection error.")))
    (system_turn :: sent_history empty_world (py "dm_42") (py "hello"))
  = Raise (Error (py "APIConnectionError") (py "Connection error."))
  /\ stored (deepseek_chat (failing (Error (py "APIConnectionError")
                                           (py "Connection error.")))
                           (py "dm_42") (py "hello") empty_world).2 (py "dm_42")
     = sent_history empty_world (py "dm_42") (py "hello").
Proof.
  split; [reflexivity|].
  apply (model_failure_propagates
           (failing (Error (py "APIConnectionError") (py "Connection error.")))
           (py "dm_42") (py "hello") empty_world
           (Error (py "APIConnectionError") (py "Connection error.")) eq_refl).
Defined.








(** * Further properties of the code *)

(** X1 ([get_session_key], lines 117-124): two messages get the same session
    key exactly when both are direct messages of the same author or both are
    channel messages of the same channel; a direct message never shares its
    key with a channel. *)
Theorem session_key_identifies_conversation (m1 m2 : Message) :
  get_session_key m1 = get_session_key m2 <->
  is_dm_channel m1 = is_dm_channel m2
  /\ (if is_dm_channel m1 then author_id m1 = author_id m2
      else channel_id m1 = channel_id m2).
Proof.
  unfold get_session_key.
  destruct (is_dm_channel m1), (is_dm_channel m2); split.
  - intros H%app_inv_head%of_Z_inj. done.
  - by intros [_ ->].
  - intros H. vm_compute (py "dm_") in H. vm_compute (py "channel_") in H.
    discriminate H.
  - by intros [? _].
  - intros H. vm_compute (py "dm_") in H. vm_compute (py "channel_") in H.
    discriminate H.
  - by intros [? _].
  - intros H%app_inv_head%of_Z_inj. done.
  - by intros [_ ->].
Qed.

(** X2 ([on_message], lines 264-417, with [deepseek_chat] and
    [clear_session]): whatever a message is and whatever the services
    answer, the handler changes the stored history of no session other than
    the one of the message. *)
Theorem other_sessions_untouched (E : env) (message : Message) (w : world) (key : str) :
  key <> get_session_key message ->
  conversation_history (on_message E message w).2 !! key
  = conversation_history w !! key.
Proof. apply on_message_other_key. Qed.

Lemma other_sessions_untouched_witness :
  py "channel_5" <> get_session_key (direct_message (py "hi"))
  /\ conversation_history
       (on_message (answering (py "ok")) (direct_message (py "hi"))
          {| conversation_history := {[ py "channel_5" := [user_turn (py "x")] ]};
             trace := [] |}).2 !! py "channel_5"
     = Some [user_turn (py "x")].
Proof.
  assert (Hkey : py "channel_5" <> get_session_key (direct_message (py "hi")))
    by (intros H; vm_compute in H; discriminate H).
  split; [exact Hkey|].
  rewrite (other_sessions_untouched (answering (py "ok")) (direct_message (py "hi"))
             _ (py "channel_5") Hkey).
  cbn [conversation_history]. apply lookup_singleton_eq.
Defined.

(** X3 ([clear_session], lines 127-130, and the [/clear] command, lines
    319-322): after [/clear] the session has no stored turn, the only thing
    sent is the confirmation, no other session is changed, a session that was
    never stored gets no entry, and the next call of the model for this
    session carries the system turn and the new user turn only. *)
Theorem clear_forgets_the_session (E : env) (message : Message) (w : world) :
  addressed message = true -> command_text E message = py "/clear" ->
  let key := get_session_key message in
  let after := (on_message E message w).2 in
  trace after = trace w ++ [Send (py "✅ 已清除本会话的上下文历史。")]
  /\ stored after key = []
  /\ (forall key', key' <> key ->
        conversation_history after !! key' = conversation_history w !! key')
  /\ (conversation_history w !! key = None ->
      conversation_history after = conversation_history w)
  /\ (forall (E' : env) (user_text : str),
        trace (deepseek_chat E' key user_text after).2
        = trace after ++ [ModelCall [system_turn; user_turn user_text]]).
Proof.
  intros Ha Hc key after.
  assert (Hrun : on_message E message w = on_content E key (py "/clear") w).
  { rewrite on_message_run, Ha, Hc. reflexivity. }
  assert (Hstored : stored after key = []).
  { subst after. rewrite Hrun, on_content_clear. unfold stored.
    cbn [snd conversation_history].
    destruct (conversation_history w !! key) eqn:Hk.
    - by rewrite lookup_insert_eq.
    - by rewrite Hk. }
  split.
  { subst after. rewrite Hrun, on_content_clear. reflexivity. }
  split; [exact Hstored|].
  split.
  { intros key' Hne. by apply on_message_other_key. }
  split.
  { intros Hk. subst after. rewrite Hrun, on_content_clear.
    cbn [snd conversation_history]. by rewrite Hk. }
  intros E' user_text. rewrite deepseek_chat_trace.
  unfold sent_history. rewrite Hstored. reflexivity.
Qed.

Lemma clear_forgets_the_session_witness :
  addressed (direct_message (py " /clear ")) = true
  /\ command_text (answering (py "ok")) (direct_message (py " /clear ")) = py "/clear"
  /\ stored (run_messages [ (answering (py "ok"), direct_message (py "hi"));
                            (answering (py "ok"), direct_message (py " /clear ")) ]
                          empty_world) (py "dm_42")
     = [].
Proof.
  assert (Ha : addressed (direct_message (py " /clear ")) = true)
    by (vm_compute; reflexivity).
  assert (Hc : command_text (answering (py "ok")) (direct_message (py " /clear "))
               = py "/clear") by (vm_compute; reflexivity).
  split; [exact Ha|]. split; [exact Hc|].
  apply (clear_forgets_the_session (answering (py "ok")) (direct_message (py " /clear "))
           (on_message (answering (py "ok")) (direct_message (py "hi")) empty_world).2
           Ha Hc).
Defined.





(** X6 ([on_message], lines 264-417): one message causes at most one call
    of the model and at most one request of an image; a command ([/clear],
    [/help], [/create_pic ...]) causes no call of the model, and [/help] only
    sends the help text; the call of the model, when there is one, carries
    the system turn and the history of the session of the message. *)
Theorem one_call_per_message (E : env) (message : Message) (w : world) :
  exists tail,
    trace (on_message E message w).2 = trace w ++ tail
    /\ (length (model_calls tail) <= 1)%nat
    /\ (length (image_calls tail) <= 1)%nat
    /\ (is_command (command_text E message) = true -> model_calls tail = [])
    /\ (addressed message = true -> command_text E message = py "/help" ->
        tail = [Send HELP_TEXT])
    /\ (forall ev, ev ∈ model_calls tail ->
          ev = ModelCall (system_turn
                            :: sent_history w (get_session_key message)
                                 (command_text E message))).
Proof.
  exists (on_message_events E message w).
  split; [apply on_message_trace|].
  rewrite on_message_events_model_calls.
  split.
  { destruct (_ && _ && _); simpl; lia. }
  split; [apply on_message_events_image_calls|].
  split.
  { intros ->. by rewrite andb_false_r. }
  split.
  { intros Ha Hc. unfold on_message_events, on_content_events. rewrite Ha, Hc.
    assert (Str.eqb (py "/help") (py "/clear") = false) as ->
      by (apply eqb_false; keys_differ).
    rewrite eqb_refl. reflexivity. }
  intros ev Hin. destruct (_ && _ && _); [|by apply elem_of_nil in Hin].
  by apply list_elem_of_singleton in Hin.
Qed.

Lemma one_call_per_message_witness :
  exists tail,
    trace (on_message (answering (py "ok")) (direct_message (py "/help")) empty_world).2
    = trace empty_world ++ tail
    /\ model_calls tail = [].
Proof.
  destruct (one_call_per_message (answering (py "ok")) (direct_message (py "/help"))
              empty_world) as (tail & Ht & _ & _ & Hcmd & _).
  exists tail. split; [exact Ht|]. apply Hcmd. vm_compute. reflexivity.
Defined.

(** X7 ([on_message], lines 361-373 and 392-407, with the clamp of
    [deepseek_chat], lines 239-246): every request of an image that a
    message causes has a width and a height between 1 and 4096, a model and
    a prompt that are not empty; a request that does not come from
    [/create_pic] uses the default model and dimensions of 64 at least.  So
    does every request of a run that starts with no trace. *)
Theorem image_requests_are_bounded :
  (forall (E : env) (message : Message) (w : world) model width height prompt,
     ImageCall model width height prompt ∈ trace (on_message E message w).2 ->
     ImageCall model width height prompt ∈ trace w
     \/ ((1 <= width <= 4096)%Z /\ (1 <= height <= 4096)%Z
         /\ model <> [] /\ prompt <> []
         /\ (Str.startswith (py "/create_pic") (command_text E message) = false ->
             model = DEFAULT_IMAGE_MODEL /\ (64 <= width)%Z /\ (64 <= height)%Z)))
  /\ (forall inbound model width height prompt,
        ImageCall model width height prompt ∈ trace (run_messages inbound empty_world) ->
        (1 <= width <= 4096)%Z /\ (1 <= height <= 4096)%Z
        /\ model <> [] /\ prompt <> []).
Proof.
  split.
  - intros E message w model width height prompt Hin.
    rewrite on_message_trace in Hin. apply elem_of_app in Hin as [Hin|Hin]; [by left|].
    right. by apply on_message_events_image in Hin.
  - intros inbound model width height prompt Hin.
    assert (Hall : Forall image_call_in_bounds (trace (run_messages inbound empty_world)))
      by (apply image_calls_in_bounds_run; constructor).
    rewrite Forall_forall in Hall. exact (Hall _ Hin).
Qed.

Lemma image_requests_are_bounded_witness :
  ImageCall (py "turbo") 512 768 (py "a cat")
    ∈ trace (run_messages
               [(answering (py "ok"),
                 direct_message (py "/create_pic turbo 512 768 a cat"))]
               empty_world)
  /\ (1 <= 512 <= 4096)%Z /\ (1 <= 768 <= 4096)%Z
  /\ py "turbo" <> [] /\ py "a cat" <> [].
Proof.
  assert (Hin : ImageCall (py "turbo") 512 768 (py "a cat")
                  ∈ trace (run_messages
                             [(answering (py "ok"),
                               direct_message (py "/create_pic turbo 512 768 a cat"))]
                             empty_world)).
  { vm_compute. right. left. }
  split; [exact Hin|].
  exact (proj2 image_requests_are_bounded _ _ _ _ _ Hin).
Defined.









(** X12 (the mentions of [on_message], lines 302-313): for a message that
    mentions the bot and whose stripped content is the mention of the bot,
    some whitespace and a text that is stripped and contains no [<@], the
    handler goes on with that text alone, as the command or the chat text of
    the session of the message; when nothing follows the mention, it sends
    the greeting and nothing else.  A content without [<@] is handed on as
    it is. *)
Theorem mention_is_removed (E : env) (message : Message) (w : world) :
  author_bot message = false -> mentions_client message = true ->
  let content := Str.strip (default [] (message_content message)) in
  (forall ws text,
     content = py "<@" ++ Str.of_Z (client_user_id E) ++ py ">" ++ ws ++ text ->
     all_chars Str.isspace ws -> Str.contains (py "<@") text = false ->
     Str.strip text = text ->
     on_message E message w =
     match text with
     | [] => emit (Send (py "你好！有什么可以帮你的吗？发送 `/help` 查看帮助。")) w
     | _ :: _ => on_content E (get_session_key message) text w
     end)
  /\ (content <> [] -> Str.contains (py "<@") content = false ->
      on_message E message w = on_content E (get_session_key message) content w).
Proof.
  intros Hbot Hm content.
  assert (Hrun : content <> [] ->
    on_message E message w =
    match strip_mentions E message content with
    | [] => emit (Send greeting_text) w
    | _ :: _ =>
      on_content E (get_session_key message) (strip_mentions E message content) w
    end).
  { intros Hne. rewrite on_message_run. unfold addressed, command_text.
    fold content. rewrite Hbot, Hm.
    assert (Str.eqb content [] = false) as -> by (by apply eqb_false).
    rewrite orb_true_r. reflexivity. }
  split.
  - intros ws text Hc Hws Htext Hstrip.
    rewrite Hrun.
    2: { rewrite Hc. destruct mention_opening as [_ ->]. done. }
    rewrite Hc.
    change (py "<@" ++ Str.of_Z (client_user_id E) ++ py ">" ++ ws ++ text)
      with (py "<@" ++ Str.of_Z (client_user_id E) ++ (py ">" ++ (ws ++ text))).
    replace (py "<@" ++ Str.of_Z (client_user_id E) ++ py ">" ++ ws ++ text)
      with (user_mention E ++ ws ++ text)
      by (unfold user_mention; by rewrite <- !app_assoc).
    by rewrite (strip_mentions_prefix E message ws text Hws Htext Hstrip).
  - intros Hne Hc. rewrite (Hrun Hne), (strip_mentions_plain E message content Hc).
    assert (Hs : Str.strip content = content) by apply strip_strip.
    rewrite Hs. by destruct content.
Qed.

Lemma mention_is_removed_witness :
  on_message (answering (py "ok")) (channel_mention (py " <@7>  /clear ")) empty_world
  = on_content (answering (py "ok")) (py "channel_5") (py "/clear") empty_world.
Proof.
  destruct (mention_is_removed (answering (py "ok"))
              (channel_mention (py " <@7>  /clear ")) empty_world eq_refl eq_refl)
    as [Hprefix _].
  apply (Hprefix (py "  ") (py "/clear")).
  - vm_compute. reflexivity.
  - apply Forall_forall. intros c Hin. vm_compute in Hin.
    repeat (apply elem_of_cons in Hin as [->|Hin]; [reflexivity|]).
    by apply elem_of_nil in Hin.
  - vm_compute. reflexivity.
  - vm_compute. reflexivity.
Defined.

(** X13 ([_pollinations_image_sync], lines 145-163): the prompt reaches the
    service percent-encoded only.  When the prompt holds no surrogate, the
    one request is made to the address of the service followed by a path of
    letters, digits, [_.-~] and percent signs, so that no character of the
    prompt can end the path segment or start a query; a prompt of letters,
    digits and [_.-~] is its own path; two prompts with the same path are the
    same.  When the prompt holds a surrogate, the function raises a
    [UnicodeEncodeError] whatever the network answers. *)
Theorem prompt_is_percent_encoded (net : network) (model : str) (width height : Z)
    (prompt : str) :
  code_points prompt ->
  match Url.quote prompt with
  | Return q =>
    (forall c, c ∈ prompt -> Url.is_surrogate c = false)
    /\ (forall c, c ∈ q -> Url.always_safe c = true \/ c = 37)
    /\ (forall c, c ∈ q -> c <> 47 /\ c <> 63 /\ c <> 35 /\ c <> 38 /\ c <> 32)
    /\ (Forall (fun c => Url.always_safe c = true) prompt -> q = prompt)
    /\ (forall prompt', code_points prompt' -> Url.quote prompt' = Return q ->
                        prompt' = prompt)
    /\ _pollinations_image_sync net model width height prompt
       = (resp ← requests_get net (py "https://gen.pollinations.ai/image/" ++ q)
                  (pollinations_params model width height)
                  (pollinations_headers (POLLINATIONS_API_KEY net)) 120;
          pollinations_result resp)
  | Raise e =>
    (exists c, c ∈ prompt /\ Url.is_surrogate c = true)
    /\ exn_name e = py "UnicodeEncodeError"
    /\ _pollinations_image_sync net model width height prompt = Raise e
  end.
Proof.
  intros Hp. destruct (Url.quote prompt) as [q|e] eqn:Hq.
  - assert (Hsafe : forall c, c ∈ q -> Url.always_safe c = true \/ c = 37)
      by (intros c; by apply (quote_chars prompt q c)).
    split.
    { intros c Hin. destruct (Url.is_surrogate c) eqn:Hc; [|done].
      destruct (proj2 (encode_from_raises 0 prompt)) as [e He]; [by eauto|].
      unfold Url.quote, Url.encode in Hq. by rewrite He in Hq. }
    split; [exact Hsafe|].
    split.
    { intros c Hin. destruct (Hsafe c Hin) as [Hc| ->]; [|done].
      repeat split; intros ->; discriminate Hc. }
    split.
    { intros Hall. rewrite (quote_safe prompt Hall) in Hq. by injection Hq. }
    split.
    { intros prompt' Hp' Hq'. by apply (quote_inj prompt' prompt q). }
    rewrite (pollinations_run net model width height prompt q Hq).
    unfold pollinations_url. reflexivity.
  - split.
    { apply (encode_from_raises 0). unfold Url.quote, Url.encode in Hq.
      destruct (Url.encode_from 0 prompt) as [bs|e'] eqn:He; [done|]. by eauto. }
    split.
    { unfold Url.quote, Url.encode in Hq.
      destruct (Url.encode_from 0 prompt) as [bs|e'] eqn:He; [done|].
      cbn [mbind outcome_bind] in Hq. injection Hq as <-.
      by apply (encode_from_error 0 prompt). }
    unfold _pollinations_image_sync. by rewrite Hq.
Qed.

Lemma prompt_is_percent_encoded_witness :
  code_points (Str.jq "a cat/?x=1&y 猫")
  /\ Url.quote (Str.jq "a cat/?x=1&y 猫") = Return (py "a%20cat%2F%3Fx%3D1%26y%20%E7%8C%AB")
  /\ forall c, c ∈ py "a%20cat%2F%3Fx%3D1%26y%20%E7%8C%AB" ->
               c <> 47 /\ c <> 63 /\ c <> 35 /\ c <> 38 /\ c <> 32.
Proof.
  assert (Hcp : code_points (Str.jq "a cat/?x=1&y 猫"))
    by (apply code_points_check; vm_compute; reflexivity).
  assert (Hq : Url.quote (Str.jq "a cat/?x=1&y 猫")
               = Return (py "a%20cat%2F%3Fx%3D1%26y%20%E7%8C%AB"))
    by (vm_compute; reflexivity).
  split; [exact Hcp|]. split; [exact Hq|].
  pose proof (prompt_is_percent_encoded (answering_network not_found)
                (py "flux") 1024 1024 (Str.jq "a cat/?x=1&y 猫") Hcp) as H.
  rewrite Hq in H. exact (proj1 (proj2 (proj2 H))).
Defined.

(** X14 ([_pollinations_image_sync], lines 163-174, with the two callers
    of [pollinations_image] in [on_message], lines 371-379 and 393-414): the
    status of the response decides what the user gets.  With a status from
    400 to 599, [/create_pic] sends the status and the first 800 characters of
    the body, and the image stage of the default branch sends the status; with
    any other status the body of the response is sent as a file, named after
    the content type. *)
Theorem http_status_decides_the_answer (E : env) (net : network) (w : world)
    (model : str) (width height : Z) (prompt q : str) (resp : Response.t) :
  Url.quote prompt = Return q ->
  requests_get net (pollinations_url q) (pollinations_params model width height)
    (pollinations_headers (POLLINATIONS_API_KEY net)) 120 = Return resp ->
  let status := Response.status_code resp in
  let failed := ((400 <=? status)%Z && (status <? 600)%Z) in
  let file := SendFile (Response.content resp)
                       (image_filename (Response.content_type resp)) in
  (forall content wd ht,
     Re.re_match CREATE_PIC_RE content = Some [model; wd; ht; prompt] ->
     width = Str.int_of_digits wd -> height = Str.int_of_digits ht ->
     dimensions_rejected width height = false ->
     trace (create_pic_branch (with_requests E net) content w).2
     = trace w
       ++ [Send (generating_text model width height prompt);
           ImageCall model width height prompt;
           if failed
           then Send (py "Pollinations 请求失败：HTTP " ++ Str.of_Z status ++ nl
                      ++ take 800 (Response.text resp))
           else file])
  /\ (forall result,
        model = DEFAULT_IMAGE_MODEL ->
        Py.getitem result (py "image_prompt") = Return (PStr prompt) ->
        Py.getitem result (py "width") = Return (PInt width) ->
        Py.getitem result (py "height") = Return (PInt height) ->
        trace (image_stage (with_requests E net) result w).2
        = trace w
          ++ [Send (image_announce_text width height prompt);
              ImageCall DEFAULT_IMAGE_MODEL width height prompt;
              if failed
              then Send (py "⚠️ 图片生成失败：HTTP " ++ Str.of_Z status)
              else file]).
Proof.
  intros Hq Hget status failed file.
  assert (Hrun : _pollinations_image_sync net model width height prompt
                 = pollinations_result resp).
  { rewrite (pollinations_run net model width height prompt q Hq), Hget. reflexivity. }
  pose proof (pollinations_result_cases resp) as Hres.
  fold status in Hres. unfold is_http_error in Hres. fold failed in Hres.
  split.
  - intros content wd ht Hm Hw Hh Hok. subst width height.
    rewrite create_pic_branch_run. cbn [snd trace]. f_equal.
    unfold create_pic_events. rewrite Hm, Hok.
    change (pollinations_image (with_requests E net))
      with (_pollinations_image_sync net).
    rewrite Hrun. cbn [app]. do 2 f_equal.
    destruct failed.
    + destruct Hres as [message ->]. reflexivity.
    + rewrite Hres. reflexivity.
  - intros result -> Hp Hw Hh.
    rewrite image_stage_run. cbn [snd trace]. f_equal.
    unfold image_stage_events. rewrite Hp, Hw, Hh.
    change (pollinations_image (with_requests E net))
      with (_pollinations_image_sync net).
    rewrite Hrun. cbn [app]. do 2 f_equal.
    destruct failed.
    + destruct Hres as [message ->]. reflexivity.
    + rewrite Hres. reflexivity.
Qed.

Lemma http_status_decides_the_answer_witness :
  trace (create_pic_branch (with_requests (answering (py "ok")) (answering_network not_found))
           (py "/create_pic flux 512 768 a cat") empty_world).2
  = [Send (generating_text (py "flux") 512 768 (py "a cat"));
     ImageCall (py "flux") 512 768 (py "a cat");
     Send (py "Pollinations 请求失败：HTTP " ++ Str.of_Z 404 ++ nl ++ take 800 (py "no"))].
Proof.
  destruct (http_status_decides_the_answer (answering (py "ok"))
              (answering_network not_found) empty_world
              (py "flux") 512 768 (py "a cat") (py "a%20cat") not_found)
    as [Hcommand _].
  - vm_compute. reflexivity.
  - reflexivity.
  - apply (Hcommand (py "/create_pic flux 512 768 a cat") (py "512") (py "768")).
    + vm_compute. reflexivity.
    + vm_compute. reflexivity.
    + vm_compute. reflexivity.
    + vm_compute. reflexivity.
Defined.

(** X15 ([chunk_text], lines 133-136): for every positive size [n], the
    chunks of [s] put together give [s] back, there are as many as [n] goes
    into the length of [s], rounded up (none for the empty string), every
    chunk that is followed by another one has exactly [n] characters, and
    the last one has what is left, at least one character and at most
    [n]. *)
Theorem chunks_are_full_but_the_last (s : str) (n : nat) :
  (0 < n)%nat ->
  let parts := chunk_text s n in
  concat parts = s
  /\ length parts = ((length s + n - 1) / n)%nat
  /\ (s = [] -> parts = [])
  /\ (forall i part, parts !! i = Some part -> (S i < length parts)%nat ->
                     length part = n)
  /\ (forall part, last parts = Some part ->
        (length part = length s - (length parts - 1) * n)%nat
        /\ (0 < length part <= n)%nat).
Proof.
  intros Hn parts. subst parts.
  split; [by apply chunk_text_concat|].
  split; [apply chunk_text_length|].
  split; [intros ->; apply chunk_text_empty|].
  split; [intros i part; by apply chunk_text_full|].
  intros part. by apply chunk_text_last.
Qed.

Lemma chunks_are_full_but_the_last_witness :
  map length (chunk_text (py "abcdefgh") 3) = [3; 3; 2]%nat
  /\ concat (chunk_text (py "abcdefgh") 3) = py "abcdefgh".
Proof.
  split; [vm_compute; reflexivity|].
  apply (chunks_are_full_but_the_last (py "abcdefgh") 3). lia.
Defined.


